(** * Elevea backend: billing state, settings snapshots and feedback moderation

    A shallow embedding of the service layer of the Elevea backend
    ([SiteService], [SubscriptionService], [SettingsService],
    [FeedbackService], [AuthService], the drizzle-backed storage), of the
    token middleware and of the routes in front of them, followed by the
    properties proved about it.

    Conventions of the embedding:
    - a SQLite table is the list of its rows in rowid order; a nullable
      column is an [option];
    - DATETIME cells and the clock are seconds since the epoch ([Z]); the
      clock is passed explicitly as [now]; where SQLite compares the
      content of a date cell, the content is given by [DatetimeCells];
    - an [async] function that may [throw] returns a [JS.result]; the
      database is threaded through the functions that write to it;
    - [console.log] and [console.error] append to an explicit log. *)

From Stdlib Require Import ZArith QArith String Ascii List Bool.
From Stdlib Require Import DecimalString.
From stdpp Require Import base option list strings gmap sorting.

Set Warnings "-register-all".

(* ===================================================================== *)
(** * JavaScript values, strings and exceptions *)
(* ===================================================================== *)

Module JS.

(** What a [throw] carries: [new Error(message)], one of the built-in
    errors raised by the runtime itself, or what better-sqlite3 throws when
    a statement cannot run (a value that it cannot bind or that SQLite
    does not take, a failed constraint). *)
Inductive exn : Type :=
| Error (message : string)
| TypeError
| SyntaxError
| SqliteError.

Inductive result (A : Type) : Type :=
| Ok (a : A)
| Throw (e : exn).
Arguments Ok {A} a.
Arguments Throw {A} e.

(** Sequencing: the first [throw] ends the computation.  With these
    instances [x ← r; k] reads [const x = await r; k]. *)
#[global] Instance result_ret : MRet result := @Ok.
#[global] Instance result_bind : MBind result := λ A B k r,
  match r with
  | Ok a => k a
  | Throw e => Throw e
  end.

(** [try { body } catch (error) { handler }] *)
Definition try_catch {A : Type} (body : result A) (handler : exn → result A)
  : result A :=
  match body with
  | Ok a => Ok a
  | Throw e => handler e
  end.

(** [for (const x of xs) { s = body(s, x) }]: a [throw] that escapes the
    body ends the loop. *)
Fixpoint for_of {A S : Type} (body : S → A → result S) (xs : list A) (s : S)
  : result S :=
  match xs with
  | [] => Ok s
  | x :: rest => s' ← body s x; for_of body rest s'
  end.

(** ** Strings

    [trim], [toUpperCase] and [toLowerCase] on the ASCII range; bytes
    outside it are left as they are. *)

Definition upper_ascii (c : ascii) : ascii :=
  let n := nat_of_ascii c in
  if Nat.leb 97 n && Nat.leb n 122 then ascii_of_nat (n - 32) else c.

Definition lower_ascii (c : ascii) : ascii :=
  let n := nat_of_ascii c in
  if Nat.leb 65 n && Nat.leb n 90 then ascii_of_nat (n + 32) else c.

Fixpoint map_string (f : ascii → ascii) (s : string) : string :=
  match s with
  | EmptyString => EmptyString
  | String c s' => String (f c) (map_string f s')
  end.

Definition toUpperCase : string → string := map_string upper_ascii.
Definition toLowerCase : string → string := map_string lower_ascii.

Fixpoint trimStart (s : string) : string :=
  match s with
  | EmptyString => EmptyString
  | String c s' => if Ascii.is_space c then trimStart s' else s
  end.

Definition trimEnd (s : string) : string :=
  String.rev (trimStart (String.rev s)).

Definition trim (s : string) : string := trimEnd (trimStart s).

(** Truthiness of a string, and of a value that may be [null] or
    [undefined]. *)
Definition truthy_string (s : string) : bool :=
  match s with EmptyString => false | String _ _ => true end.

Definition truthy_opt_string (o : option string) : bool :=
  match o with Some s => truthy_string s | None => false end.

(** [x === 'literal'] for a value that is a string, [null] or [undefined]. *)
Definition strict_eq (x : option string) (literal : string) : bool :=
  match x with Some s => String.eqb s literal | None => false end.

(** ** JSON values

    What [req.body] and [JSON.parse] produce.  An object is a finite map
    from property names to values. *)
Inductive json : Type :=
| JNull
| JBool (b : bool)
| JNum (q : Q)
| JStr (s : string)
| JArr (items : list json)
| JObj (props : gmap string json).

(** A JavaScript value read from a property: [None] is [undefined]. *)
Definition truthy (v : option json) : bool :=
  match v with
  | None => false
  | Some JNull => false
  | Some (JBool b) => b
  | Some (JNum q) => negb (Qeq_bool q 0)
  | Some (JStr s) => truthy_string s
  | Some (JArr _) => true
  | Some (JObj _) => true
  end.

(** [v.key] for a property name that is neither an array index nor a
    built-in such as [length]: reading from [null] throws, reading from a
    primitive or an array yields [undefined]. *)
Definition get (v : json) (key : string) : result (option json) :=
  match v with
  | JNull => Throw TypeError
  | JObj props => Ok (props !! key)
  | _ => Ok None
  end.

(** [delete v.key] for such a property name: it removes an own property
    of an object and does nothing to any other non-null value. *)
Definition delete_prop (v : json) (key : string) : json :=
  match v with
  | JObj props => JObj (delete key props)
  | _ => v
  end.

(** [v.key = x] on an object. *)
Definition set_prop (v : json) (key : string) (x : json) : json :=
  match v with
  | JObj props => JObj (<[key := x]> props)
  | _ => v
  end.

Definition index_key (i : nat) : string :=
  NilEmpty.string_of_uint (Nat.to_uint i).

Fixpoint indexed (i : nat) (items : list json) : list (string * json) :=
  match items with
  | [] => []
  | x :: rest => (index_key i, x) :: indexed (S i) rest
  end.

Fixpoint chars (s : string) : list json :=
  match s with
  | EmptyString => []
  | String c s' => JStr (String c EmptyString) :: chars s'
  end.

(** [{ ...v }]: the own enumerable properties of [v] copied into a fresh
    object (one level deep).  An array and a string contribute their
    indices, the other primitives and [null] nothing. *)
Definition spread (v : json) : gmap string json :=
  match v with
  | JObj props => props
  | JArr items => list_to_map (indexed 0 items)
  | JStr s => list_to_map (indexed 0 (chars s))
  | _ => ∅
  end.

(** ** Text holding JSON

    [JSON.stringify] and [JSON.parse] belong to the runtime.  Of the text
    in a column the model keeps what the parser makes of it: the value it
    denotes, or the fact that it is not JSON at all. *)
Inductive text : Type :=
| Stringified (v : json)
| Malformed (raw : string).

Definition JSON_stringify (v : json) : text := Stringified v.

Definition JSON_parse (t : text) : result json :=
  match t with
  | Stringified v => Ok v
  | Malformed _ => Throw SyntaxError
  end.

End JS.

Export JS(exn(..), result(..), json(..), text(..)).


(* ===================================================================== *)
(** * The database (src/src/db/schema.sql) *)
(* ===================================================================== *)

Module Users.
Record row : Type := {
  id : Z;                            (* INTEGER PRIMARY KEY AUTOINCREMENT *)
  role : string;
  email : string;
  password_hash : string;
  site_slug : option string;
  plan : option string;
  billing_status : option string;    (* TEXT DEFAULT 'pending', nullable *)
  billing_next : option Z;           (* DATETIME, nullable *)
  billing_amount : option Q;
  billing_currency : option string;
  billing_provider : option string;
  created_at : Z;
  updated_at : Z
}.

(** [UPDATE users SET billing_status = ?]; the trigger
    [update_users_updated_at] stamps the row. *)
Definition set_billing_status (status : option string) (now : Z) (u : row) : row :=
  {| id := id u; role := role u; email := email u;
     password_hash := password_hash u; site_slug := site_slug u;
     plan := plan u; billing_status := status;
     billing_next := billing_next u; billing_amount := billing_amount u;
     billing_currency := billing_currency u;
     billing_provider := billing_provider u;
     created_at := created_at u; updated_at := now |}.
End Users.

Module Sites.
Record row : Type := {
  id : Z;
  slug : string;                     (* TEXT NOT NULL UNIQUE *)
  active : bool;                     (* BOOLEAN DEFAULT 1 *)
  notes : option string;
  vip_pin_hash : option string;
  created_at : Z;
  updated_at : Z
}.

(** [UPDATE sites SET active = ?]; the trigger [update_sites_updated_at]
    stamps the row. *)
Definition set_active (a : bool) (now : Z) (s : row) : row :=
  {| id := id s; slug := slug s; active := a; notes := notes s;
     vip_pin_hash := vip_pin_hash s; created_at := created_at s;
     updated_at := now |}.
End Sites.

Module SettingsKv.
Record row : Type := {
  id : Z;
  site_slug : string;
  settings_json : text;              (* TEXT NOT NULL *)
  created_at : Z
}.
End SettingsKv.

Module Feedbacks.
Record row : Type := {
  id : Z;
  site_slug : string;
  name : option string;
  email : option string;
  phone : option string;
  rating : Q;                        (* INTEGER affinity: a fractional number is kept as REAL *)
  comment : string;
  approved : bool;                   (* BOOLEAN DEFAULT 0 *)
  created_at : Z
}.

Definition set_approved (a : bool) (f : row) : row :=
  {| id := id f; site_slug := site_slug f; name := name f; email := email f;
     phone := phone f; rating := rating f; comment := comment f;
     approved := a; created_at := created_at f |}.
End Feedbacks.

Record database : Type := {
  users : list Users.row;
  sites : list Sites.row;
  settings_kv : list SettingsKv.row;
  feedbacks : list Feedbacks.row
}.

Definition with_users (us : list Users.row) (db : database) : database :=
  {| users := us; sites := sites db;
     settings_kv := settings_kv db; feedbacks := feedbacks db |}.

Definition with_sites (ss : list Sites.row) (db : database) : database :=
  {| users := users db; sites := ss;
     settings_kv := settings_kv db; feedbacks := feedbacks db |}.

Definition with_settings_kv (rs : list SettingsKv.row) (db : database) : database :=
  {| users := users db; sites := sites db;
     settings_kv := rs; feedbacks := feedbacks db |}.

Definition with_feedbacks (fs : list Feedbacks.row) (db : database) : database :=
  {| users := users db; sites := sites db;
     settings_kv := settings_kv db; feedbacks := fs |}.

(** [result.lastInsertRowid] of an INSERT.  The tables are AUTOINCREMENT:
    SQLite takes one more than the largest rowid the table holds or ever
    held.  The model keeps no record of deleted rows and takes one more
    than the largest rowid the table holds, which is SQLite's choice as
    long as the row with the largest rowid was never deleted.  What is
    proved of a new rowid is that it differs from those in the table,
    which holds of either choice. *)
Definition next_rowid (ids : list Z) : Z :=
  Z.succ (foldr Z.max 0%Z ids).

(** One line of console output. *)
Inductive log_entry : Type :=
| console_log (message : string)
| console_error (message : string) (error : exn).

(** The secret-hashing primitive (bcryptjs): [bcrypt.compare(pin, hash)]. *)
Class Bcrypt : Type := bcrypt_compare : string → string → bool.

(* ===================================================================== *)
(** * SiteService (services/siteService.js, in src/src/services/feedbackService.js) *)
(* ===================================================================== *)

Module SiteService.

(** [slug.trim().toUpperCase()]; [None] stands for a [null] or [undefined]
    argument, on which the method call throws. *)
Definition normalizeSiteSlug (slug : option string) : result string :=
  match slug with
  | Some s => Ok (JS.toUpperCase (JS.trim s))
  | None => Throw TypeError
  end.

Definition slug_is (normalizedSlug : string) (s : Sites.row) : bool :=
  String.eqb (Sites.slug s) normalizedSlug.

(** [SELECT * FROM sites WHERE slug = ?], first row. *)
Definition getSite (db : database) (slug : option string) : result (option Sites.row) :=
  normalizedSlug ← normalizeSiteSlug slug;
  Ok (List.find (slug_is normalizedSlug) (sites db)).

(** [UPDATE sites SET active = ? WHERE slug = ?]; throws when no row
    changed. *)
Definition toggleSite (db : database) (now : Z) (slug : option string) (active : bool)
  : result (database * (string * bool)) :=
  normalizedSlug ← normalizeSiteSlug slug;
  let changes := length (List.filter (slug_is normalizedSlug) (sites db)) in
  if Nat.eqb changes 0 then Throw (Error "site_not_found")
  else
    let sites' :=
      List.map (λ s, if slug_is normalizedSlug s
                     then Sites.set_active active now s else s) (sites db) in
    Ok (with_sites sites' db, (normalizedSlug, active)).

Definition validateVipPin `{Bcrypt} (db : database) (slug : option string)
    (pin : option string) : result bool :=
  match pin with
  | Some p =>
      if JS.truthy_string p then
        site ← getSite db slug;
        match site with
        | Some s =>
            match Sites.vip_pin_hash s with
            | Some h =>
                if JS.truthy_string h then Ok (bcrypt_compare p h) else Ok false
            | None => Ok false
            end
        | None => Ok false
        end
      else Ok false
  | None => Ok false
  end.

End SiteService.


(* ===================================================================== *)
(** * How SQLite compares a date cell with [datetime('now', ...)] *)
(* ===================================================================== *)

Module Sql.

(** What a cell of [billing_next DATETIME] (NUMERIC affinity) holds when
    it is not NULL: a number, or a text that does not read as a number. *)
Inductive value : Type :=
| Number (q : Q)
| Text (s : string).

(** [a < b] in a WHERE clause, where [None] is NULL: a comparison with
    NULL is not true, every number sorts before every text, and two texts
    are compared byte by byte (the BINARY collation). *)
Definition lt (a b : option value) : bool :=
  match a, b with
  | Some (Number x), Some (Number y) => negb (Qle_bool y x)
  | Some (Number _), Some (Text _) => true
  | Some (Text _), Some (Number _) => false
  | Some (Text s), Some (Text t) => String.ltb s t
  | _, _ => false
  end.

Definition digit (n : Z) : ascii := ascii_of_nat (48 + Z.to_nat (n mod 10)).

(** The last [width] decimal digits of [n], in front of [acc]. *)
Fixpoint digits (width : nat) (n : Z) (acc : string) : string :=
  match width with
  | O => acc
  | S w => digits w (n / 10) (String (digit n) acc)
  end.

(** Year, month and day of the day that lies [days] days after
    1970-01-01, in the proleptic Gregorian calendar. *)
Definition civil (days : Z) : Z * Z * Z :=
  let z := (days + 719468)%Z in
  let era := (z / 146097)%Z in
  let doe := (z - era * 146097)%Z in
  let yoe := ((doe - doe / 1460 + doe / 36524 - doe / 146096) / 365)%Z in
  let doy := (doe - (365 * yoe + yoe / 4 - yoe / 100))%Z in
  let mp := ((5 * doy + 2) / 153)%Z in
  let d := (doy - (153 * mp + 2) / 5 + 1)%Z in
  let m := if Z.ltb mp 10 then (mp + 3)%Z else (mp - 9)%Z in
  let y := (yoe + era * 400 + (if Z.leb m 2 then 1 else 0))%Z in
  (y, m, d).

Definition year (t : Z) : Z := fst (fst (civil (t / 86400))).

(** [-MM-DD<sep>HH:MM:SS<tail>] for the instant [t], in UTC. *)
Definition clock (sep : string) (t : Z) (tail : string) : string :=
  let s := (t mod 86400)%Z in
  let '(_, m, d) := civil (t / 86400) in
  String "-" (digits 2 m (String "-" (digits 2 d
    (sep +:+ digits 2 (s / 3600) (String ":" (digits 2 (s / 60 mod 60)
       (String ":" (digits 2 (s mod 60) tail)))))))).

(** [datetime(t)]: the text 'YYYY-MM-DD HH:MM:SS', or NULL outside the
    years 0000 to 9999. *)
Definition datetime (t : Z) : option string :=
  if Z.leb 0 (year t) && Z.leb (year t) 9999
  then Some (digits 4 (year t) (clock " " t ""))
  else None.

End Sql.

(** The rows keep of [users.billing_next] the instant it stands for.  What
    the cell holds is what the callers of [updateBillingStatus] have sent,
    a text in some format or a number, and SQLite compares that:
    [written t] is the content of a cell that stands for the instant [t]. *)
Class DatetimeCells : Type := written : Z → Sql.value.

(* ===================================================================== *)
(** * SubscriptionService (services/subscriptionService.js, src/unnamed/part_004) *)
(* ===================================================================== *)

Module Payment.
Record t : Type := {
  date : Z;
  amount : option Q;
  currency : option string;
  status : option string;
  provider : option string
}.
End Payment.

Module SubscriptionService.

Definition activeStatuses : list string :=
  ["approved"; "authorized"; "accredited"; "recurring_charges"]%string.

(** [activeStatuses.includes(status)]; [None] is an unset status. *)
Definition isActiveBillingStatus (status : option string) : bool :=
  match status with
  | Some s => existsb (String.eqb s) activeStatuses
  | None => false
  end.

Record status : Type := {
  siteSlug : string;
  email : string;
  plan : option string;
  billingStatus : option string;     (* the [status] property *)
  isActive : bool;
  isVip : bool;
  isOverdue : bool;
  gracePeriodEnd : option Z;
  nextCharge : option Z;
  amount : option Q;
  currency : option string;
  provider : option string;
  lastPayment : option Payment.t
}.

Definition GRACE_DAYS : Z := 3.
Definition day : Z := 86400.

(** [SELECT * FROM users WHERE id = ?] *)
Definition getUserById (db : database) (userId : Z) : option Users.row :=
  List.find (λ u, Z.eqb (Users.id u) userId) (users db).

Definition truthy_amount (a : option Q) : bool :=
  match a with Some q => negb (Qeq_bool q 0) | None => false end.

Definition getLastPayment (db : database) (userId : Z) : option Payment.t :=
  match getUserById db userId with
  | Some user =>
      if truthy_amount (Users.billing_amount user) then
        Some {| Payment.date := Users.updated_at user;
                Payment.amount := Users.billing_amount user;
                Payment.currency := Users.billing_currency user;
                Payment.status := Users.billing_status user;
                Payment.provider := Users.billing_provider user |}
      else None
  | None => None
  end.

(** [WHERE site_slug = ?]: a NULL [site_slug] matches nothing. *)
Definition by_slug (normalizedSlug : string) (u : Users.row) : bool :=
  match Users.site_slug u with
  | Some s => String.eqb s normalizedSlug
  | None => false
  end.

(** [WHERE LOWER(email) = LOWER(?) OR site_slug = ?] *)
Definition by_email_or_slug (param normalizedSlug : string) (u : Users.row) : bool :=
  String.eqb (JS.toLowerCase (Users.email u)) (JS.toLowerCase param)
  || by_slug normalizedSlug u.

(** The row that [stmt.get] returns: the first match, if any. *)
Definition findUser (db : database) (normalizedSlug : string)
    (email : option string) : option Users.row :=
  match email with
  | Some e =>
      if JS.truthy_string e then
        List.find (by_email_or_slug (JS.trim (JS.toLowerCase e)) normalizedSlug)
                  (users db)
      else List.find (by_slug normalizedSlug) (users db)
  | None => List.find (by_slug normalizedSlug) (users db)
  end.

(** [gracePeriodEnd] is [billing_next] moved three calendar days on
    ([setDate(getDate() + GRACE_DAYS)]), taken here as 3 * 86400 seconds. *)
Definition getSubscriptionStatus (db : database) (now : Z)
    (siteSlug : option string) (email : option string) : result status :=
  normalizedSlug ← SiteService.normalizeSiteSlug siteSlug;
  match findUser db normalizedSlug email with
  | None => Throw (Error "user_not_found")
  | Some user =>
      let isActive := isActiveBillingStatus (Users.billing_status user) in
      let isVip := JS.strict_eq (Users.plan user) "vip" || isActive in
      let isOverdue :=
        match Users.billing_next user with
        | Some nextDate => Z.ltb nextDate now
        | None => false
        end in
      let gracePeriodEnd :=
        match Users.billing_next user with
        | Some nextDate => Some (nextDate + GRACE_DAYS * day)%Z
        | None => None
        end in
      Ok {| siteSlug := normalizedSlug;
            email := Users.email user;
            plan := Users.plan user;
            billingStatus := Users.billing_status user;
            isActive := isActive;
            isVip := isVip;
            isOverdue := isOverdue;
            gracePeriodEnd := gracePeriodEnd;
            nextCharge := Users.billing_next user;
            amount := Users.billing_amount user;
            currency := Users.billing_currency user;
            provider := Users.billing_provider user;
            lastPayment := getLastPayment db (Users.id user) |}
  end.

(** The WHERE clause of the sweep:
    [billing_next IS NOT NULL
       AND billing_next < datetime('now', '-3 days')
       AND billing_status NOT IN ('cancelled', 'suspended')].
    The second conjunct compares what the cell holds with the text that
    [datetime] returns.  On a NULL [billing_status] the last conjunct is
    NULL, and the row is not selected. *)
Definition overdue `{DatetimeCells} (now : Z) (u : Users.row) : bool :=
  match Users.billing_next u with
  | Some next =>
      Sql.lt (Some (written next))
             (option_map Sql.Text (Sql.datetime (now - GRACE_DAYS * day)))
      && match Users.billing_status u with
         | Some s => negb (existsb (String.eqb s) ["cancelled"; "suspended"]%string)
         | None => false
         end
  | None => false
  end.

(** [UPDATE users SET billing_status = 'cancelled' WHERE id = ?] *)
Definition cancelUser (now : Z) (userId : Z) (db : database) : database :=
  with_users
    (List.map (λ u, if Z.eqb (Users.id u) userId
                    then Users.set_billing_status (Some "cancelled"%string) now u
                    else u)
              (users db))
    db.

(** The body of the [for (const user of overdueUsers)] loop. *)
Definition sweepUser (now : Z) (st : database * list log_entry)
    (user : Users.row) : result (database * list log_entry) :=
  let db1 := cancelUser now (Users.id user) st.1 in
  if JS.truthy_opt_string (Users.site_slug user) then
    let slug := default ""%string (Users.site_slug user) in
    JS.try_catch
      (r ← SiteService.toggleSite db1 now (Users.site_slug user) false;
       Ok (r.1, st.2 ++ [console_log
                  ("Deactivated site " +:+ slug +:+ " due to overdue billing")]))
      (λ error, Ok (db1, st.2 ++ [console_error
                  ("Error deactivating site " +:+ slug +:+ ":") error]))
  else Ok (db1, st.2).

Record sweep_result : Type := {
  processed : nat;
  deactivatedSites : list string
}.

(** [overdueUsers.filter(u => u.site_slug).map(u => u.site_slug)] *)
Definition slugsOf (overdueUsers : list Users.row) : list string :=
  List.map (λ u, default ""%string (Users.site_slug u))
           (List.filter (λ u, JS.truthy_opt_string (Users.site_slug u)) overdueUsers).

Definition processGracePeriodCheck `{DatetimeCells} (db : database) (now : Z)
  : result (database * sweep_result * list log_entry) :=
  let overdueUsers := List.filter (overdue now) (users db) in
  st ← JS.for_of (sweepUser now) overdueUsers (db, []);
  Ok (st.1,
      {| processed := length overdueUsers;
         deactivatedSites := slugsOf overdueUsers |},
      st.2).

End SubscriptionService.

(* ===================================================================== *)
(** * The token middleware (middlewares/auth.js, src/unnamed/part_009) *)
(* ===================================================================== *)

Module Auth.

(** The payload that [generateToken] signs and [verifyToken] puts in
    [req.user]. *)
Record token : Type := {
  id : Z;
  email : string;
  role : string;
  siteSlug : option string;
  plan : option string
}.

Definition isActiveBillingStatus (status : option string) : bool :=
  let activeStatuses :=
    ["approved"; "authorized"; "accredited"; "recurring_charges"]%string in
  match status with
  | Some s => existsb (String.eqb s) activeStatuses
  | None => false
  end.

End Auth.


(* ===================================================================== *)
(** * SettingsService (src/src/services/settingsService.js) *)
(* ===================================================================== *)

Module SettingsService.

(** [{ sections: { defs: [], data: {} } }] *)
Definition defaultSettings : json :=
  JObj {[ "sections"%string :=
            JObj (<[ "defs"%string := JArr [] ]>
                  {[ "data"%string := JObj ∅ ]}) ]}.

(** [ORDER BY created_at DESC LIMIT 1] over the rows of one site; among
    rows with the same stamp the first in rowid order is taken. *)
Definition newer (best : option SettingsKv.row) (r : SettingsKv.row)
  : option SettingsKv.row :=
  match best with
  | Some b =>
      if Z.ltb (SettingsKv.created_at b) (SettingsKv.created_at r)
      then Some r else Some b
  | None => Some r
  end.

Definition latest (normalizedSlug : string) (rows : list SettingsKv.row)
  : option SettingsKv.row :=
  fold_left newer
    (List.filter (λ r, String.eqb (SettingsKv.site_slug r) normalizedSlug) rows)
    None.

(** The [try] block of [getSettings]. *)
Definition readSnapshot (settings_json : text) : result json :=
  settings ← JS.JSON_parse settings_json;
  security ← JS.get settings "security";
  match security with
  | Some sec =>
      if JS.truthy security
      then Ok (JS.set_prop settings "security" (JS.delete_prop sec "vip_pin"))
      else Ok settings
  | None => Ok settings
  end.

Definition getSettings (db : database) (siteSlug : option string) : result json :=
  normalizedSlug ← SiteService.normalizeSiteSlug siteSlug;
  match latest normalizedSlug (settings_kv db) with
  | None => Ok defaultSettings
  | Some row =>
      JS.try_catch (readSnapshot (SettingsKv.settings_json row))
                   (λ error, Ok defaultSettings)
  end.

(** [cleanSettings = { ...settings }] followed by the guarded [delete]. *)
Definition cleanSettings (settings : json) : result json :=
  let clean := JObj (JS.spread settings) in
  security ← JS.get clean "security";
  match security with
  | Some sec =>
      if JS.truthy security then
        vip_pin ← JS.get sec "vip_pin";
        if JS.truthy vip_pin
        then Ok (JS.set_prop clean "security" (JS.delete_prop sec "vip_pin"))
        else Ok clean
      else Ok clean
  | None => Ok clean
  end.

Definition saveSettings `{Bcrypt} (db : database) (now : Z)
    (siteSlug : option string) (settings : json) (pin : option string)
    (requirePin : bool) : result (database * (Z * string)) :=
  normalizedSlug ← SiteService.normalizeSiteSlug siteSlug;
  (* [requirePin && !(await SiteService.validateVipPin(normalizedSlug, pin))] *)
  rejected ← (if requirePin
              then valid ← SiteService.validateVipPin db (Some normalizedSlug) pin;
                   Ok (negb valid)
              else Ok false);
  if (rejected : bool) then Throw (Error "invalid_pin")
  else
    clean ← cleanSettings settings;
    let id := next_rowid (List.map SettingsKv.id (settings_kv db)) in
    let row := {| SettingsKv.id := id;
                  SettingsKv.site_slug := normalizedSlug;
                  SettingsKv.settings_json := JS.JSON_stringify clean;
                  SettingsKv.created_at := now |} in
    Ok (with_settings_kv (settings_kv db ++ [row]) db, (id, normalizedSlug)).

End SettingsService.

(* ===================================================================== *)
(** * FeedbackService (src/src/services/feedbackService.js) *)
(* ===================================================================== *)

Module FeedbackData.
Record t : Type := {
  siteSlug : option string;
  name : option string;
  email : option string;
  phone : option string;
  rating : option Q;                 (* a number, or absent *)
  comment : option string
}.
End FeedbackData.

Module FeedbackService.

(** What [createFeedback] returns. *)
Record created : Type := {
  id : Z;
  siteSlug : string;
  name : option string;
  email : option string;
  phone : option string;
  rating : Q;
  comment : string;
  approved : bool;
  createdAt : Z
}.

Definition truthy_rating (r : option Q) : bool :=
  match r with Some q => negb (Qeq_bool q 0) | None => false end.

(** [x?.trim() || null] *)
Definition trimmed_or_null (x : option string) : option string :=
  match x with
  | Some s => if JS.truthy_string (JS.trim s) then Some (JS.trim s) else None
  | None => None
  end.

(** [x?.toLowerCase().trim() || null] *)
Definition lowered_or_null (x : option string) : option string :=
  match x with
  | Some s => trimmed_or_null (Some (JS.toLowerCase s))
  | None => None
  end.

Definition createFeedback (db : database) (now : Z) (feedbackData : FeedbackData.t)
  : result (database * created) :=
  normalizedSlug ← SiteService.normalizeSiteSlug (FeedbackData.siteSlug feedbackData);
  if negb (truthy_rating (FeedbackData.rating feedbackData))
     || negb (JS.truthy_opt_string (FeedbackData.comment feedbackData))
  then Throw (Error "rating_and_comment_required")
  else
    match FeedbackData.rating feedbackData, FeedbackData.comment feedbackData with
    | Some rating, Some comment =>
        (* [rating < 1 || rating > 5] *)
        if negb (Qle_bool 1 rating) || negb (Qle_bool rating 5)
        then Throw (Error "rating_must_be_between_1_and_5")
        else
          (* INSERT ... VALUES (?, ?, ?, ?, ?, ?, 0); the CHECK
             [rating BETWEEN 1 AND 5] holds after the test above *)
          let id := next_rowid (List.map Feedbacks.id (feedbacks db)) in
          let row := {| Feedbacks.id := id;
                        Feedbacks.site_slug := normalizedSlug;
                        Feedbacks.name := trimmed_or_null (FeedbackData.name feedbackData);
                        Feedbacks.email := lowered_or_null (FeedbackData.email feedbackData);
                        Feedbacks.phone := trimmed_or_null (FeedbackData.phone feedbackData);
                        Feedbacks.rating := rating;
                        Feedbacks.comment := JS.trim comment;
                        Feedbacks.approved := false;
                        Feedbacks.created_at := now |} in
          Ok (with_feedbacks (feedbacks db ++ [row]) db,
              {| id := id;
                 siteSlug := normalizedSlug;
                 name := FeedbackData.name feedbackData;
                 email := FeedbackData.email feedbackData;
                 phone := FeedbackData.phone feedbackData;
                 rating := rating;
                 comment := comment;
                 approved := false;
                 createdAt := now |})
    | _, _ => Throw TypeError      (* not reached: both fields are truthy here *)
    end.

Definition has_id (id : Z) (f : Feedbacks.row) : bool := Z.eqb (Feedbacks.id f) id.

(** [approveFeedback(id, approved, userId = null)]: the third parameter is
    not used by the body. *)
Definition approveFeedback (db : database) (id : Z) (approved : bool)
    (userId : option json) : result (database * (Z * bool)) :=
  let changes := length (List.filter (has_id id) (feedbacks db)) in
  if Nat.eqb changes 0 then Throw (Error "feedback_not_found")
  else
    let db' :=
      with_feedbacks
        (List.map (λ f, if has_id id f then Feedbacks.set_approved approved f else f)
                  (feedbacks db))
        db in
    match List.find (has_id id) (feedbacks db') with
    | Some feedback => Ok (db', (Feedbacks.id feedback, Feedbacks.approved feedback))
    | None => Throw TypeError
    end.

End FeedbackService.

(* ===================================================================== *)
(** * The drizzle-backed storage (src/shared/schema.ts, DatabaseStorage in src/server.mjs) *)
(* ===================================================================== *)

Module Storage.

Record feedback : Type := {
  id : Z;
  siteSlug : string;
  name : option string;
  email : option string;
  rating : Z;
  comment : string;
  approved : bool;
  isPublic : bool;
  createdAt : Z
}.



End Storage.

(* ===================================================================== *)
(** * POST /api/settings (routes/settings.js, in src/src/routes/feedbacks.js) *)
(* ===================================================================== *)

Module SettingsRoutes.

Record body : Type := {
  site : option string;
  settings : option json;
  pin : option string
}.

Inductive payload : Type :=
| failure (error : string)                  (* { ok: false, error } *)
| saved (id : Z) (siteSlug : string).       (* { ok: true, id, siteSlug } *)

Record response : Type := {
  status : nat;
  sent : payload
}.

Definition respond (code : nat) (p : payload) : response :=
  {| status := code; sent := p |}.

(** The handler behind [verifyToken]: [user] is the decoded token. *)
Definition post `{Bcrypt} (db : database) (now : Z) (user : Auth.token)
    (req : body) : database * response :=
  if negb (JS.truthy_opt_string (site req)) || negb (JS.truthy (settings req))
  then (db, respond 400 (failure "site_and_settings_required"))
  else
    let isAdmin := String.eqb (Auth.role user) "admin" in
    let isVip := JS.strict_eq (Auth.plan user) "vip" in
    let requirePin := negb isAdmin && isVip in
    if negb isAdmin && negb isVip
    then (db, respond 403 (failure "vip_or_admin_required"))
    else
      match settings req with
      | Some settings0 =>
          match SettingsService.saveSettings db now (site req) settings0
                  (pin req) requirePin with
          | Ok (db', (id, siteSlug)) => (db', respond 200 (saved id siteSlug))
          | Throw (Error "invalid_pin") => (db, respond 403 (failure "invalid_pin"))
          | Throw _ => (db, respond 500 (failure "internal_error"))
          end
      | None =>                    (* not reached: [settings] is truthy here *)
          (db, respond 500 (failure "internal_error"))
      end.

End SettingsRoutes.


(* ===================================================================== *)
(** * Worked examples and proof-side definitions *)
(* ===================================================================== *)

(** ** A small database

    Five accounts and three sites.  [exampleNow] is the time of the sweep;
    every [billing_next] below lies ten days before it. *)

(** A plain hashing primitive for the worked examples: the "hash" of a PIN
    is the PIN itself. *)
Definition plain_bcrypt : Bcrypt := String.eqb.

Definition exampleNow : Z := 1000000.
Definition tenDaysAgo : Z := exampleNow - 10 * SubscriptionService.day.

Definition account (id : Z) (email : string) (site_slug plan status : option string)
    (next : option Z) : Users.row :=
  {| Users.id := id; Users.role := "client"; Users.email := email;
     Users.password_hash := "x"; Users.site_slug := site_slug;
     Users.plan := plan; Users.billing_status := status;
     Users.billing_next := next; Users.billing_amount := Some (97 # 1);
     Users.billing_currency := Some "BRL"%string;
     Users.billing_provider := Some "mercadopago"%string;
     Users.created_at := 0; Users.updated_at := 0 |}.

Definition ana : Users.row :=
  account 1 "ana@example.com" (Some "DEMO") (Some "vip") (Some "cancelled") None.
Definition bob : Users.row :=
  account 2 "bob@example.com" (Some "SHOP") (Some "essential") (Some "approved")
          (Some tenDaysAgo).
Definition carla : Users.row :=
  account 3 "carla@example.com" None (Some "essential") None (Some tenDaysAgo).
Definition dan : Users.row :=
  account 4 "dan@example.com" (Some "ghost") (Some "essential") (Some "pending")
          (Some tenDaysAgo).
Definition eva : Users.row :=
  account 5 "eva@example.com" (Some "cafe") (Some "essential") (Some "pending")
          (Some tenDaysAgo).

Definition site (id : Z) (slug : string) (hash : option string) : Sites.row :=
  {| Sites.id := id; Sites.slug := slug; Sites.active := true;
     Sites.notes := None; Sites.vip_pin_hash := hash;
     Sites.created_at := 0; Sites.updated_at := 0 |}.

Definition exampleDb : database :=
  {| users := [ana; bob; carla; dan; eva];
     sites := [site 1 "DEMO" (Some "1234"%string); site 2 "SHOP" None;
               site 3 "CAFE" None];
     settings_kv := [];
     feedbacks := [] |}.


(** ** How the payment dates are written

    Two ways in which callers write [billing_next]: as the text that
    [Date.prototype.toISOString] gives ('YYYY-MM-DDTHH:MM:SS.000Z', with a
    sign and six digits for years outside 0000 to 9999), and as a
    number. *)
Definition toISOString (t : Z) : string :=
  let y := Sql.year t in
  if Z.leb 0 y && Z.leb y 9999
  then Sql.digits 4 y (Sql.clock "T" t ".000Z")
  else String (if Z.ltb y 0 then "-" else "+")%char
              (Sql.digits 6 (Z.abs y) (Sql.clock "T" t ".000Z")).

Definition iso_cells : DatetimeCells := λ t, Sql.Text (toISOString t).
Definition epoch_cells : DatetimeCells := λ t, Sql.Number (inject_Z t).

(** An account with an unset billing status, ten days overdue, alone in a
    database. *)
Definition onlyCarla : database :=
  {| users := [carla]; sites := []; settings_kv := []; feedbacks := [] |}.

(** ** Observing a settings value

    [has_vip_pin v]: the value [v] is an object whose [security] property
    is an object with an own property [vip_pin]. *)
Definition has_vip_pin (v : json) : bool :=
  match v with
  | JObj props =>
      match props !! "security"%string with
      | Some (JObj sec) =>
          match sec !! "vip_pin"%string with Some _ => true | None => false end
      | _ => false
      end
  | _ => false
  end.

(** [{ security: { vip_pin: '' } }] *)
Definition emptyPinPayload : json :=
  JObj {[ "security"%string := JObj {[ "vip_pin"%string := JStr "" ]} ]}.

(** [{ security: { vip_pin: '1234' }, sections: { defs: [], data: {} } }] *)
Definition pinPayload : json :=
  JObj (<[ "security"%string := JObj {[ "vip_pin"%string := JStr "1234" ]} ]>
        (JS.spread SettingsService.defaultSettings)).

(** Three decoded tokens. *)
Definition adminToken : Auth.token :=
  {| Auth.id := 9; Auth.email := "root@example.com"; Auth.role := "admin";
     Auth.siteSlug := None; Auth.plan := Some "essential"%string |}.
Definition vipToken : Auth.token :=
  {| Auth.id := 1; Auth.email := "ana@example.com"; Auth.role := "client";
     Auth.siteSlug := Some "DEMO"%string; Auth.plan := Some "vip"%string |}.
Definition essentialToken : Auth.token :=
  {| Auth.id := 2; Auth.email := "bob@example.com"; Auth.role := "client";
     Auth.siteSlug := Some "SHOP"%string; Auth.plan := Some "essential"%string |}.

(** The body [{ site, settings, pin }] of a settings write. *)
Definition settingsWrite (site0 : string) (settings0 : json) (pin0 : option string)
  : SettingsRoutes.body :=
  {| SettingsRoutes.site := Some site0;
     SettingsRoutes.settings := Some settings0;
     SettingsRoutes.pin := pin0 |}.

(** A feedback submission for the site 'demo' without contact fields. *)
Definition submission (rating : option Q) (comment : option string) : FeedbackData.t :=
  {| FeedbackData.siteSlug := Some "demo"%string;
     FeedbackData.name := None; FeedbackData.email := None;
     FeedbackData.phone := None;
     FeedbackData.rating := rating; FeedbackData.comment := comment |}.




(** What [UPDATE feedbacks SET approved = ? WHERE id = ?] does to one row. *)
Definition approveRow (id : Z) (approved0 : bool) (f : Feedbacks.row) : Feedbacks.row :=
  if FeedbackService.has_id id f then Feedbacks.set_approved approved0 f else f.

(** ** What one sweep amounts to

    The loop of [processGracePeriodCheck] rewrites rows one user at a
    time.  The functions below describe the outcome row by row;
    [for_of_sweepUser] proves that the loop computes them. *)

Definition cancelled (now : Z) (u : Users.row) : Users.row :=
  Users.set_billing_status (Some "cancelled"%string) now u.

Definition sameId (x u : Users.row) : bool := Z.eqb (Users.id x) (Users.id u).

(** The site row [s] is the one that [toggleSite(u.site_slug, false)]
    updates. *)
Definition targets (u : Users.row) (s : Sites.row) : bool :=
  match Users.site_slug u with
  | Some slug =>
      JS.truthy_string slug && SiteService.slug_is (JS.toUpperCase (JS.trim slug)) s
  | None => false
  end.

Definition sweptUsers (now : Z) (us rows : list Users.row) : list Users.row :=
  List.map (λ x, if existsb (sameId x) us then cancelled now x else x) rows.

Definition sweptSites (now : Z) (us : list Users.row) (rows : list Sites.row)
  : list Sites.row :=
  List.map (λ s, if existsb (λ u, targets u s) us
                 then Sites.set_active false now s else s) rows.

Definition swept (now : Z) (us : list Users.row) (db : database) : database :=
  {| users := sweptUsers now us (users db);
     sites := sweptSites now us (sites db);
     settings_kv := settings_kv db;
     feedbacks := feedbacks db |}.

(** The console line that the loop body writes for [u]. *)
Definition sweepEntry (rows : list Sites.row) (u : Users.row) : list log_entry :=
  match Users.site_slug u with
  | Some slug =>
      if JS.truthy_string slug then
        if existsb (SiteService.slug_is (JS.toUpperCase (JS.trim slug))) rows
        then [console_log ("Deactivated site " +:+ slug +:+ " due to overdue billing")]
        else [console_error ("Error deactivating site " +:+ slug +:+ ":")
                            (Error "site_not_found")]
      else []
  | None => []
  end.

(* ===================================================================== *)
(** * The rest of SiteService (src/src/services/feedbackService.js, 174-273) *)
(* ===================================================================== *)

(** [bcrypt.hash(data, 12)]: the salt that the library draws is passed in. *)
Class BcryptHash : Type := bcrypt_hash : string → string → string.

(** What bcrypt promises: a hash is a non-empty string, and the data it
    was made from compares equal to it. *)
Class BcryptSound `{Bcrypt} `{BcryptHash} : Prop := {
  compare_hash : ∀ salt data, bcrypt_compare data (bcrypt_hash salt data) = true;
  hash_nonempty : ∀ salt data, JS.truthy_string (bcrypt_hash salt data) = true
}.

Module SiteData.
Record t : Type := {
  slug : option string;
  active : option bool;              (* [active = true] when left out *)
  notes : option string;             (* [notes = ''] when left out *)
  vipPin : option string             (* [vipPin = null] when left out *)
}.
End SiteData.

Module SiteService2.

Definition createSite `{BcryptHash} (db : database) (now : Z) (salt : string)
    (siteData : SiteData.t) : result (database * (Z * string * bool)) :=
  let active := default true (SiteData.active siteData) in
  let notes := default ""%string (SiteData.notes siteData) in
  normalizedSlug ← SiteService.normalizeSiteSlug (SiteData.slug siteData);
  let vipPinHash :=
    match SiteData.vipPin siteData with
    | Some vipPin =>
        if JS.truthy_string vipPin then Some (bcrypt_hash salt vipPin) else None
    | None => None
    end in
  (* INSERT INTO sites: [slug] is UNIQUE *)
  if existsb (SiteService.slug_is normalizedSlug) (sites db)
  then Throw (Error "site_slug_already_exists")
  else
    let id := next_rowid (List.map Sites.id (sites db)) in
    let row := {| Sites.id := id; Sites.slug := normalizedSlug;
                  Sites.active := active; Sites.notes := Some notes;
                  Sites.vip_pin_hash := vipPinHash;
                  Sites.created_at := now; Sites.updated_at := now |} in
    Ok (with_sites (sites db ++ [row]) db, (id, normalizedSlug, active)).

(** [UPDATE sites SET vip_pin_hash = ? WHERE slug = ?]; the trigger stamps
    the row. *)
Definition set_vip_pin_hash (hash : string) (now : Z) (s : Sites.row) : Sites.row :=
  {| Sites.id := Sites.id s; Sites.slug := Sites.slug s;
     Sites.active := Sites.active s; Sites.notes := Sites.notes s;
     Sites.vip_pin_hash := Some hash;
     Sites.created_at := Sites.created_at s; Sites.updated_at := now |}.

Definition setVipPin `{BcryptHash} (db : database) (now : Z) (salt : string)
    (slug : option string) (pin : string) : result (database * bool) :=
  normalizedSlug ← SiteService.normalizeSiteSlug slug;
  let pinHash := bcrypt_hash salt pin in
  let changes := length (List.filter (SiteService.slug_is normalizedSlug) (sites db)) in
  if Nat.eqb changes 0 then Throw (Error "site_not_found")
  else
    Ok (with_sites
          (List.map (λ s, if SiteService.slug_is normalizedSlug s
                          then set_vip_pin_hash pinHash now s else s)
                    (sites db))
          db,
        true).

(** [{ siteSlug: site.slug, active: Boolean(site.active) }] *)
Definition getSiteStatus (db : database) (slug : option string)
  : result (string * bool) :=
  normalizedSlug ← SiteService.normalizeSiteSlug slug;
  match List.find (SiteService.slug_is normalizedSlug) (sites db) with
  | Some site => Ok (Sites.slug site, Sites.active site)
  | None => Throw (Error "site_not_found")
  end.

End SiteService2.

(** ** More worked examples *)

(** A hashing primitive with a visible tag: the hash of [data] is
    ['$' + data], whatever the salt. *)
Definition tagged_compare : Bcrypt := λ data hash, String.eqb hash (String "$" data).
Definition tagged_hash : BcryptHash := λ salt data, String "$" data.

(** All characters of [s] are white space. *)
Fixpoint blank (s : string) : bool :=
  match s with
  | EmptyString => true
  | String c s' => Ascii.is_space c && blank s'
  end.

Definition newSite (slug : string) (vipPin : option string) : SiteData.t :=
  {| SiteData.slug := Some slug; SiteData.active := None;
     SiteData.notes := None; SiteData.vipPin := vipPin |}.

(* ===================================================================== *)
(** * The rest of SubscriptionService (src/unnamed/part_004) *)
(* ===================================================================== *)

Module BillingData.
Record t : Type := {
  status : option string;
  nextDate : option Z;
  amount : option Q;
  currency : option string;          (* ['BRL'] when left out *)
  provider : option string           (* ['mercadopago'] when left out *)
}.
End BillingData.

Module Subscription.
(** A row of [getAllActiveSubscriptions]. *)
Record row : Type := {
  id : Z;
  email : string;
  site_slug : option string;
  plan : option string;
  billing_status : option string;
  billing_next : option Z;
  billing_amount : option Q;
  billing_currency : option string;
  site_active : option bool          (* NULL when the LEFT JOIN finds no site *)
}.
End Subscription.

Module SubscriptionService2.

(** [UPDATE users SET billing_status = ?, billing_next = ?,
    billing_amount = ?, billing_currency = ?, billing_provider = ?]; the
    trigger stamps the row. *)
Definition set_billing (status : option string) (nextDate : option Z)
    (amount : option Q) (currency provider : string) (now : Z) (u : Users.row)
  : Users.row :=
  {| Users.id := Users.id u; Users.role := Users.role u;
     Users.email := Users.email u; Users.password_hash := Users.password_hash u;
     Users.site_slug := Users.site_slug u; Users.plan := Users.plan u;
     Users.billing_status := status; Users.billing_next := nextDate;
     Users.billing_amount := amount;
     Users.billing_currency := Some currency;
     Users.billing_provider := Some provider;
     Users.created_at := Users.created_at u; Users.updated_at := now |}.

(** [UPDATE users SET plan = ?] *)
Definition set_plan (plan : string) (now : Z) (u : Users.row) : Users.row :=
  {| Users.id := Users.id u; Users.role := Users.role u;
     Users.email := Users.email u; Users.password_hash := Users.password_hash u;
     Users.site_slug := Users.site_slug u; Users.plan := Some plan;
     Users.billing_status := Users.billing_status u;
     Users.billing_next := Users.billing_next u;
     Users.billing_amount := Users.billing_amount u;
     Users.billing_currency := Users.billing_currency u;
     Users.billing_provider := Users.billing_provider u;
     Users.created_at := Users.created_at u; Users.updated_at := now |}.

Definition has_id (userId : Z) (u : Users.row) : bool := Z.eqb (Users.id u) userId.

(** The function writes before it may throw: it returns the database it
    leaves behind together with its result. *)
Definition updateBillingStatus (db : database) (now : Z) (userId : Z)
    (billingData : BillingData.t) : database * result (Z * option string) :=
  let status := BillingData.status billingData in
  let currency := default "BRL"%string (BillingData.currency billingData) in
  let provider := default "mercadopago"%string (BillingData.provider billingData) in
  let changes := length (List.filter (has_id userId) (users db)) in
  if Nat.eqb changes 0 then (db, Throw (Error "user_not_found"))
  else
    let db1 :=
      with_users
        (List.map (λ u, if has_id userId u
                        then set_billing status (BillingData.nextDate billingData)
                               (BillingData.amount billingData) currency provider now u
                        else u)
                  (users db))
        db in
    if SubscriptionService.isActiveBillingStatus status then
      match SubscriptionService.getUserById db1 userId with
      | Some user =>
          if JS.truthy_opt_string (Users.site_slug user) then
            match SiteService.toggleSite db1 now (Users.site_slug user) true with
            | Ok r => (r.1, Ok (userId, status))
            | Throw e => (db1, Throw e)
            end
          else (db1, Ok (userId, status))
      | None => (db1, Ok (userId, status))
      end
    else (db1, Ok (userId, status)).

Definition upgradePlan (db : database) (now : Z) (userId : Z) (newPlan : string)
  : result (database * (Z * string)) :=
  if negb (existsb (String.eqb newPlan) ["essential"; "vip"]%string)
  then Throw (Error "invalid_plan")
  else
    let changes := length (List.filter (has_id userId) (users db)) in
    if Nat.eqb changes 0 then Throw (Error "user_not_found")
    else
      Ok (with_users
            (List.map (λ u, if has_id userId u then set_plan newPlan now u else u)
                      (users db))
            db,
          (userId, newPlan)).



(** [ORDER BY u.billing_next ASC]: NULL sorts before every date. *)
Definition next_le (a b : Subscription.row) : Prop :=
  match Subscription.billing_next a, Subscription.billing_next b with
  | None, _ => True
  | Some _, None => False
  | Some x, Some y => (x ≤ y)%Z
  end.

#[global] Instance next_le_dec (a b : Subscription.row) : Decision (next_le a b).
Proof.
  unfold next_le.
  destruct (Subscription.billing_next a), (Subscription.billing_next b); apply _.
Defined.


End SubscriptionService2.

(** A payment notice: approved, next charge in thirty days. *)
Definition paid : BillingData.t :=
  {| BillingData.status := Some "approved"%string;
     BillingData.nextDate := Some (exampleNow + 30 * SubscriptionService.day)%Z;
     BillingData.amount := Some (97 # 1);
     BillingData.currency := None; BillingData.provider := None |}.

(* ===================================================================== *)
(** * The rest of FeedbackService (src/src/services/feedbackService.js, 46-170) *)
(* ===================================================================== *)

(** [Math.round(AVG(CAST(rating AS FLOAT)) * 10) / 10 || 0] is computed in
    double arithmetic, which is not modelled: the function from the ratings
    of a site to that number is taken as given. *)
Class FloatAverage : Type := averageRating_of : list Q → Q.

Module FeedbackView.
(** A row as [getFeedbacks] selects it; [contact] holds [email] and
    [phone], which are selected only with [includePrivateInfo]. *)
Record t : Type := {
  id : Z;
  name : option string;
  rating : Q;
  comment : string;
  approved : bool;
  created_at : Z;
  contact : option (option string * option string)
}.
End FeedbackView.

Module FeedbackPage.
Record t : Type := {
  feedbacks : list FeedbackView.t;
  page : Z;
  pageSize : Z;
  total : Z;
  totalPages : option Z              (* [None]: not a finite number *)
}.
End FeedbackPage.

Module FeedbackStats.
Record t : Type := {
  total : Z;
  approved : Z;
  pending : Z;
  averageRating : Q;
  rating5 : Z; rating4 : Z; rating3 : Z; rating2 : Z; rating1 : Z
}.
End FeedbackStats.

Module FeedbackService2.

Record options : Type := {
  onlyApproved : option bool;        (* [false] when left out *)
  includePrivateInfo : option bool   (* [false] when left out *)
}.

(** [WHERE site_slug = ?] with [AND approved = 1] when asked for. *)
Definition selected (normalizedSlug : string) (onlyApproved : bool)
    (f : Feedbacks.row) : bool :=
  String.eqb (Feedbacks.site_slug f) normalizedSlug
  && (if onlyApproved then Feedbacks.approved f else true).

(** [ORDER BY created_at DESC] *)
Definition newest_first (a b : Feedbacks.row) : Prop :=
  (Feedbacks.created_at b ≤ Feedbacks.created_at a)%Z.

#[global] Instance newest_first_dec (a b : Feedbacks.row) : Decision (newest_first a b).
Proof. unfold newest_first. apply _. Defined.

(** [LIMIT ? OFFSET ?]: a negative limit means no limit, a negative offset
    counts as 0. *)
Definition limit_offset {A : Type} (limit offset : Z) (rows : list A) : list A :=
  let rest := List.skipn (Z.to_nat offset) rows in
  if Z.ltb limit 0 then rest else List.firstn (Z.to_nat limit) rest.

Definition view (includePrivateInfo : bool) (f : Feedbacks.row) : FeedbackView.t :=
  {| FeedbackView.id := Feedbacks.id f;
     FeedbackView.name := Feedbacks.name f;
     FeedbackView.rating := Feedbacks.rating f;
     FeedbackView.comment := Feedbacks.comment f;
     FeedbackView.approved := Feedbacks.approved f;
     FeedbackView.created_at := Feedbacks.created_at f;
     FeedbackView.contact :=
       if includePrivateInfo
       then Some (Feedbacks.email f, Feedbacks.phone f) else None |}.

(** [Math.ceil(total / pageSize)]; for counts below 2^53 the double
    quotient has the ceiling of the exact one.  Division by zero gives
    [Infinity] or [NaN]. *)
Definition ceil_div (a b : Z) : option Z :=
  if Z.eqb b 0 then None else Some (- ((- a) / b))%Z.

Definition getFeedbacks (db : database) (siteSlug : option string)
    (page pageSize : Z) (opts : options) : result FeedbackPage.t :=
  normalizedSlug ← SiteService.normalizeSiteSlug siteSlug;
  let onlyApproved := default false (onlyApproved opts) in
  let includePrivateInfo := default false (includePrivateInfo opts) in
  let offset := ((page - 1) * pageSize)%Z in
  let matching := List.filter (selected normalizedSlug onlyApproved) (feedbacks db) in
  let total := Z.of_nat (length matching) in
  let rows := limit_offset pageSize offset (merge_sort newest_first matching) in
  Ok {| FeedbackPage.feedbacks := List.map (view includePrivateInfo) rows;
        FeedbackPage.page := page;
        FeedbackPage.pageSize := pageSize;
        FeedbackPage.total := total;
        FeedbackPage.totalPages := ceil_div total pageSize |}.

Definition getFeedback (db : database) (id : Z) : result Feedbacks.row :=
  match List.find (FeedbackService.has_id id) (feedbacks db) with
  | Some feedback => Ok feedback
  | None => Throw (Error "feedback_not_found")
  end.

Definition deleteFeedback (db : database) (id : Z) : result (database * Z) :=
  let changes := length (List.filter (FeedbackService.has_id id) (feedbacks db)) in
  if Nat.eqb changes 0 then Throw (Error "feedback_not_found")
  else
    Ok (with_feedbacks
          (List.filter (λ f, negb (FeedbackService.has_id id f)) (feedbacks db)) db,
        id).

(** [COUNT(CASE WHEN c THEN 1 END)] *)
Definition count_when (c : Feedbacks.row → bool) (rows : list Feedbacks.row) : Z :=
  Z.of_nat (length (List.filter c rows)).

Definition getFeedbackStats `{FloatAverage} (db : database) (siteSlug : option string)
  : result FeedbackStats.t :=
  normalizedSlug ← SiteService.normalizeSiteSlug siteSlug;
  let rows := List.filter (selected normalizedSlug false) (feedbacks db) in
  let total := Z.of_nat (length rows) in
  let approved := count_when Feedbacks.approved rows in
  let rated (n : Q) := count_when (λ f, Qeq_bool (Feedbacks.rating f) n) rows in
  Ok {| FeedbackStats.total := total;
        FeedbackStats.approved := approved;
        FeedbackStats.pending := (total - approved)%Z;
        FeedbackStats.averageRating := averageRating_of (List.map Feedbacks.rating rows);
        FeedbackStats.rating5 := rated 5%Q; FeedbackStats.rating4 := rated 4%Q;
        FeedbackStats.rating3 := rated 3%Q; FeedbackStats.rating2 := rated 2%Q;
        FeedbackStats.rating1 := rated 1%Q |}.

End FeedbackService2.

(* ===================================================================== *)
(** * The feedback routes (src/src/routes/feedbacks.js, 9-225) *)
(* ===================================================================== *)

(** [jwt.verify(token, secret)] (jsonwebtoken): the signed payload, or an
    exception for a token that is malformed, expired or signed otherwise. *)
Class Jwt : Type := jwt_verify : string → result Auth.token.

(** ** Values as a request carries them

    [req.body] holds what the JSON parser made of the body, [req.query]
    strings, arrays and objects.  The services are written for strings,
    numbers and booleans; this section follows the code on every value a
    request can carry. *)

Module Double.

(** What [parseInt] returns: a double that is an integer, NaN, or an
    infinity (whose sign no caller below tells apart). *)
Inductive t : Type :=
| NaN
| Infinity
| Int (n : Z).

(** The double nearest to an integer, ties to even; integers below 2^53 in
    magnitude are doubles.  Overflow to an infinity is left out: the
    callers only ask whether the result is below 2^63. *)
Definition round53 (x : Z) : Z :=
  let a := Z.abs x in
  if Z.ltb a (2 ^ 53) then x
  else
    let e := (Z.log2 a - 52)%Z in
    let m := Z.shiftr a e in
    let r := (a - Z.shiftl m e)%Z in
    let half := Z.shiftl 1 (e - 1) in
    let m' := if Z.ltb half r || (Z.eqb r half && Z.odd m) then (m + 1)%Z else m in
    (Z.sgn x * Z.shiftl m' e)%Z.

(** A number bound to [LIMIT ?] or [OFFSET ?]: better-sqlite3 binds what is
    not a 32-bit integer as a double, and SQLite takes a double there when
    it is an integer strictly between the ends of the 64-bit range
    (otherwise: datatype mismatch). *)
Definition bindable (n : Z) : bool := Z.ltb (- 2 ^ 63) n && Z.ltb n (2 ^ 63).

End Double.

(** [parseInt(v)] belongs to the runtime and is taken as given. *)
Class ParseInt : Type := parseInt : json → Double.t.

(** What the runtime makes of a rating that is not a number ([true], a
    string, an array, an object).  [rating < 1 || rating > 5] compares the
    number that [ToNumber] makes of it ([None]: the conversion throws a
    TypeError).  When it is bound to [rating INTEGER NOT NULL CHECK
    (rating BETWEEN 1 AND 5)], better-sqlite3 or SQLite throws ([None]), or
    the row is stored with a number.  Neither is modelled. *)
Class RatingCoercion : Type := {
  out_of_range : json → option bool;
  stored_rating : json → option Q
}.

Module Untyped.

(** [slug.trim().toUpperCase()]: of the values a request can carry only a
    string has a [trim] method. *)
Definition normalizeSiteSlug (slug : option json) : result string :=
  match slug with
  | Some (JStr s) => SiteService.normalizeSiteSlug (Some s)
  | _ => Throw TypeError
  end.

Definition typeof (v : json) : string :=
  match v with
  | JBool _ => "boolean"
  | JNum _ => "number"
  | JStr _ => "string"
  | JNull | JArr _ | JObj _ => "object"
  end.

(** [validateVipPin(slug, pin)]; [bcrypt.compare] rejects what is not a
    string. *)
Definition validateVipPin `{Bcrypt} (db : database) (slug pin : option json)
  : result bool :=
  match pin with
  | Some p =>
      if JS.truthy pin then
        normalizedSlug ← normalizeSiteSlug slug;
        match List.find (SiteService.slug_is normalizedSlug) (sites db) with
        | Some s =>
            match Sites.vip_pin_hash s with
            | Some h =>
                if JS.truthy_string h then
                  match p with
                  | JStr p' => Ok (bcrypt_compare p' h)
                  | _ => Throw (Error ("Illegal arguments: " +:+ typeof p +:+ ", string"))
                  end
                else Ok false
            | None => Ok false
            end
        | None => Ok false
        end
      else Ok false
  | None => Ok false
  end.

(** The argument of [createFeedback]. *)
Record data : Type := {
  siteSlug : option json;
  name : option json;
  email : option json;
  phone : option json;
  rating : option json;
  comment : option json
}.

(** What [createFeedback] returns: the fields are handed back as they
    came. *)
Record created : Type := {
  id : Z;
  normalizedSlug : string;
  name_given : option json;
  email_given : option json;
  phone_given : option json;
  rating_given : json;
  comment_given : json;
  approved : bool;
  createdAt : Z
}.

(** [x?.trim() || null] *)
Definition trimmed_or_null (x : option json) : result (option string) :=
  match x with
  | None | Some JNull => Ok None
  | Some (JStr s) => Ok (FeedbackService.trimmed_or_null (Some s))
  | Some _ => Throw TypeError
  end.

(** [x?.toLowerCase().trim() || null] *)
Definition lowered_or_null (x : option json) : result (option string) :=
  match x with
  | None | Some JNull => Ok None
  | Some (JStr s) => Ok (FeedbackService.lowered_or_null (Some s))
  | Some _ => Throw TypeError
  end.

(** [comment.trim()] *)
Definition trimmed (x : json) : result string :=
  match x with
  | JStr s => Ok (JS.trim s)
  | _ => Throw TypeError
  end.

Definition createFeedback `{RatingCoercion} (db : database) (now : Z)
    (feedbackData : data) : result (database * created) :=
  normalizedSlug ← normalizeSiteSlug (siteSlug feedbackData);
  if negb (JS.truthy (rating feedbackData)) || negb (JS.truthy (comment feedbackData))
  then Throw (Error "rating_and_comment_required")
  else
    match rating feedbackData, comment feedbackData with
    | Some rating, Some comment =>
        (* [rating < 1 || rating > 5] *)
        outside ← match rating with
                  | JNum q => Ok (negb (Qle_bool 1 q) || negb (Qle_bool q 5))
                  | _ => match out_of_range rating with
                         | Some b => Ok b
                         | None => Throw TypeError
                         end
                  end;
        if (outside : bool) then Throw (Error "rating_must_be_between_1_and_5")
        else
          name' ← trimmed_or_null (name feedbackData);
          email' ← lowered_or_null (email feedbackData);
          phone' ← trimmed_or_null (phone feedbackData);
          comment' ← trimmed comment;
          (* INSERT ... VALUES (?, ?, ?, ?, ?, ?, 0) *)
          stored ← match rating with
                   | JNum q => Ok q
                   | _ => match stored_rating rating with
                          | Some q => Ok q
                          | None => Throw SqliteError
                          end
                   end;
          let id := next_rowid (List.map Feedbacks.id (feedbacks db)) in
          let row := {| Feedbacks.id := id;
                        Feedbacks.site_slug := normalizedSlug;
                        Feedbacks.name := name';
                        Feedbacks.email := email';
                        Feedbacks.phone := phone';
                        Feedbacks.rating := stored;
                        Feedbacks.comment := comment';
                        Feedbacks.approved := false;
                        Feedbacks.created_at := now |} in
          Ok (with_feedbacks (feedbacks db ++ [row]) db,
              {| id := id;
                 normalizedSlug := normalizedSlug;
                 name_given := name feedbackData;
                 email_given := email feedbackData;
                 phone_given := phone feedbackData;
                 rating_given := rating;
                 comment_given := comment;
                 approved := false;
                 createdAt := now |})
    | _, _ => Throw TypeError      (* not reached: both fields are truthy here *)
    end.

(** [getFeedbacks(siteSlug, page, pageSize, options)] with the numbers that
    [parseInt] returned.  [(page - 1) * pageSize] is computed in doubles;
    [stmt.all] throws when [pageSize] or the offset is NaN, an infinity or
    outside the 64-bit range. *)
Definition getFeedbacks (db : database) (siteSlug : option json)
    (page pageSize : Double.t) (opts : FeedbackService2.options)
  : result FeedbackPage.t :=
  normalizedSlug ← normalizeSiteSlug siteSlug;
  match page, pageSize with
  | Double.Int page, Double.Int pageSize =>
      let onlyApproved := default false (FeedbackService2.onlyApproved opts) in
      let includePrivateInfo := default false (FeedbackService2.includePrivateInfo opts) in
      let offset := Double.round53 (Double.round53 (page - 1) * pageSize) in
      let matching :=
        List.filter (FeedbackService2.selected normalizedSlug onlyApproved)
                    (feedbacks db) in
      let total := Z.of_nat (length matching) in
      if Double.bindable pageSize && Double.bindable offset then
        let rows :=
          FeedbackService2.limit_offset pageSize offset
            (merge_sort FeedbackService2.newest_first matching) in
        Ok {| FeedbackPage.feedbacks :=
                List.map (FeedbackService2.view includePrivateInfo) rows;
              FeedbackPage.page := page;
              FeedbackPage.pageSize := pageSize;
              FeedbackPage.total := total;
              FeedbackPage.totalPages := FeedbackService2.ceil_div total pageSize |}
      else Throw SqliteError
  | _, _ => Throw SqliteError
  end.

(** [approveFeedback(parseInt(id), approved)]: no row has an id that is
    NaN or an infinity. *)
Definition approveFeedback (db : database) (id : Double.t) (approved : bool)
  : result (database * (Z * bool)) :=
  match id with
  | Double.Int id => FeedbackService.approveFeedback db id approved None
  | _ => Throw (Error "feedback_not_found")
  end.

End Untyped.

Module FeedbackBody.
(** [req.body] of POST /api/feedbacks; [None] is a field left out. *)
Record t : Type := {
  site : option json;
  name : option json;
  email : option json;
  phone : option json;
  rating : option json;
  comment : option json
}.
End FeedbackBody.

Module FeedbackQuery.
(** [req.query] of GET /api/feedbacks. *)
Record t : Type := {
  site : option json;
  page : option json;
  pageSize : option json;
  pin : option json
}.
End FeedbackQuery.

Module ApprovalBody.
(** [req.body] of POST /api/feedbacks/approve. *)
Record t : Type := {
  site : option json;
  id : option json;
  approved : option json;
  pin : option json
}.
End ApprovalBody.

Module JsonWebToken.

(** [const jwt = await import('jsonwebtoken'); jwt.verify(token, secret)].
    jsonwebtoken is a CommonJS module.  The namespace object that a
    dynamic [import()] resolves to carries [module.exports] under
    [default]; [verify] is not among its properties, so [jwt.verify] is
    [undefined] and the call throws a TypeError, whatever the token.  (The
    middleware, which imports the default export, has the function.) *)
Definition namespace_verify (token : string) : result Auth.token :=
  Throw TypeError.

End JsonWebToken.

Module FeedbackRoutes.

Inductive payload : Type :=
| failure (error : string)                       (* { ok: false, error } *)
| created (feedback : Untyped.created)           (* { ok: true, feedback } *)
| listed (result : FeedbackPage.t)               (* { ok: true, feedbacks, pagination } *)
| approval (id : Z) (approved : bool)            (* { ok: true, id, approved, updatedAt } *)
| stats (s : FeedbackStats.t).                   (* { ok: true, stats } *)

Record response : Type := {
  status : nat;
  sent : payload
}.

Definition respond (code : nat) (p : payload) : response :=
  {| status := code; sent := p |}.

(** [error.message === literal] *)
Definition has_message (error : exn) (literal : string) : bool :=
  match error with
  | Error message => String.eqb message literal
  | _ => false
  end.

(** [authHeader.startsWith('Bearer ') ? authHeader.slice(7) : null] *)
Definition bearer (authHeader : string) : option string :=
  if String.prefix "Bearer " authHeader
  then Some (String.substring 7 (String.length authHeader - 7) authHeader)
  else None.

Definition post `{RatingCoercion} (db : database) (now : Z) (req : FeedbackBody.t)
  : database * response :=
  if negb (JS.truthy (FeedbackBody.site req))
     || negb (JS.truthy (FeedbackBody.rating req))
     || negb (JS.truthy (FeedbackBody.comment req))
  then (db, respond 400 (failure "site_rating_and_comment_required"))
  else
    match Untyped.createFeedback db now
            {| Untyped.siteSlug := FeedbackBody.site req;
               Untyped.name := FeedbackBody.name req;
               Untyped.email := FeedbackBody.email req;
               Untyped.phone := FeedbackBody.phone req;
               Untyped.rating := FeedbackBody.rating req;
               Untyped.comment := FeedbackBody.comment req |} with
    | Ok (db', feedback) => (db', respond 200 (created feedback))
    | Throw error =>
        if has_message error "rating_and_comment_required"
        then (db, respond 400 (failure "rating_and_comment_required"))
        else if has_message error "rating_must_be_between_1_and_5"
        then (db, respond 400 (failure "rating_must_be_between_1_and_5"))
        else (db, respond 500 (failure "internal_error"))
    end.

(** The block both GET / and POST /approve run to decide whether the
    caller is an admin or a VIP user with the PIN of [site]: the value the
    flag ([isAuthorized]; [includePrivateInfo] and [!onlyApproved]) has
    after it.  An exception inside the [try] leaves the flag [false]. *)
Definition fullAccess `{Bcrypt} (db : database) (authorization : option string)
    (site pin : option json) : bool :=
  match authorization with
  | Some authHeader =>
      if JS.truthy_string authHeader then
        let attempt : result bool :=
          match bearer authHeader with
          | Some token =>
              if JS.truthy_string token then
                decoded ← JsonWebToken.namespace_verify token;
                if String.eqb (Auth.role decoded) "admin" then Ok true
                else if JS.strict_eq (Auth.plan decoded) "vip" && JS.truthy pin
                then
                  isValidPin ← Untyped.validateVipPin db site pin;
                  Ok isValidPin
                else Ok false
              else Ok false
          | None => Ok false
          end in
        match attempt with
        | Ok flag => flag
        | Throw _ => false
        end
      else false
  | None => false
  end.

(** [parseInt(x)] for [const { x = d } = req.query]: [parseInt(1)] is 1
    and [parseInt(20)] is 20. *)
Definition parsed `{ParseInt} (x : option json) (d : Z) : Double.t :=
  match x with
  | Some v => parseInt v
  | None => Double.Int d
  end.

Definition get `{Bcrypt} `{ParseInt} (db : database) (authorization : option string)
    (query : FeedbackQuery.t) : response :=
  if negb (JS.truthy (FeedbackQuery.site query))
  then respond 400 (failure "site_required")
  else
    let full := fullAccess db authorization (FeedbackQuery.site query)
                  (FeedbackQuery.pin query) in
    let includePrivateInfo := full in
    let onlyApproved := negb full in
    match Untyped.getFeedbacks db (FeedbackQuery.site query)
            (parsed (FeedbackQuery.page query) 1)
            (parsed (FeedbackQuery.pageSize query) 20)
            {| FeedbackService2.onlyApproved := Some onlyApproved;
               FeedbackService2.includePrivateInfo := Some includePrivateInfo |} with
    | Ok result => respond 200 (listed result)
    | Throw _ => respond 500 (failure "internal_error")
    end.

Definition approve `{Bcrypt} `{ParseInt} (db : database) (authorization : option string)
    (req : ApprovalBody.t) : database * response :=
  match ApprovalBody.id req, ApprovalBody.approved req with
  | Some id, Some (JBool approved) =>
      if negb (JS.truthy (ApprovalBody.site req)) || negb (JS.truthy (Some id))
      then (db, respond 400 (failure "site_id_and_approved_required"))
      else
        let isAuthorized := fullAccess db authorization (ApprovalBody.site req)
                              (ApprovalBody.pin req) in
        if negb isAuthorized
        then (db, respond 403 (failure "vip_pin_or_admin_required"))
        else
          match Untyped.approveFeedback db (parseInt id) approved with
          | Ok (db', (id', approved')) => (db', respond 200 (approval id' approved'))
          | Throw error =>
              if has_message error "feedback_not_found"
              then (db, respond 404 (failure "feedback_not_found"))
              else (db, respond 500 (failure "internal_error"))
          end
  | _, _ => (db, respond 400 (failure "site_id_and_approved_required"))
  end.

(** GET /stats, behind [verifyToken]: [user] is the decoded token. *)
Definition get_stats `{FloatAverage} (db : database) (user : Auth.token)
    (site : option string) : response :=
  match site with
  | Some s =>
      if negb (JS.truthy_string s) then respond 400 (failure "site_required")
      else if negb (String.eqb (Auth.role user) "admin")
              && negb (JS.strict_eq (Auth.siteSlug user) (JS.toUpperCase s))
      then respond 403 (failure "access_denied")
      else
        match FeedbackService2.getFeedbackStats db site with
        | Ok s' => respond 200 (stats s')
        | Throw _ => respond 500 (failure "internal_error")
        end
  | None => respond 400 (failure "site_required")
  end.

End FeedbackRoutes.

(** ** Feedbacks of two sites

    Four feedbacks of 'DEMO' (two approved) and one of 'SHOP', with
    contact data; and a token verifier that knows three tokens. *)

Definition review (id : Z) (site_slug : string) (rating : Q) (approved : bool)
    (created_at : Z) : Feedbacks.row :=
  {| Feedbacks.id := id; Feedbacks.site_slug := site_slug;
     Feedbacks.name := Some "Rui"%string;
     Feedbacks.email := Some "rui@example.com"%string;
     Feedbacks.phone := Some "555-0100"%string;
     Feedbacks.rating := rating; Feedbacks.comment := "ok";
     Feedbacks.approved := approved; Feedbacks.created_at := created_at |}.

Definition reviews : list Feedbacks.row :=
  [review 1 "DEMO" 5 true 100; review 2 "DEMO" 4 false 200;
   review 3 "SHOP" 1 true 300; review 4 "DEMO" 3 true 400;
   review 5 "DEMO" (5 # 2) false 500].

Definition reviewsDb : database := with_feedbacks reviews exampleDb.

Definition publicListing : FeedbackService2.options :=
  {| FeedbackService2.onlyApproved := Some true;
     FeedbackService2.includePrivateInfo := Some false |}.

Definition fullListing : FeedbackService2.options :=
  {| FeedbackService2.onlyApproved := Some false;
     FeedbackService2.includePrivateInfo := Some true |}.

Definition example_jwt : Jwt := λ token,
  if String.eqb token "admin-token" then Ok adminToken
  else if String.eqb token "vip-token" then Ok vipToken
  else if String.eqb token "essential-token" then Ok essentialToken
  else Throw (Error "jwt malformed").

(** POST /api/feedbacks/approve with a JSON body
    [{ site, id, approved, pin }]. *)
Definition approvalOf (site0 : string) (id0 : Z) (approved0 : bool) (pin0 : option string)
  : ApprovalBody.t :=
  {| ApprovalBody.site := Some (JStr site0);
     ApprovalBody.id := Some (JNum (inject_Z id0));
     ApprovalBody.approved := Some (JBool approved0);
     ApprovalBody.pin := option_map JStr pin0 |}.

(** GET /api/feedbacks?site=..&page=..&pageSize=..&pin=.. *)
Definition listingOf (site0 page0 pageSize0 : string) (pin0 : option string)
  : FeedbackQuery.t :=
  {| FeedbackQuery.site := Some (JStr site0);
     FeedbackQuery.page := Some (JStr page0);
     FeedbackQuery.pageSize := Some (JStr pageSize0);
     FeedbackQuery.pin := option_map JStr pin0 |}.

(** [typeof x === 'boolean'] *)
Definition is_boolean (x : option json) : bool :=
  match x with Some (JBool _) => true | _ => false end.

(** The value of a string of decimal digits. *)
Fixpoint decimal (s : string) (acc : option Z) : option Z :=
  match s with
  | EmptyString => acc
  | String c rest =>
      let n := Z.of_nat (nat_of_ascii c) in
      if Z.leb 48 n && Z.leb n 57
      then decimal rest (Some (10 * default 0 acc + (n - 48)))%Z
      else None
  end.

(** An example for [parseInt]: it is the runtime's function on strings of
    decimal digits, on whole numbers below 2^53 and on strings that begin
    with no digit, sign or white space, and NaN elsewhere (where the
    runtime's need not be). *)
Definition example_parseInt : ParseInt := λ v,
  match v with
  | JStr s => match decimal s None with Some n => Double.Int n | None => Double.NaN end
  | JNum q => if Z.eqb (Z.pos (Qden (Qred q))) 1 then Double.Int (Qnum (Qred q))
              else Double.NaN
  | _ => Double.NaN
  end.

(** A submission whose fields have the types [createFeedback] is written
    for, as a request body and as the argument of [createFeedback]. *)
Definition bodyOf (d : FeedbackData.t) : FeedbackBody.t :=
  {| FeedbackBody.site := option_map JStr (FeedbackData.siteSlug d);
     FeedbackBody.name := option_map JStr (FeedbackData.name d);
     FeedbackBody.email := option_map JStr (FeedbackData.email d);
     FeedbackBody.phone := option_map JStr (FeedbackData.phone d);
     FeedbackBody.rating := option_map JNum (FeedbackData.rating d);
     FeedbackBody.comment := option_map JStr (FeedbackData.comment d) |}.

Definition dataOf (d : FeedbackData.t) : Untyped.data :=
  {| Untyped.siteSlug := option_map JStr (FeedbackData.siteSlug d);
     Untyped.name := option_map JStr (FeedbackData.name d);
     Untyped.email := option_map JStr (FeedbackData.email d);
     Untyped.phone := option_map JStr (FeedbackData.phone d);
     Untyped.rating := option_map JNum (FeedbackData.rating d);
     Untyped.comment := option_map JStr (FeedbackData.comment d) |}.

Definition given (fb : FeedbackService.created) : Untyped.created :=
  {| Untyped.id := FeedbackService.id fb;
     Untyped.normalizedSlug := FeedbackService.siteSlug fb;
     Untyped.name_given := option_map JStr (FeedbackService.name fb);
     Untyped.email_given := option_map JStr (FeedbackService.email fb);
     Untyped.phone_given := option_map JStr (FeedbackService.phone fb);
     Untyped.rating_given := JNum (FeedbackService.rating fb);
     Untyped.comment_given := JStr (FeedbackService.comment fb);
     Untyped.approved := FeedbackService.approved fb;
     Untyped.createdAt := FeedbackService.createdAt fb |}.

(** A runtime that refuses every rating that is not a number. *)
Definition strict_coercion : RatingCoercion :=
  {| out_of_range := λ _, None; stored_rating := λ _, None |}.


(* ===================================================================== *)
(** * The rest of SettingsService (src/src/services/settingsService.js, 72-114)
      and of the settings routes (routes/settings.js, in
      src/src/routes/feedbacks.js, 417-552) *)
(* ===================================================================== *)

Module HistoryEntry.
Record t : Type := {
  id : Z;
  created_at : Z;
  settings : json
}.
End HistoryEntry.

Module SettingsService2.

(** [v?.key]: [undefined] when [v] is [null] or [undefined]. *)
Definition get_opt (v : option json) (key : string) : result (option json) :=
  match v with
  | None | Some JNull => Ok None
  | Some x => JS.get x key
  end.

(** [Array.isArray(defs) ? defs : []] *)
Definition array_or_empty (defs : option json) : json :=
  match defs with
  | Some (JArr items) => JArr items
  | _ => JArr []
  end.

(** [x || {}] *)
Definition or_empty_object (x : option json) : json :=
  match x with
  | Some v => if JS.truthy x then v else JObj ∅
  | None => JObj ∅
  end.

Definition upsertSectionDefs `{Bcrypt} (db : database) (now : Z)
    (siteSlug : option string) (defs : option json) (pin : option string)
    (requirePin : bool) : result (database * (Z * string)) :=
  normalizedSlug ← SiteService.normalizeSiteSlug siteSlug;
  rejected ← (if requirePin
              then valid ← SiteService.validateVipPin db (Some normalizedSlug) pin;
                   Ok (negb valid)
              else Ok false);
  if (rejected : bool) then Throw (Error "invalid_pin")
  else
    currentSettings ← SettingsService.getSettings db (Some normalizedSlug);
    sections ← JS.get currentSettings "sections";
    data ← get_opt sections "data";
    let updatedSettings :=
      JObj (<[ "sections"%string :=
                 JObj (<[ "defs"%string := array_or_empty defs ]>
                       {[ "data"%string := or_empty_object data ]}) ]>
            (JS.spread currentSettings)) in
    SettingsService.saveSettings db now (Some normalizedSlug) updatedSettings None false.

(** [ORDER BY created_at DESC] *)
Definition newest_first (a b : SettingsKv.row) : Prop :=
  (SettingsKv.created_at b ≤ SettingsKv.created_at a)%Z.

#[global] Instance newest_first_dec (a b : SettingsKv.row) : Decision (newest_first a b).
Proof. unfold newest_first. apply _. Defined.

(** [results.map(row => ({ ..., settings: JSON.parse(row.settings_json) }))]:
    the first text that does not parse ends the call. *)
Fixpoint parsed (results : list SettingsKv.row) : result (list HistoryEntry.t) :=
  match results with
  | [] => Ok []
  | row :: rest =>
      settings ← JS.JSON_parse (SettingsKv.settings_json row);
      entries ← parsed rest;
      Ok ({| HistoryEntry.id := SettingsKv.id row;
             HistoryEntry.created_at := SettingsKv.created_at row;
             HistoryEntry.settings := settings |} :: entries)
  end.

Definition getSettingsHistory (db : database) (siteSlug : option string) (limit : Z)
  : result (list HistoryEntry.t) :=
  normalizedSlug ← SiteService.normalizeSiteSlug siteSlug;
  let results :=
    FeedbackService2.limit_offset limit 0
      (merge_sort newest_first
         (List.filter (λ r, String.eqb (SettingsKv.site_slug r) normalizedSlug)
            (settings_kv db))) in
  parsed results.

End SettingsService2.

Module DefsBody.
(** [req.body] of POST /api/sections/upsert-defs. *)
Record t : Type := {
  site : option string;
  defs : option json;
  pin : option string
}.
End DefsBody.

Module SettingsRoutes2.

Inductive payload : Type :=
| failure (error : string)                  (* { ok: false, error } *)
| found (settings : json)                   (* { ok: true, settings } *)
| saved (id : Z) (siteSlug : string)        (* { ok: true, id, siteSlug } *)
| listed (history : list HistoryEntry.t).   (* { ok: true, history } *)

Record response : Type := {
  status : nat;
  sent : payload
}.

Definition respond (code : nat) (p : payload) : response :=
  {| status := code; sent := p |}.

(** GET /api/settings, open to everybody. *)
Definition get (db : database) (site : option string) : response :=
  if negb (JS.truthy_opt_string site) then respond 400 (failure "site_required")
  else
    match SettingsService.getSettings db site with
    | Ok settings => respond 200 (found settings)
    | Throw _ => respond 500 (failure "internal_error")
    end.


(** GET /api/settings/history, behind [verifyToken] and [requireAdmin];
    [limit] is the number [parseInt] makes of the parameter (10 when left
    out). *)
Definition history (db : database) (site : option string) (limit : Z) : response :=
  if negb (JS.truthy_opt_string site) then respond 400 (failure "site_required")
  else
    match SettingsService2.getSettingsHistory db site limit with
    | Ok entries => respond 200 (listed entries)
    | Throw _ => respond 500 (failure "internal_error")
    end.

End SettingsRoutes2.

(** ** Settings examples *)

(** What [getSettings] makes of a stored value: the object without
    [security.vip_pin]. *)
Definition withoutPin (settings : json) : json :=
  match settings with
  | JObj props =>
      match props !! "security"%string with
      | Some sec =>
          if JS.truthy (Some sec)
          then JObj (<[ "security"%string := JS.delete_prop sec "vip_pin" ]> props)
          else settings
      | None => settings
      end
  | _ => settings
  end.

(** Every snapshot of the site in the table is older than [now]. *)
Definition older_snapshots (db : database) (normalizedSlug : string) (now : Z) : Prop :=
  ∀ r, In r (settings_kv db) → SettingsKv.site_slug r = normalizedSlug →
       (SettingsKv.created_at r < now)%Z.

(** [{ theme: 'dark', sections: { defs: [], data: { hero: 'Hi' } } }] *)
Definition darkTheme : json :=
  JObj (<[ "theme"%string := JStr "dark" ]>
        {[ "sections"%string :=
             JObj (<[ "defs"%string := JArr [] ]>
                   {[ "data"%string := JObj {[ "hero"%string := JStr "Hi" ]} ]}) ]}).

Definition snapshot (id : Z) (site_slug : string) (settings : json) (created_at : Z)
  : SettingsKv.row :=
  {| SettingsKv.id := id; SettingsKv.site_slug := site_slug;
     SettingsKv.settings_json := JS.Stringified settings;
     SettingsKv.created_at := created_at |}.

Definition themedDb : database :=
  with_settings_kv [snapshot 1 "DEMO" darkTheme 100] exampleDb.

Definition heroDefs : json := JArr [JStr "hero"].


(* ===================================================================== *)
(** * AuthService (src/src/services/authService.js), the rest of the token
      middleware (middlewares/auth.js, src/unnamed/part_009) and the auth
      routes (src/src/routes/auth.js) *)
(* ===================================================================== *)

(** [jwt.sign(payload, secret, { expiresIn: '30d' })] *)
Class JwtSign : Type := jwt_sign : Auth.token → string.

(** The message of the error that the driver raises when a CHECK
    constraint fails; its text depends on the version of SQLite. *)
Class SqliteMessages : Type := check_constraint_failed : string.

Module UserData.
Record t : Type := {
  email : string;
  password : string;
  role : option string;              (* ['client'] when left out *)
  siteSlug : option string;
  plan : option string               (* ['essential'] when left out *)
}.
End UserData.

Module UserView.
(** The [user] object that [login] and GET /api/auth/me send. *)
Record t : Type := {
  id : Z;
  email : string;
  role : string;
  siteSlug : option string;
  plan : option string;
  billingStatus : option string
}.
End UserView.

Module AuthMiddleware.

Definition generateToken `{JwtSign} (user : Users.row) : string :=
  jwt_sign {| Auth.id := Users.id user;
              Auth.email := Users.email user;
              Auth.role := Users.role user;
              Auth.siteSlug := Users.site_slug user;
              Auth.plan := Users.plan user |}.

(** What a middleware does with a request: it hands it on ([next()]),
    with [req.user] set, or answers it. *)
Inductive outcome : Type :=
| next (user : Auth.token)
| answered (status : nat) (error : string).   (* { ok: false, error } *)

Definition verifyToken `{Jwt} (authorization : option string) : outcome :=
  let token :=
    match authorization with
    | Some authHeader =>
        if JS.truthy_string authHeader then FeedbackRoutes.bearer authHeader else None
    | None => None
    end in
  if negb (JS.truthy_opt_string token) then answered 401 "token_required"
  else
    match token with
    | Some t =>
        match jwt_verify t with
        | Ok decoded => next decoded
        | Throw _ => answered 401 "invalid_token"
        end
    | None => answered 401 "token_required"   (* not reached *)
    end.

(** [req.user] is [None] when no middleware has set it. *)
Definition requireRole (role : string) (user : option Auth.token) : outcome :=
  match user with
  | None => answered 401 "authentication_required"
  | Some u =>
      if negb (String.eqb (Auth.role u) role)
      then answered 403 "insufficient_permissions"
      else next u
  end.

Definition requireAdmin (user : option Auth.token) : outcome :=
  requireRole "admin" user.

(** The token carries no [billing_status]: [req.user.billing_status] is
    [undefined]. *)
Definition requireVipOrAdmin (user : option Auth.token) : outcome :=
  match user with
  | None => answered 401 "authentication_required"
  | Some u =>
      let isAdmin := String.eqb (Auth.role u) "admin" in
      let isVip := JS.strict_eq (Auth.plan u) "vip" || Auth.isActiveBillingStatus None in
      if negb isAdmin && negb isVip
      then answered 403 "vip_or_admin_required"
      else next u
  end.

End AuthMiddleware.

Module AuthService.

(** [WHERE LOWER(email) = LOWER(?)] *)
Definition by_email (param : string) (u : Users.row) : bool :=
  String.eqb (JS.toLowerCase (Users.email u)) (JS.toLowerCase param).

Definition view (user : Users.row) : UserView.t :=
  {| UserView.id := Users.id user;
     UserView.email := Users.email user;
     UserView.role := Users.role user;
     UserView.siteSlug := Users.site_slug user;
     UserView.plan := Users.plan user;
     UserView.billingStatus := Users.billing_status user |}.

Definition login `{Bcrypt} `{JwtSign} (db : database) (email password : string)
  : result (string * UserView.t) :=
  match List.find (by_email (JS.trim (JS.toLowerCase email))) (users db) with
  | None => Throw (Error "invalid_credentials")
  | Some user =>
      let isValidPassword := bcrypt_compare password (Users.password_hash user) in
      if negb isValidPassword then Throw (Error "invalid_credentials")
      else
        let token := AuthMiddleware.generateToken user in
        Ok (token, view user)
  end.

(** [SELECT * FROM users WHERE id = ?] *)
Definition getUserById (db : database) (id : Z) : option Users.row :=
  List.find (λ u, Z.eqb (Users.id u) id) (users db).

(** What [createUser] returns. *)
Record created : Type := {
  id : Z;
  email : string;
  role : string;
  siteSlug : option string;
  plan : string
}.

(** [x || null] *)
Definition or_null (x : option string) : option string :=
  match x with
  | Some s => if JS.truthy_string s then Some s else None
  | None => None
  end.

(** The INSERT checks the CHECK constraints on [role] and [plan] first
    and then the UNIQUE index on [email], which compares without regard to
    case (COLLATE NOCASE). *)
Definition createUser `{BcryptHash} `{SqliteMessages} (db : database) (now : Z)
    (salt : string) (userData : UserData.t) : result (database * created) :=
  let role := default "client"%string (UserData.role userData) in
  let plan := default "essential"%string (UserData.plan userData) in
  let passwordHash := bcrypt_hash salt (UserData.password userData) in
  let email := JS.trim (JS.toLowerCase (UserData.email userData)) in
  if negb (existsb (String.eqb role) ["admin"; "client"]%string)
     || negb (existsb (String.eqb plan) ["vip"; "essential"]%string)
  then Throw (Error check_constraint_failed)
  else if existsb (by_email email) (users db)
  then Throw (Error "email_already_exists")
  else
    let id := next_rowid (List.map Users.id (users db)) in
    let row := {| Users.id := id; Users.role := role; Users.email := email;
                  Users.password_hash := passwordHash;
                  Users.site_slug := or_null (UserData.siteSlug userData);
                  Users.plan := Some plan;
                  Users.billing_status := Some "pending"%string;
                  Users.billing_next := None;
                  Users.billing_amount := Some 0%Q;
                  Users.billing_currency := Some "BRL"%string;
                  Users.billing_provider := Some "mercadopago"%string;
                  Users.created_at := now; Users.updated_at := now |} in
    Ok (with_users (users db ++ [row]) db,
        {| id := id; email := UserData.email userData; role := role;
           siteSlug := UserData.siteSlug userData; plan := plan |}).

End AuthService.

Module AuthRoutes.

Inductive payload : Type :=
| failure (error : string)                       (* { ok: false, error } *)
| session (token : string) (user : UserView.t)   (* { ok: true, token, user } *)
| me (user : UserView.t).                        (* { ok: true, user } *)

Record response : Type := {
  status : nat;
  sent : payload
}.

Definition respond (code : nat) (p : payload) : response :=
  {| status := code; sent := p |}.

(** POST /api/auth/login *)
Definition login `{Bcrypt} `{JwtSign} (db : database) (email password : option string)
  : response :=
  match email, password with
  | Some e, Some p =>
      if negb (JS.truthy_string e) || negb (JS.truthy_string p)
      then respond 400 (failure "email_and_password_required")
      else
        match AuthService.login db e p with
        | Ok (token, user) => respond 200 (session token user)
        | Throw error =>
            if FeedbackRoutes.has_message error "invalid_credentials"
            then respond 401 (failure "invalid_credentials")
            else respond 500 (failure "internal_error")
        end
  | _, _ => respond 400 (failure "email_and_password_required")
  end.

(** GET /api/auth/me, behind [verifyToken]. *)
Definition get_me (db : database) (user : Auth.token) : response :=
  match AuthService.getUserById db (Auth.id user) with
  | Some u => respond 200 (me (AuthService.view u))
  | None => respond 404 (failure "user_not_found")
  end.

End AuthRoutes.

(** ** Accounts and tokens for the examples *)

(** The payload that [generateToken] signs for a user row. *)
Definition payloadOf (user : Users.row) : Auth.token :=
  {| Auth.id := Users.id user; Auth.email := Users.email user;
     Auth.role := Users.role user; Auth.siteSlug := Users.site_slug user;
     Auth.plan := Users.plan user |}.

(** The token is good: jsonwebtoken has signed it for this user, it is
    not empty, and (within its thirty days) it verifies to its payload. *)
Definition good_token `{Jwt} `{JwtSign} (user : Users.row) : Prop :=
  JS.truthy_string (AuthMiddleware.generateToken user) = true
  ∧ jwt_verify (AuthMiddleware.generateToken user) = Ok (payloadOf user).

(** A signer that agrees with [example_jwt] on the three example tokens. *)
Definition example_sign : JwtSign := λ payload,
  if String.eqb (Auth.role payload) "admin" then "admin-token"%string
  else if JS.strict_eq (Auth.plan payload) "vip" then "vip-token"%string
  else "essential-token"%string.

Definition example_messages : SqliteMessages := "CHECK constraint failed"%string.

Definition noUsers : database :=
  {| users := []; sites := sites exampleDb; settings_kv := []; feedbacks := [] |}.

Definition anaData : UserData.t :=
  {| UserData.email := " Ana@Example.com"; UserData.password := "s3cret";
     UserData.role := None; UserData.siteSlug := Some "DEMO"%string;
     UserData.plan := Some "vip"%string |}.

(* ===================================================================== *)
(** * Routes behind the token: sites (src/src/routes/sites.js),
      subscription (routes/subscription.js, src/unnamed/part_007) and the
      legacy routes of src/src/server.js *)
(* ===================================================================== *)

Module SiteRoutes.

Inductive payload : Type :=
| failure (error : string)                  (* { ok: false, error } *)
| site_status (siteSlug : string) (active : bool).   (* { ok: true, siteSlug, active } *)

Record response : Type := {
  status : nat;
  sent : payload
}.

Definition respond (code : nat) (p : payload) : response :=
  {| status := code; sent := p |}.

(** GET /api/site-status, open to everybody. *)
Definition get_site_status (db : database) (site : option string) : response :=
  if negb (JS.truthy_opt_string site) then respond 400 (failure "site_required")
  else
    match SiteService2.getSiteStatus db site with
    | Ok (siteSlug, active) => respond 200 (site_status siteSlug active)
    | Throw error =>
        if FeedbackRoutes.has_message error "site_not_found"
        then respond 404 (failure "site_not_found")
        else respond 500 (failure "internal_error")
    end.

(** The handler of POST /api/site/toggle; [active] is [None] when the
    field is not a boolean. *)
Definition toggle_handler (db : database) (now : Z) (site : option string)
    (active : option bool) : database * response :=
  match active with
  | Some a =>
      if negb (JS.truthy_opt_string site)
      then (db, respond 400 (failure "site_and_active_required"))
      else
        match SiteService.toggleSite db now site a with
        | Ok (db', (siteSlug, active')) => (db', respond 200 (site_status siteSlug active'))
        | Throw error =>
            if FeedbackRoutes.has_message error "site_not_found"
            then (db, respond 404 (failure "site_not_found"))
            else (db, respond 500 (failure "internal_error"))
        end
  | None => (db, respond 400 (failure "site_and_active_required"))
  end.

(** [router.post('/site/toggle', verifyToken, requireAdmin, handler)] *)
Definition toggle `{Jwt} (db : database) (now : Z) (authorization : option string)
    (site : option string) (active : option bool) : database * response :=
  match AuthMiddleware.verifyToken authorization with
  | AuthMiddleware.answered code error => (db, respond code (failure error))
  | AuthMiddleware.next user =>
      match AuthMiddleware.requireAdmin (Some user) with
      | AuthMiddleware.answered code error => (db, respond code (failure error))
      | AuthMiddleware.next _ => toggle_handler db now site active
      end
  end.

End SiteRoutes.

Module SubscriptionRoutes.

Inductive payload : Type :=
| failure (error : string)                       (* { ok: false, error } *)
| found (status : SubscriptionService.status)    (* { ok: true, ...status } *)
| upgraded (userId : Z) (plan : string).         (* { ok: true, updated, userId, plan } *)

Record response : Type := {
  status : nat;
  sent : payload
}.

Definition respond (code : nat) (p : payload) : response :=
  {| status := code; sent := p |}.

(** GET /api/subscription/status, open to everybody. *)
Definition get_status (db : database) (now : Z) (site email : option string) : response :=
  if negb (JS.truthy_opt_string site) && negb (JS.truthy_opt_string email)
  then respond 400 (failure "site_or_email_required")
  else
    match SubscriptionService.getSubscriptionStatus db now site email with
    | Ok st => respond 200 (found st)
    | Throw error =>
        if FeedbackRoutes.has_message error "user_not_found"
        then respond 404 (failure "user_not_found")
        else respond 500 (failure "internal_error")
    end.

(** The handler of POST /api/subscription/upgrade-plan; [user] is the
    decoded token. *)
Definition upgrade_plan_handler (db : database) (now : Z) (user : Auth.token)
    (plan : option string) : database * response :=
  let userId := Auth.id user in
  match plan with
  | Some p =>
      if negb (JS.truthy_string p) then (db, respond 400 (failure "plan_required"))
      else
        match SubscriptionService2.upgradePlan db now userId p with
        | Ok (db', (userId', plan')) => (db', respond 200 (upgraded userId' plan'))
        | Throw error =>
            if FeedbackRoutes.has_message error "invalid_plan"
            then (db, respond 400 (failure "invalid_plan"))
            else if FeedbackRoutes.has_message error "user_not_found"
            then (db, respond 404 (failure "user_not_found"))
            else (db, respond 500 (failure "internal_error"))
        end
  | None => (db, respond 400 (failure "plan_required"))
  end.

(** [router.post('/upgrade-plan', verifyToken, handler)] *)
Definition upgrade_plan `{Jwt} (db : database) (now : Z) (authorization : option string)
    (plan : option string) : database * response :=
  match AuthMiddleware.verifyToken authorization with
  | AuthMiddleware.answered code error => (db, respond code (failure error))
  | AuthMiddleware.next user => upgrade_plan_handler db now user plan
  end.

End SubscriptionRoutes.

Module LegacyRoutes.

Inductive payload : Type :=
| failure (error : string)
  (* { ok: true, plan, status, siteSlug, features: { leads: true,
       feedbacks: true, traffic: true, assets } } *)
| client_plan_of (plan status : option string) (siteSlug : string) (assets : bool)
  (* { ok: true, plan, status, provider, next_renewal, amount, currency } *)
| client_billing_of (plan status provider : option string) (next_renewal : option Z)
    (amount : option Q) (currency : option string).

Record response : Type := {
  status : nat;
  sent : payload
}.

Definition respond (code : nat) (p : payload) : response :=
  {| status := code; sent := p |}.

(** GET /api/client-plan *)
Definition client_plan (db : database) (now : Z) (email : option string) : response :=
  if negb (JS.truthy_opt_string email) then respond 400 (failure "email_required")
  else
    match SubscriptionService.getSubscriptionStatus db now None email with
    | Ok st =>
        respond 200 (client_plan_of (SubscriptionService.plan st)
                       (SubscriptionService.billingStatus st)
                       (SubscriptionService.siteSlug st)
                       (SubscriptionService.isVip st))
    | Throw _ => respond 500 (failure "internal_error")
    end.

(** GET /api/client-billing *)
Definition client_billing (db : database) (now : Z) (email : option string) : response :=
  if negb (JS.truthy_opt_string email) then respond 400 (failure "email_required")
  else
    match SubscriptionService.getSubscriptionStatus db now None email with
    | Ok st =>
        respond 200 (client_billing_of (SubscriptionService.plan st)
                       (SubscriptionService.billingStatus st)
                       (SubscriptionService.provider st)
                       (SubscriptionService.nextCharge st)
                       (SubscriptionService.amount st)
                       (SubscriptionService.currency st))
    | Throw _ => respond 500 (failure "internal_error")
    end.

End LegacyRoutes.

(** The request carries [Authorization: Bearer <token>] with a token that
    verifies to [payload]. *)
Definition bearer_of `{Jwt} (authorization : option string) (payload : Auth.token) : Prop :=
  ∃ token, authorization = Some ("Bearer " +:+ token)%string
         ∧ token ≠ ""%string
         ∧ jwt_verify token = Ok payload.

(** The request carries the token of an admin. *)
Definition admin_request `{Jwt} (authorization : option string) : Prop :=
  ∃ payload, bearer_of authorization payload ∧ Auth.role payload = "admin"%string.

(* ===================================================================== *)
(** * Properties *)
(* ===================================================================== *)

Lemma strict_eq_true (x : option string) (literal : string) :
  JS.strict_eq x literal = true ↔ x = Some literal.
Proof.
  destruct x as [s|]; simpl.
  - rewrite String.eqb_eq. split; congruence.
  - split; discriminate.
Qed.

Section Subscription.
Import SubscriptionService.

(** ** The billing whitelist *)

(** C5. [isActiveBillingStatus status] is [true] exactly when [status] is
    one of the four strings 'approved', 'authorized', 'accredited',
    'recurring_charges'; on 'pending', 'cancelled', 'suspended' and on an
    unset status it is [false].  The copy in the token middleware agrees
    with the one of the service on every status. *)
Theorem isActiveBillingStatus_whitelist :
  (∀ status : option string,
     isActiveBillingStatus status = true ↔
     status = Some "approved"%string ∨ status = Some "authorized"%string ∨
     status = Some "accredited"%string ∨ status = Some "recurring_charges"%string)
  ∧ (∀ status, Auth.isActiveBillingStatus status = isActiveBillingStatus status)
  ∧ isActiveBillingStatus (Some "pending"%string) = false
  ∧ isActiveBillingStatus (Some "cancelled"%string) = false
  ∧ isActiveBillingStatus (Some "suspended"%string) = false
  ∧ isActiveBillingStatus None = false.
Proof.
  split; [|repeat split; reflexivity].
  intros [s|]; simpl.
  - rewrite !orb_true_iff, !String.eqb_eq. split.
    + intros [->|[->|[->|[->|H]]]]; auto; discriminate.
    + intros [H|[H|[H|H]]]; injection H as ->; auto.
  - split; [discriminate|]. intros [H|[H|[H|H]]]; discriminate.
Qed.

(** ** The status of one user *)

(** C1. Whenever the lookup of [getSubscriptionStatus] finds a user, the
    call returns a status for that user whose [isVip] flag is
    [plan === 'vip' || isActiveBillingStatus(billing_status)]; so a 'vip'
    plan is reported VIP whatever the billing status (including
    'cancelled'), and an active billing status is reported VIP whatever the
    plan (including 'essential'). *)
Theorem getSubscriptionStatus_isVip (db : database) (now : Z)
    (siteSlug email : option string) (normalizedSlug : string) (user : Users.row) :
  SiteService.normalizeSiteSlug siteSlug = Ok normalizedSlug →
  findUser db normalizedSlug email = Some user →
  ∃ st, getSubscriptionStatus db now siteSlug email = Ok st
    ∧ plan st = Users.plan user
    ∧ billingStatus st = Users.billing_status user
    ∧ isVip st = JS.strict_eq (Users.plan user) "vip"
                 || isActiveBillingStatus (Users.billing_status user)
    ∧ (Users.plan user = Some "vip"%string → isVip st = true)
    ∧ (isActiveBillingStatus (Users.billing_status user) = true → isVip st = true).
Proof.
  intros Hslug Hfind. unfold getSubscriptionStatus.
  rewrite Hslug. simpl. rewrite Hfind.
  eexists. split; [reflexivity|]. simpl.
  repeat split.
  - intros Hplan. apply strict_eq_true in Hplan. rewrite Hplan. reflexivity.
  - intros ->. apply orb_true_r.
Qed.

Lemma getSubscriptionStatus_isVip_witness :
  (∃ st, getSubscriptionStatus exampleDb exampleNow (Some " demo "%string) None = Ok st
     ∧ plan st = Some "vip"%string
     ∧ billingStatus st = Some "cancelled"%string
     ∧ isVip st = true)
  ∧ (∃ st, getSubscriptionStatus exampleDb exampleNow (Some "shop"%string) None = Ok st
     ∧ plan st = Some "essential"%string
     ∧ billingStatus st = Some "approved"%string
     ∧ isVip st = true).
Proof.
  split.
  - destruct (getSubscriptionStatus_isVip exampleDb exampleNow
                (Some " demo "%string) None "DEMO" ana eq_refl eq_refl)
      as (st & Hst & Hplan & Hstatus & _ & Hvip & _).
    exists st. repeat split; [exact Hst|exact Hplan|exact Hstatus|].
    apply Hvip. reflexivity.
  - destruct (getSubscriptionStatus_isVip exampleDb exampleNow
                (Some "shop"%string) None "SHOP" bob eq_refl eq_refl)
      as (st & Hst & Hplan & Hstatus & _ & _ & Hactive).
    exists st. repeat split; [exact Hst|exact Hplan|exact Hstatus|].
    apply Hactive. reflexivity.
Defined.

(** With a site slug supplied, the call fails with 'user_not_found' exactly
    when the lookup finds no row. *)
Lemma getSubscriptionStatus_user_not_found (db : database) (now : Z)
    (slug : string) (email : option string) :
  getSubscriptionStatus db now (Some slug) email = Throw (Error "user_not_found")
  ↔ findUser db (JS.toUpperCase (JS.trim slug)) email = None.
Proof.
  unfold getSubscriptionStatus. simpl.
  destruct (findUser _ _ _); split; congruence.
Qed.

(** C7. A call with a [null] site slug never reaches the lookup: the slug
    is normalised first, and [null.trim()] throws a TypeError, also when
    the email supplied is that of an existing user (the lookup by that
    email alone would have found her, whatever the slug). *)
Theorem getSubscriptionStatus_null_slug :
  (∀ db now email, getSubscriptionStatus db now None email = Throw TypeError)
  ∧ (∀ slug, findUser exampleDb slug (Some "Ana@Example.com"%string) = Some ana)
  ∧ getSubscriptionStatus exampleDb exampleNow None (Some "Ana@Example.com"%string)
    = Throw TypeError.
Proof.
  split; [reflexivity|]. split; [|reflexivity].
  intros slug. reflexivity.
Qed.

End Subscription.

(* --------------------------------------------------------------------- *)
(** ** The grace-period sweep *)
(* --------------------------------------------------------------------- *)

Section Sweep.
Import SubscriptionService.

Context {cells : DatetimeCells}.
Variable now : Z.

Lemma changes_zero {A : Type} (p : A → bool) (l : list A) :
  Nat.eqb (length (List.filter p l)) 0 = negb (existsb p l).
Proof.
  induction l as [|a l IH]; simpl; [reflexivity|].
  destruct (p a); simpl; [reflexivity|exact IH].
Qed.

Lemma map_unless {A : Type} (p : A → bool) (f : A → A) (l : list A) :
  existsb p l = false → List.map (λ a, if p a then f a else a) l = l.
Proof.
  induction l as [|a l IH]; simpl; [reflexivity|].
  intros [Ha Hl]%orb_false_elim. rewrite Ha, IH by exact Hl. reflexivity.
Qed.

Lemma existsb_sweptSites (p : string → bool) (us : list Users.row)
    (rows : list Sites.row) :
  existsb (λ s, p (Sites.slug s)) (sweptSites now us rows)
  = existsb (λ s, p (Sites.slug s)) rows.
Proof.
  unfold sweptSites. induction rows as [|s rows IH]; simpl; [reflexivity|].
  rewrite IH. destruct (existsb _ us); reflexivity.
Qed.

Lemma targets_set_active (u : Users.row) (a : bool) (s : Sites.row) :
  targets u (Sites.set_active a now s) = targets u s.
Proof. reflexivity. Qed.

Lemma sweepEntry_sweptSites (us : list Users.row) (rows : list Sites.row)
    (u : Users.row) :
  sweepEntry (sweptSites now us rows) u = sweepEntry rows u.
Proof.
  unfold sweepEntry.
  destruct (Users.site_slug u) as [slug|]; [|reflexivity].
  destruct (JS.truthy_string slug); [|reflexivity].
  unfold SiteService.slug_is.
  rewrite (existsb_sweptSites (λ x, String.eqb x (JS.toUpperCase (JS.trim slug)))).
  reflexivity.
Qed.

Lemma cancelUser_users (db : database) (u : Users.row) :
  users (cancelUser now (Users.id u) db) = sweptUsers now [u] (users db).
Proof.
  unfold cancelUser, sweptUsers, sameId. simpl.
  apply List.map_ext. intros x. rewrite orb_false_r. reflexivity.
Qed.

Lemma sweptSites_one (u : Users.row) (rows : list Sites.row) :
  sweptSites now [u] rows
  = List.map (λ s, if targets u s then Sites.set_active false now s else s) rows.
Proof.
  unfold sweptSites. apply List.map_ext. intros s. simpl.
  rewrite orb_false_r. reflexivity.
Qed.

(** One turn of the loop never throws, and rewrites the rows as [swept]
    says. *)
Lemma sweepUser_swept (db : database) (log : list log_entry) (u : Users.row) :
  sweepUser now (db, log) u = Ok (swept now [u] db, log ++ sweepEntry (sites db) u).
Proof.
  unfold sweepUser, swept, sweepEntry. simpl fst. simpl snd.
  rewrite <- cancelUser_users, sweptSites_one. unfold targets.
  destruct (Users.site_slug u) as [slug|] eqn:Hslug; simpl.
  - destruct (JS.truthy_string slug) eqn:Htruthy; simpl.
    + unfold SiteService.toggleSite. simpl.
      rewrite changes_zero.
      destruct (existsb (SiteService.slug_is _) (sites db)) eqn:Hsite; simpl.
      * reflexivity.
      * rewrite (map_unless (SiteService.slug_is _)) by exact Hsite. reflexivity.
    + rewrite app_nil_r, List.map_id. reflexivity.
  - rewrite app_nil_r, List.map_id. reflexivity.
Qed.

Lemma sweptUsers_cons (u : Users.row) (us rows : list Users.row) :
  sweptUsers now us (sweptUsers now [u] rows) = sweptUsers now (u :: us) rows.
Proof.
  unfold sweptUsers. rewrite List.map_map. apply List.map_ext. intros x. simpl.
  rewrite orb_false_r. destruct (sameId x u); simpl.
  - change (sameId (cancelled now x)) with (sameId x).
    destruct (existsb (sameId x) us); reflexivity.
  - reflexivity.
Qed.

Lemma sweptSites_cons (u : Users.row) (us : list Users.row) (rows : list Sites.row) :
  sweptSites now us (sweptSites now [u] rows) = sweptSites now (u :: us) rows.
Proof.
  unfold sweptSites. rewrite List.map_map. apply List.map_ext. intros s. simpl.
  rewrite orb_false_r. destruct (targets u s); simpl.
  - change (λ v, targets v (Sites.set_active false now s)) with (λ v, targets v s).
    destruct (existsb (λ v, targets v s) us); reflexivity.
  - reflexivity.
Qed.

Lemma swept_cons (u : Users.row) (us : list Users.row) (db : database) :
  swept now us (swept now [u] db) = swept now (u :: us) db.
Proof.
  unfold swept. simpl. rewrite sweptUsers_cons, sweptSites_cons. reflexivity.
Qed.

Lemma swept_nil (db : database) : swept now [] db = db.
Proof.
  destruct db. unfold swept, sweptUsers, sweptSites. simpl.
  rewrite !List.map_id. reflexivity.
Qed.

(** The whole loop: it runs to the end of the list, whatever [toggleSite]
    does on the way. *)
Lemma for_of_sweepUser (us : list Users.row) (db : database) (log : list log_entry) :
  JS.for_of (sweepUser now) us (db, log)
  = Ok (swept now us db, log ++ flat_map (sweepEntry (sites db)) us).
Proof.
  revert db log. induction us as [|u us IH]; intros db log; simpl.
  - rewrite swept_nil, app_nil_r. reflexivity.
  - rewrite sweepUser_swept. simpl. rewrite IH, swept_cons, <- app_assoc.
    do 4 f_equal. apply flat_map_ext. intros v.
    apply sweepEntry_sweptSites.
Qed.

Lemma processGracePeriodCheck_swept (db : database) :
  processGracePeriodCheck db now
  = Ok (swept now (List.filter (overdue now) (users db)) db,
        {| processed := length (List.filter (overdue now) (users db));
           deactivatedSites := slugsOf (List.filter (overdue now) (users db)) |},
        flat_map (sweepEntry (sites db)) (List.filter (overdue now) (users db))).
Proof.
  unfold processGracePeriodCheck. rewrite for_of_sweepUser. reflexivity.
Qed.

Lemma toggleSite_site_not_found (db : database) (slug : string) (active : bool) :
  SiteService.toggleSite db now (Some slug) active = Throw (Error "site_not_found")
  ↔ existsb (SiteService.slug_is (JS.toUpperCase (JS.trim slug))) (sites db) = false.
Proof.
  unfold SiteService.toggleSite. simpl. rewrite changes_zero.
  destruct (existsb _ (sites db)); simpl; split; congruence.
Qed.

Lemma overdue_cancelled (now' : Z) (x : Users.row) :
  overdue now' (cancelled now x) = false.
Proof.
  unfold overdue. simpl. destruct (Users.billing_next x); [|reflexivity].
  apply andb_false_r.
Qed.

Lemma overdue_iff (u : Users.row) :
  overdue now u = true ↔
  ∃ next s, Users.billing_next u = Some next
          ∧ Sql.lt (Some (written next))
                   (option_map Sql.Text (Sql.datetime (now - 3 * 86400))) = true
          ∧ Users.billing_status u = Some s
          ∧ s ≠ "cancelled"%string ∧ s ≠ "suspended"%string.
Proof.
  unfold overdue, GRACE_DAYS, day.
  destruct (Users.billing_next u) as [next|];
    [|split; [discriminate|intros (? & ? & ? & _); discriminate]].
  destruct (Users.billing_status u) as [s|].
  - cbn [existsb]. rewrite andb_true_iff, negb_true_iff, !orb_false_iff,
      !String.eqb_neq. split.
    + intros (Hlt & Hc & Hs & _). exists next, s. auto.
    + intros (next' & s' & [= <-] & Hlt & [= <-] & Hc & Hs). auto.
  - rewrite andb_false_r. split; [discriminate|].
    intros (? & ? & _ & _ & ? & _). discriminate.
Qed.

Lemma in_sweptUsers (us rows : list Users.row) (x : Users.row) :
  In x rows →
  In (if existsb (sameId x) us then cancelled now x else x) (sweptUsers now us rows).
Proof.
  intros Hx. unfold sweptUsers.
  apply (List.in_map (λ x, if existsb (sameId x) us then cancelled now x else x)).
  exact Hx.
Qed.

Lemma selected_overdue (rows : list Users.row) (u : Users.row) :
  In u rows → overdue now u = true →
  existsb (sameId u) (List.filter (overdue now) rows) = true.
Proof.
  intros Hin Hov. apply existsb_exists. exists u. split.
  - apply List.filter_In. auto.
  - apply Z.eqb_refl.
Qed.

(** C8. The sweep always returns: for every database and clock,
    [processGracePeriodCheck] yields its aggregate result (the count of
    selected users and the list of their site slugs) and never throws.
    Every selected user is cancelled and every site row matching a selected
    user's slug is deactivated, also when [toggleSite] fails for other
    selected users; such a failure (no site row for the slug) only leaves a
    [console.error] line in the log. *)
Theorem processGracePeriodCheck_log_and_continue (db : database) :
  ∃ db' r log,
    processGracePeriodCheck db now = Ok (db', r, log)
    ∧ processed r = length (List.filter (overdue now) (users db))
    ∧ deactivatedSites r = slugsOf (List.filter (overdue now) (users db))
    ∧ (∀ u, In u (users db) → overdue now u = true →
         In (Users.set_billing_status (Some "cancelled"%string) now u) (users db'))
    ∧ (∀ u slug, In u (users db) → overdue now u = true →
         Users.site_slug u = Some slug → JS.truthy_string slug = true →
         (∀ d, sites d = sites db →
               SiteService.toggleSite d now (Some slug) false
               = Throw (Error "site_not_found") →
               In (console_error ("Error deactivating site " +:+ slug +:+ ":")
                                 (Error "site_not_found")) log)
         ∧ (∀ s, In s (sites db) →
                 Sites.slug s = JS.toUpperCase (JS.trim slug) →
                 In (Sites.set_active false now s) (sites db'))).
Proof.
  rewrite processGracePeriodCheck_swept.
  eexists _, _, _. split; [reflexivity|]. simpl.
  split; [reflexivity|]. split; [reflexivity|]. split.
  - intros u Hin Hov.
    pose proof (in_sweptUsers (List.filter (overdue now) (users db)) _ _ Hin) as Hswept.
    rewrite selected_overdue in Hswept by assumption. exact Hswept.
  - intros u slug Hin Hov Hslug Htruthy. split.
    + intros d Hd Hfail. apply toggleSite_site_not_found in Hfail.
      rewrite Hd in Hfail.
      apply in_flat_map. exists u. split; [apply List.filter_In; auto|].
      unfold sweepEntry. rewrite Hslug, Htruthy, Hfail. left. reflexivity.
    + intros s Hs Heq. unfold sweptSites.
      apply in_map_iff. exists s. split; [|exact Hs].
      assert (existsb (λ v, targets v s) (List.filter (overdue now) (users db)) = true)
        as ->; [|reflexivity].
      apply existsb_exists. exists u. split; [apply List.filter_In; auto|].
      unfold targets, SiteService.slug_is. rewrite Hslug, Htruthy. simpl.
      apply String.eqb_eq. exact Heq.
Qed.

Lemma NoDup_map_inj {A B : Type} (f : A → B) (l : list A) (x y : A) :
  List.NoDup (List.map f l) → In x l → In y l → f x = f y → x = y.
Proof.
  induction l as [|a l IH]; simpl; [tauto|].
  intros Hnd Hx Hy Hf. apply List.NoDup_cons_iff in Hnd as [Hnotin Hnd].
  destruct Hx as [->|Hx], Hy as [->|Hy]; auto.
  - exfalso. apply Hnotin. rewrite Hf. apply List.in_map, Hy.
  - exfalso. apply Hnotin. rewrite <- Hf. apply List.in_map, Hx.
Qed.

(** Under the primary key, the rows whose id was selected are the selected
    rows themselves. *)
Lemma selected_iff_overdue (rows : list Users.row) (x : Users.row) :
  List.NoDup (List.map Users.id rows) → In x rows →
  existsb (sameId x) (List.filter (overdue now) rows) = overdue now x.
Proof.
  intros Hnd Hx. destruct (overdue now x) eqn:Hov.
  - apply selected_overdue; assumption.
  - apply not_true_iff_false. intros (v & Hv & Hid)%existsb_exists.
    apply List.filter_In in Hv as [Hv Hovv]. apply Z.eqb_eq in Hid.
    rewrite (NoDup_map_inj Users.id rows x v Hnd Hx Hv Hid) in Hov. congruence.
Qed.

Lemma existsb_filter {A : Type} (p q : A → bool) (l : list A) :
  existsb p (List.filter q l) = existsb (λ a, q a && p a) l.
Proof.
  induction l as [|a l IH]; simpl; [reflexivity|].
  destruct (q a); simpl; rewrite IH; reflexivity.
Qed.

Lemma filter_none {A : Type} (p : A → bool) (l : list A) :
  (∀ a, In a l → p a = false) → List.filter p l = [].
Proof.
  induction l as [|a l IH]; simpl; [reflexivity|].
  intros H. rewrite (H a) by auto. apply IH. auto.
Qed.

(** After a sweep at [now], no row is selected by a sweep at [now]. *)
Lemma overdue_after_sweep (rows : list Users.row) :
  List.filter (overdue now)
    (sweptUsers now (List.filter (overdue now) rows) rows) = [].
Proof.
  apply filter_none. intros x' (x & <- & Hx)%in_map_iff.
  destruct (existsb _ _) eqn:Hsel; [apply overdue_cancelled|].
  destruct (overdue now x) eqn:Hov; [|reflexivity].
  rewrite selected_overdue in Hsel by assumption. discriminate.
Qed.

End Sweep.

Lemma processGracePeriodCheck_log_and_continue_witness :
  ∃ db' r log,
    @SubscriptionService.processGracePeriodCheck iso_cells exampleDb exampleNow
      = Ok (db', r, log)
    ∧ SubscriptionService.processed r = 3%nat
    ∧ In (console_error "Error deactivating site ghost:" (Error "site_not_found")) log
    ∧ In (cancelled exampleNow eva) (users db')
    ∧ In (Sites.set_active false exampleNow (site 3 "CAFE" None)) (sites db').
Proof.
  destruct (@processGracePeriodCheck_log_and_continue iso_cells exampleNow exampleDb)
    as (db' & r & log & Hrun & Hcount & _ & Hcancel & Hsites).
  exists db', r, log. split; [exact Hrun|]. split; [rewrite Hcount; reflexivity|].
  assert (In dan (users exampleDb)) as Hdan by (do 3 right; left; reflexivity).
  assert (In eva (users exampleDb)) as Heva by (do 4 right; left; reflexivity).
  split; [|split].
  - destruct (Hsites dan "ghost"%string Hdan eq_refl eq_refl eq_refl) as [Hlog _].
    apply (Hlog exampleDb eq_refl). reflexivity.
  - apply (Hcancel eva Heva). reflexivity.
  - destruct (Hsites eva "cafe"%string Heva eq_refl eq_refl eq_refl) as [_ Hsite].
    apply Hsite; [|reflexivity]. do 2 right. left. reflexivity.
Defined.

Section SweepTwice.
Import SubscriptionService.
Context {cells : DatetimeCells}.

(** What one run of the sweep at [now] does, under the primary key on
    [users.id]: the rows its WHERE clause selects get the status
    'cancelled', every other user row is left as it was, and every site row
    whose slug is the normalised, non-empty [site_slug] of a selected user
    is deactivated.  The call returns the number of selected users and
    their non-empty site slugs.  A second run on the resulting database
    selects none of them, at whatever time it happens, and at the same
    clock reading it selects nobody and changes nothing. *)
Lemma processGracePeriodCheck_effect (now : Z) (db : database) :
  List.NoDup (List.map Users.id (users db)) →
  ∃ db' r log,
    processGracePeriodCheck db now = Ok (db', r, log)
    ∧ users db'
      = List.map (λ u, if overdue now u
                       then Users.set_billing_status (Some "cancelled"%string) now u
                       else u)
                 (users db)
    ∧ sites db'
      = List.map (λ s, if existsb (λ u, overdue now u && targets u s) (users db)
                       then Sites.set_active false now s
                       else s)
                 (sites db)
    ∧ processed r = length (List.filter (overdue now) (users db))
    ∧ deactivatedSites r = slugsOf (List.filter (overdue now) (users db))
    ∧ (∀ now', ∃ db'' r' log',
         processGracePeriodCheck db' now' = Ok (db'', r', log')
         ∧ (∀ u, In u (users db) → overdue now u = true →
              ¬ In (Users.id u)
                   (List.map Users.id (List.filter (overdue now') (users db'))))
         ∧ (now' = now →
              db'' = db' ∧ processed r' = 0%nat ∧ deactivatedSites r' = [])).
Proof.
  intros Hnd.
  rewrite processGracePeriodCheck_swept.
  eexists _, _, _. split; [reflexivity|]. simpl.
  split; [|split; [|split; [reflexivity|split; [reflexivity|]]]].
  - unfold sweptUsers. apply List.map_ext_in. intros x Hx.
    rewrite selected_iff_overdue by assumption. reflexivity.
  - unfold sweptSites. apply List.map_ext. intros s.
    rewrite existsb_filter. reflexivity.
  - intros now'.
    eexists _, _, _. split; [apply processGracePeriodCheck_swept|].
    simpl. split.
    + intros u Hu Hov (x' & Hid & Hx')%in_map_iff.
      apply List.filter_In in Hx' as [Hx' Hov'].
      apply in_map_iff in Hx' as (x & <- & Hx).
      assert (existsb (sameId x) (List.filter (overdue now) (users db)) = true) as Hsel.
      { apply existsb_exists. exists u. split; [apply List.filter_In; auto|].
        apply Z.eqb_eq. rewrite <- Hid. destruct (existsb _ _); reflexivity. }
      rewrite Hsel, overdue_cancelled in Hov'. discriminate.
    + intros ->. rewrite overdue_after_sweep.
      split; [apply swept_nil|]. split; reflexivity.
Qed.

(** C2. The sweep misses every account whose billing status is unset.
    Such an account is "not already 'cancelled' or 'suspended'", but the
    clause [billing_status NOT IN ('cancelled', 'suspended')] is NULL on a
    NULL status: under the primary key on [users.id], for every clock
    reading, whatever the payment date of the account and however date
    cells are written, the run does not select the account, returns
    normally, does not count it, and leaves its row, status included, as
    it was. *)
Theorem processGracePeriodCheck_skips_unset_status
    (now : Z) (db : database) (u : Users.row) :
  List.NoDup (List.map Users.id (users db)) →
  In u (users db) →
  Users.billing_status u = None →
  overdue now u = false
  ∧ ∃ db' r log,
      processGracePeriodCheck db now = Ok (db', r, log)
      ∧ In u (users db')
      ∧ ¬ In u (List.filter (overdue now) (users db))
      ∧ processed r = length (List.filter (overdue now) (users db)).
Proof.
  intros Hnd Hu Hstatus.
  assert (overdue now u = false) as Hov.
  { unfold overdue. rewrite Hstatus.
    destruct (Users.billing_next u); [apply andb_false_r|reflexivity]. }
  split; [exact Hov|].
  destruct (processGracePeriodCheck_effect now db Hnd)
    as (db' & r & log & Hrun & Husers & _ & Hcount & _).
  exists db', r, log. split; [exact Hrun|]. split; [|split; [|exact Hcount]].
  - rewrite Husers. apply in_map_iff. exists u. rewrite Hov. auto.
  - intros [_ Hsel]%List.filter_In. congruence.
Qed.

End SweepTwice.

Lemma processGracePeriodCheck_effect_exampleDb :
  List.NoDup (List.map Users.id (users exampleDb))
  ∧ ∃ db' r log,
      @SubscriptionService.processGracePeriodCheck iso_cells exampleDb exampleNow
        = Ok (db', r, log)
      ∧ users db'
        = [ana; cancelled exampleNow bob; carla;
           cancelled exampleNow dan; cancelled exampleNow eva]
      ∧ SubscriptionService.processed r = 3%nat.
Proof.
  assert (List.NoDup (List.map Users.id (users exampleDb))) as Hnd.
  { simpl. repeat (apply List.NoDup_cons; [simpl; intuition discriminate|]).
    apply List.NoDup_nil. }
  split; [exact Hnd|].
  destruct (@processGracePeriodCheck_effect iso_cells exampleNow exampleDb Hnd)
    as (db' & r & log & Hrun & Husers & _ & Hcount & _).
  exists db', r, log. split; [exact Hrun|]. split.
  - rewrite Husers. reflexivity.
  - rewrite Hcount. reflexivity.
Qed.

(** Carla's payment date lies ten days back and her billing status is
    neither 'cancelled' nor 'suspended' (it is unset), yet the sweep selects
    nobody and leaves her row as it was. *)
Lemma processGracePeriodCheck_skips_unset_status_witness :
  Users.billing_next carla = Some tenDaysAgo
  ∧ (tenDaysAgo < exampleNow - 3 * 86400)%Z
  ∧ Users.billing_status carla = None
  ∧ @SubscriptionService.overdue iso_cells exampleNow carla = false
  ∧ @SubscriptionService.processGracePeriodCheck iso_cells onlyCarla exampleNow
    = Ok (onlyCarla,
          {| SubscriptionService.processed := 0;
             SubscriptionService.deactivatedSites := [] |},
          []).
Proof.
  split; [reflexivity|]. split; [reflexivity|]. split; [reflexivity|].
  assert (List.NoDup (List.map Users.id (users onlyCarla))) as Hnd.
  { simpl. apply List.NoDup_cons; [simpl; tauto|apply List.NoDup_nil]. }
  assert (In carla (users onlyCarla)) as Hcarla by (left; reflexivity).
  destruct (@processGracePeriodCheck_skips_unset_status iso_cells exampleNow
              onlyCarla carla Hnd Hcarla eq_refl)
    as (Hov & db' & r & log & Hrun & _).
  split; [exact Hov|]. reflexivity.
Defined.

(** The comparison of the WHERE clause is one of cells, not of instants.
    A payment date written by [toISOString] that falls on the cut-off day,
    here one hour before the cut-off and so more than three days back, has
    'T' where the text of [datetime] has a space: the account is not
    selected. *)
Example overdue_iso_cut_off_day :
  let late := account 6 "fred@example.com" (Some "fred") (Some "vip")
                (Some "approved") (Some (exampleNow - 3 * 86400 - 3600)%Z) in
  Sql.datetime (exampleNow - 3 * 86400)%Z = Some "1970-01-09 13:46:40"%string
  ∧ toISOString (exampleNow - 3 * 86400 - 3600)%Z = "1970-01-09T12:46:40.000Z"%string
  ∧ @SubscriptionService.overdue iso_cells exampleNow late = false
  ∧ @SubscriptionService.overdue iso_cells (exampleNow + 86400)%Z late = true.
Proof. repeat split; reflexivity. Qed.

(** A payment date written as a number sorts before every text: the account
    is selected although its payment is due in thirty days. *)
Example overdue_epoch_number :
  let early := account 7 "gil@example.com" (Some "gil") (Some "vip")
                 (Some "approved") (Some (exampleNow + 30 * 86400)%Z) in
  @SubscriptionService.overdue epoch_cells exampleNow early = true.
Proof. reflexivity. Qed.

(** The sweep on the example database: Dan's site does not exist, the
    failure is logged, and Eva, who comes after him, is processed all the
    same. *)
Example processGracePeriodCheck_exampleDb :
  @SubscriptionService.processGracePeriodCheck iso_cells exampleDb exampleNow
  = Ok ({| users := [ana; cancelled exampleNow bob; carla;
                     cancelled exampleNow dan; cancelled exampleNow eva];
           sites := [site 1 "DEMO" (Some "1234"%string);
                     Sites.set_active false exampleNow (site 2 "SHOP" None);
                     Sites.set_active false exampleNow (site 3 "CAFE" None)];
           settings_kv := [];
           feedbacks := [] |},
        {| SubscriptionService.processed := 3;
           SubscriptionService.deactivatedSites := ["SHOP"; "ghost"; "cafe"]%string |},
        [console_log "Deactivated site SHOP due to overdue billing";
         console_error "Error deactivating site ghost:" (Error "site_not_found");
         console_log "Deactivated site cafe due to overdue billing"]).
Proof. reflexivity. Qed.

(* --------------------------------------------------------------------- *)
(** ** Settings snapshots *)
(* --------------------------------------------------------------------- *)

Section Settings.
Import SettingsService.

Lemma has_vip_pin_deleted (props : gmap string json) (sec : json) :
  has_vip_pin (JS.set_prop (JObj props) "security" (JS.delete_prop sec "vip_pin"))
  = false.
Proof.
  simpl. rewrite lookup_insert_eq.
  destruct sec; simpl; try reflexivity.
  rewrite lookup_delete_eq. reflexivity.
Qed.

Lemma has_vip_pin_falsy (props : gmap string json) (sec : json) :
  props !! "security"%string = Some sec → JS.truthy (Some sec) = false →
  has_vip_pin (JObj props) = false.
Proof.
  intros Hsec Hfalsy. simpl. rewrite Hsec.
  destruct sec; try reflexivity. discriminate.
Qed.

(** What the read path hands out never has a [security.vip_pin]. *)
Lemma readSnapshot_no_vip_pin (settings_json : text) (v : json) :
  readSnapshot settings_json = Ok v → has_vip_pin v = false.
Proof.
  unfold readSnapshot.
  destruct settings_json as [settings|raw]; simpl; [|discriminate].
  destruct settings as [| | | | |props]; simpl; try discriminate;
    try (intros [= <-]; reflexivity).
  destruct (props !! "security"%string) as [sec|] eqn:Hsec.
  - destruct (JS.truthy (Some sec)) eqn:Htruthy; intros [= <-].
    + apply has_vip_pin_deleted.
    + exact (has_vip_pin_falsy props sec Hsec Htruthy).
  - intros [= <-]. simpl. rewrite Hsec. reflexivity.
Qed.

Lemma getSettings_no_vip_pin (db : database) (siteSlug : option string) (v : json) :
  getSettings db siteSlug = Ok v → has_vip_pin v = false.
Proof.
  unfold getSettings. destruct siteSlug as [slug|]; simpl; [|discriminate].
  destruct (latest _ _) as [row|]; [|intros [= <-]; reflexivity].
  destruct (readSnapshot (SettingsKv.settings_json row)) as [v'|e] eqn:Hread; simpl.
  - intros [= <-]. exact (readSnapshot_no_vip_pin _ _ Hread).
  - intros [= <-]. reflexivity.
Qed.


Lemma fold_newer_Some (rows : list SettingsKv.row) (b : SettingsKv.row) :
  ∃ row, fold_left newer rows (Some b) = Some row.
Proof.
  revert b. induction rows as [|r rows IH]; intros b; simpl; [eauto|].
  destruct (Z.ltb _ _); apply IH.
Qed.

Lemma latest_None (normalizedSlug : string) (rows : list SettingsKv.row) :
  (∀ r, In r rows → SettingsKv.site_slug r ≠ normalizedSlug) →
  latest normalizedSlug rows = None.
Proof.
  intros Hnone. unfold latest. rewrite filter_none; [reflexivity|].
  intros r Hr. apply String.eqb_neq. auto.
Qed.

Lemma fold_newer_In (rows : list SettingsKv.row) (acc : option SettingsKv.row)
    (row : SettingsKv.row) :
  fold_left newer rows acc = Some row → acc = Some row ∨ In row rows.
Proof.
  revert acc. induction rows as [|r rows IH]; intros acc; simpl; [auto|].
  intros [Hacc|Hin]%IH; [|auto].
  destruct acc as [b|]; simpl in Hacc.
  - destruct (Z.ltb _ _); injection Hacc as <-; auto.
  - injection Hacc as <-. auto.
Qed.

(** The row that [getSettings] reads is a snapshot of the site asked for. *)
Lemma latest_Some (normalizedSlug : string) (rows : list SettingsKv.row)
    (row : SettingsKv.row) :
  latest normalizedSlug rows = Some row →
  In row rows ∧ SettingsKv.site_slug row = normalizedSlug.
Proof.
  unfold latest. intros [[=]|Hin]%fold_newer_In.
  apply List.filter_In in Hin as [Hin Heq]. apply String.eqb_eq in Heq. auto.
Qed.

(** C10. For every site slug that is a string, [getSettings] returns a
    value and never throws.  When the site has no snapshot the value is the
    default object [{ sections: { defs: [], data: {} } }]; so it is when
    the text of the latest snapshot does not parse. *)
Theorem getSettings_total (db : database) (slug : string) :
  (∃ v, getSettings db (Some slug) = Ok v)
  ∧ ((∀ r, In r (settings_kv db) →
           SettingsKv.site_slug r ≠ JS.toUpperCase (JS.trim slug)) →
     getSettings db (Some slug) = Ok defaultSettings)
  ∧ (∀ row e,
       latest (JS.toUpperCase (JS.trim slug)) (settings_kv db) = Some row →
       JS.JSON_parse (SettingsKv.settings_json row) = Throw e →
       getSettings db (Some slug) = Ok defaultSettings).
Proof.
  unfold getSettings. simpl. repeat split.
  - destruct (latest _ _) as [row|]; [|eauto].
    destruct (readSnapshot _); simpl; eauto.
  - intros Hnone. rewrite latest_None by exact Hnone. reflexivity.
  - intros row e -> Hparse. unfold readSnapshot. rewrite Hparse. reflexivity.
Qed.

Lemma getSettings_total_witness :
  getSettings exampleDb (Some "demo"%string) = Ok defaultSettings
  ∧ getSettings
      (with_settings_kv
         [{| SettingsKv.id := 1; SettingsKv.site_slug := "DEMO";
             SettingsKv.settings_json := JS.Malformed "{sections:";
             SettingsKv.created_at := 5 |}] exampleDb)
      (Some "demo"%string)
    = Ok defaultSettings.
Proof.
  split.
  - apply (getSettings_total exampleDb "demo"). intros r [].
  - eapply (getSettings_total _ "demo"); reflexivity.
Defined.

(** A snapshot that parses to [null]: reading [settings.security] throws
    inside the [try], and the default comes back as well. *)
Example getSettings_null_snapshot (db : database) (row : SettingsKv.row) (slug : string) :
  latest (JS.toUpperCase (JS.trim slug)) (settings_kv db) = Some row →
  SettingsKv.settings_json row = JS.Stringified JNull →
  getSettings db (Some slug) = Ok defaultSettings.
Proof.
  intros Hrow Hjson. unfold getSettings. simpl. rewrite Hrow, Hjson. reflexivity.
Qed.

(** ** The write path *)

Lemma saveSettings_stores_clean `{Bcrypt} (db db' : database) (now : Z)
    (siteSlug : option string) (settings : json) (pin : option string)
    (requirePin : bool) (r : Z * string) :
  saveSettings db now siteSlug settings pin requirePin = Ok (db', r) →
  ∃ clean,
    cleanSettings settings = Ok clean
    ∧ settings_kv db'
      = settings_kv db
        ++ [{| SettingsKv.id := r.1; SettingsKv.site_slug := r.2;
               SettingsKv.settings_json := JS.Stringified clean;
               SettingsKv.created_at := now |}].
Proof.
  unfold saveSettings.
  destruct (SiteService.normalizeSiteSlug siteSlug) as [n|]; simpl; [|discriminate].
  destruct (if requirePin then _ else _) as [[|]|]; simpl; try discriminate.
  destruct (cleanSettings settings) as [clean|]; simpl; [|discriminate].
  intros [= <- <-]. exists clean. split; reflexivity.
Qed.

(** A PIN that is a non-empty string is removed before the snapshot is
    stored. *)
Example saveSettings_removes_pin `{Bcrypt} (db : database) (now : Z) (slug : string) :
  ∃ db' r clean,
    saveSettings db now (Some slug) pinPayload None false = Ok (db', r)
    ∧ settings_kv db'
      = settings_kv db
        ++ [{| SettingsKv.id := r.1; SettingsKv.site_slug := r.2;
               SettingsKv.settings_json := JS.Stringified clean;
               SettingsKv.created_at := now |}]
    ∧ clean = JObj (<[ "security"%string := JObj ∅ ]> (JS.spread defaultSettings))
    ∧ has_vip_pin clean = false.
Proof.
  unfold saveSettings. simpl.
  assert (cleanSettings pinPayload
          = Ok (JObj (<[ "security"%string := JObj ∅ ]> (JS.spread defaultSettings))))
    as -> by (vm_compute; reflexivity).
  simpl. eexists _, _, _. repeat split; reflexivity.
Qed.

(** C3. The write path does not always redact: the guard before the
    [delete] tests the value of [security.vip_pin], so a payload whose
    [vip_pin] is the empty string is stored as it came, key included.  (The
    read path redacts unconditionally, see [getSettings_no_vip_pin].) *)
Theorem saveSettings_keeps_falsy_vip_pin `{Bcrypt} (db : database) (now : Z)
    (slug : string) :
  has_vip_pin emptyPinPayload = true
  ∧ ∃ db' r,
      saveSettings db now (Some slug) emptyPinPayload None false = Ok (db', r)
      ∧ settings_kv db'
        = settings_kv db
          ++ [{| SettingsKv.id := r.1; SettingsKv.site_slug := r.2;
                 SettingsKv.settings_json := JS.Stringified emptyPinPayload;
                 SettingsKv.created_at := now |}].
Proof.
  split; [reflexivity|].
  unfold saveSettings. simpl.
  assert (cleanSettings emptyPinPayload = Ok emptyPinPayload) as ->
    by (vm_compute; reflexivity).
  simpl. eexists _, _. split; reflexivity.
Qed.

End Settings.

(* --------------------------------------------------------------------- *)
(** ** POST /api/settings *)
(* --------------------------------------------------------------------- *)

Section SettingsWrite.
Import SettingsRoutes.
Context `{Bcrypt}.




End SettingsWrite.


(** With the right PIN the same VIP user is let through. *)
Example post_settings_vip_right_pin :
  ∃ db', @SettingsRoutes.post plain_bcrypt exampleDb exampleNow vipToken
           (settingsWrite "demo" SettingsService.defaultSettings (Some "1234"%string))
         = (db', SettingsRoutes.respond 200 (SettingsRoutes.saved 1 "DEMO")).
Proof. eexists. vm_compute. reflexivity. Qed.

(* --------------------------------------------------------------------- *)
(** ** Feedback moderation *)
(* --------------------------------------------------------------------- *)

Section Feedback.
Import FeedbackService.

Lemma truthy_string_nonempty (c : string) :
  c ≠ ""%string → JS.truthy_string c = true.
Proof. destruct c; [congruence|reflexivity]. Qed.

Lemma Qeq_bool_false (x y : Q) : ¬ (x == y)%Q → Qeq_bool x y = false.
Proof.
  intros Hne. destruct (Qeq_bool x y) eqn:E; [|reflexivity].
  apply Qeq_bool_iff in E. contradiction.
Qed.

Lemma Qle_bool_false (x y : Q) : (y < x)%Q → Qle_bool x y = false.
Proof.
  intros Hlt. destruct (Qle_bool x y) eqn:E; [|reflexivity].
  apply Qle_bool_iff in E. exfalso. exact (Qlt_not_le _ _ Hlt E).
Qed.

Lemma rating_in_range_nonzero (r : Q) : (1 <= r)%Q → ¬ (r == 0)%Q.
Proof.
  intros Hle Heq. rewrite Heq in Hle. apply (Qlt_not_le 0 1); [reflexivity|exact Hle].
Qed.

(** The two tests of [createFeedback], for a submission that names its
    site:
    - when the rating is absent or 0, or the comment is absent or empty,
      it fails with 'rating_and_comment_required';
    - otherwise, when the rating is below 1 or above 5, it fails with
      'rating_must_be_between_1_and_5';
    - otherwise it succeeds and appends one row with that rating and
      [approved = false];
    - every success appends exactly one row, with [approved = false]. *)
Lemma createFeedback_validation (db : database) (now : Z) (data : FeedbackData.t)
    (slug : string) :
  FeedbackData.siteSlug data = Some slug →
  (truthy_rating (FeedbackData.rating data) = false
   ∨ JS.truthy_opt_string (FeedbackData.comment data) = false →
   createFeedback db now data = Throw (Error "rating_and_comment_required"))
  ∧ (∀ r c, FeedbackData.rating data = Some r → FeedbackData.comment data = Some c →
            ¬ (r == 0)%Q → c ≠ ""%string → (r < 1)%Q ∨ (5 < r)%Q →
            createFeedback db now data
            = Throw (Error "rating_must_be_between_1_and_5"))
  ∧ (∀ r c, FeedbackData.rating data = Some r → FeedbackData.comment data = Some c →
            c ≠ ""%string → (1 <= r)%Q → (r <= 5)%Q →
            ∃ db' fb row,
              createFeedback db now data = Ok (db', fb)
              ∧ feedbacks db' = feedbacks db ++ [row]
              ∧ Feedbacks.rating row = r
              ∧ Feedbacks.comment row = JS.trim c
              ∧ Feedbacks.approved row = false
              ∧ approved fb = false)
  ∧ (∀ db' fb, createFeedback db now data = Ok (db', fb) →
               ∃ row, feedbacks db' = feedbacks db ++ [row]
                    ∧ Feedbacks.approved row = false
                    ∧ approved fb = false).
Proof.
  intros Hslug. unfold createFeedback. rewrite Hslug. simpl.
  split; [|split; [|split]].
  - intros [-> | ->]; [|rewrite orb_true_r]; reflexivity.
  - intros r c -> -> Hr Hc Hrange. simpl.
    rewrite (Qeq_bool_false _ _ Hr), (truthy_string_nonempty _ Hc). simpl.
    destruct Hrange as [Hlow|Hhigh].
    + rewrite (Qle_bool_false _ _ Hlow). reflexivity.
    + rewrite (Qle_bool_false _ _ Hhigh), orb_true_r. reflexivity.
  - intros r c -> -> Hc Hlow Hhigh. simpl.
    rewrite (Qeq_bool_false _ _ (rating_in_range_nonzero _ Hlow)),
      (truthy_string_nonempty _ Hc). simpl.
    apply Qle_bool_iff in Hlow, Hhigh. rewrite Hlow, Hhigh. simpl.
    eexists _, _, _. split; [reflexivity|]. repeat split; reflexivity.
  - intros db' fb. destruct (_ || _); [discriminate|].
    destruct (FeedbackData.rating data) as [r|], (FeedbackData.comment data) as [c|];
      try discriminate.
    destruct (_ || _); [discriminate|].
    intros [= <- <-]. eexists. repeat split; reflexivity.
Qed.

(** C9. [createFeedback] has no test that the rating is a whole number.
    For a submission that names its site and carries a non-empty comment,
    every rating between 1 and 5 that is not a whole number passes the two
    tests [!rating] and [rating < 1 || rating > 5]: the call does not fail
    with the rating error, it succeeds, and one row holding that very
    rating is appended, with [approved = false]. *)
Theorem createFeedback_accepts_fractional_rating (db : database) (now : Z)
    (data : FeedbackData.t) (slug : string) (r : Q) (c : string) :
  FeedbackData.siteSlug data = Some slug →
  FeedbackData.rating data = Some r →
  FeedbackData.comment data = Some c →
  c ≠ ""%string →
  (1 <= r)%Q → (r <= 5)%Q →
  (∀ n : Z, ¬ (r == inject_Z n)%Q) →
  createFeedback db now data ≠ Throw (Error "rating_must_be_between_1_and_5")
  ∧ ∃ db' fb row,
      createFeedback db now data = Ok (db', fb)
      ∧ feedbacks db' = feedbacks db ++ [row]
      ∧ Feedbacks.rating row = r
      ∧ rating fb = r
      ∧ Feedbacks.approved row = false.
Proof.
  intros Hslug Hr Hc Hne Hlow Hhigh _.
  unfold createFeedback. rewrite Hslug, Hr, Hc. simpl.
  rewrite (Qeq_bool_false _ _ (rating_in_range_nonzero _ Hlow)),
    (truthy_string_nonempty _ Hne). simpl.
  apply Qle_bool_iff in Hlow, Hhigh. rewrite Hlow, Hhigh. simpl.
  split; [discriminate|].
  eexists _, _, _. split; [reflexivity|]. repeat split; reflexivity.
Qed.

End Feedback.

Lemma half_not_whole (n : Z) : ¬ (5 # 2 == inject_Z n)%Q.
Proof. unfold Qeq, inject_Z. simpl. lia. Qed.

Lemma createFeedback_accepts_fractional_rating_witness :
  ∃ db' fb row,
    FeedbackService.createFeedback exampleDb exampleNow
      (submission (Some (5 # 2)) (Some "ok"%string)) = Ok (db', fb)
    ∧ feedbacks db' = feedbacks exampleDb ++ [row]
    ∧ Feedbacks.rating row = 5 # 2
    ∧ FeedbackService.rating fb = 5 # 2.
Proof.
  destruct (createFeedback_accepts_fractional_rating exampleDb exampleNow
              (submission (Some (5 # 2)) (Some "ok"%string)) "demo" (5 # 2) "ok"
              eq_refl eq_refl eq_refl)
    as (_ & db' & fb & row & Hrun & Hrows & Hrow & Hfb & _);
    [discriminate|discriminate|discriminate|exact half_not_whole|].
  exists db', fb, row. auto.
Defined.

Lemma createFeedback_validation_witness :
  FeedbackService.createFeedback exampleDb exampleNow (submission None (Some "ok"%string))
  = Throw (Error "rating_and_comment_required")
  ∧ FeedbackService.createFeedback exampleDb exampleNow
      (submission (Some 7%Q) (Some "ok"%string))
    = Throw (Error "rating_must_be_between_1_and_5")
  ∧ ∃ db' fb row,
      FeedbackService.createFeedback exampleDb exampleNow
        (submission (Some 5%Q) (Some " great "%string)) = Ok (db', fb)
      ∧ feedbacks db' = feedbacks exampleDb ++ [row]
      ∧ Feedbacks.approved row = false.
Proof.
  destruct (createFeedback_validation exampleDb exampleNow
              (submission None (Some "ok"%string)) "demo" eq_refl)
    as (Hmissing & _).
  destruct (createFeedback_validation exampleDb exampleNow
              (submission (Some 7%Q) (Some "ok"%string)) "demo" eq_refl)
    as (_ & Hrange & _).
  destruct (createFeedback_validation exampleDb exampleNow
              (submission (Some 5%Q) (Some " great "%string)) "demo" eq_refl)
    as (_ & _ & Hok & _).
  split; [apply Hmissing; left; reflexivity|].
  split.
  - apply (Hrange 7%Q "ok"%string eq_refl eq_refl); [discriminate|discriminate|].
    right. reflexivity.
  - destruct (Hok 5%Q " great "%string eq_refl eq_refl) as (db' & fb & row & H1 & H2 & _ & _ & H3 & _);
      [discriminate|discriminate|discriminate|].
    exists db', fb, row. auto.
Defined.

(** The rating 2.5 is not an integer, yet the feedback is created and
    stored; and the rating 0, which lies outside [1,5], is refused by the
    first test, with the missing-fields error. *)
Example createFeedback_fractional_and_zero_rating :
  FeedbackService.createFeedback exampleDb exampleNow
    (submission (Some (5 # 2)) (Some "ok"%string))
  = Ok (with_feedbacks
          [{| Feedbacks.id := 1; Feedbacks.site_slug := "DEMO";
              Feedbacks.name := None; Feedbacks.email := None;
              Feedbacks.phone := None; Feedbacks.rating := 5 # 2;
              Feedbacks.comment := "ok"; Feedbacks.approved := false;
              Feedbacks.created_at := exampleNow |}]
          exampleDb,
        {| FeedbackService.id := 1; FeedbackService.siteSlug := "DEMO";
           FeedbackService.name := None; FeedbackService.email := None;
           FeedbackService.phone := None; FeedbackService.rating := 5 # 2;
           FeedbackService.comment := "ok"; FeedbackService.approved := false;
           FeedbackService.createdAt := exampleNow |})
  ∧ FeedbackService.createFeedback exampleDb exampleNow
      (submission (Some 0%Q) (Some "ok"%string))
    = Throw (Error "rating_and_comment_required").
Proof. split; reflexivity. Qed.

Section Approval.
Import FeedbackService.

Variables (id : Z) (approved0 : bool).

#[local] Abbreviation approve := (approveRow id approved0).








End Approval.



(* ===================================================================== *)
(** * Further properties: round trips, composition and edge behaviour *)
(* ===================================================================== *)

(* --------------------------------------------------------------------- *)
(** ** Strings and slugs *)
(* --------------------------------------------------------------------- *)

Section Strings.

Lemma append_cons (c : ascii) (s t : string) :
  (String c s +:+ t)%string = String c (s +:+ t).
Proof. reflexivity. Qed.

Lemma append_empty_r (s : string) : (s +:+ "")%string = s.
Proof.
  induction s as [|c s IH]; [reflexivity|]. rewrite append_cons, IH. reflexivity.
Qed.

Lemma append_assoc (s t u : string) : ((s +:+ t) +:+ u = s +:+ (t +:+ u))%string.
Proof.
  induction s as [|c s IH]; [reflexivity|]. rewrite !append_cons, IH. reflexivity.
Qed.

Lemma rev_app_append (s acc : string) :
  String.rev_app s acc = (String.rev s +:+ acc)%string.
Proof.
  unfold String.rev. revert acc. induction s as [|c s IH]; intros acc; simpl.
  - reflexivity.
  - rewrite (IH (String c acc)), (IH (String c "")), append_assoc. reflexivity.
Qed.

Lemma rev_cons (c : ascii) (s : string) :
  String.rev (String c s) = (String.rev s +:+ String c "")%string.
Proof. unfold String.rev at 1. simpl. apply rev_app_append. Qed.

Lemma rev_append (s t : string) :
  String.rev (s +:+ t) = (String.rev t +:+ String.rev s)%string.
Proof.
  induction s as [|c s IH].
  - symmetry. apply append_empty_r.
  - rewrite append_cons, !rev_cons, IH, append_assoc. reflexivity.
Qed.

Lemma rev_involutive (s : string) : String.rev (String.rev s) = s.
Proof.
  induction s as [|c s IH]; [reflexivity|].
  rewrite rev_cons, rev_append, IH. reflexivity.
Qed.

Lemma map_string_append (f : ascii → ascii) (s t : string) :
  JS.map_string f (s +:+ t) = (JS.map_string f s +:+ JS.map_string f t)%string.
Proof.
  induction s as [|c s IH]; [reflexivity|].
  rewrite append_cons. simpl. rewrite IH. reflexivity.
Qed.

Lemma map_string_rev (f : ascii → ascii) (s : string) :
  JS.map_string f (String.rev s) = String.rev (JS.map_string f s).
Proof.
  induction s as [|c s IH]; [reflexivity|]. simpl JS.map_string at 2.
  rewrite !rev_cons, map_string_append, IH. reflexivity.
Qed.

Lemma upper_ascii_idem (c : ascii) : JS.upper_ascii (JS.upper_ascii c) = JS.upper_ascii c.
Proof. destruct c as [[] [] [] [] [] [] [] []]; reflexivity. Qed.

Lemma lower_ascii_idem (c : ascii) : JS.lower_ascii (JS.lower_ascii c) = JS.lower_ascii c.
Proof. destruct c as [[] [] [] [] [] [] [] []]; reflexivity. Qed.

Lemma is_space_upper (c : ascii) : Ascii.is_space (JS.upper_ascii c) = Ascii.is_space c.
Proof. destruct c as [[] [] [] [] [] [] [] []]; reflexivity. Qed.

Lemma is_space_lower (c : ascii) : Ascii.is_space (JS.lower_ascii c) = Ascii.is_space c.
Proof. destruct c as [[] [] [] [] [] [] [] []]; reflexivity. Qed.

Lemma map_string_idem (f : ascii → ascii) (s : string) :
  (∀ c, f (f c) = f c) → JS.map_string f (JS.map_string f s) = JS.map_string f s.
Proof.
  intros Hf. induction s as [|c s IH]; simpl; [reflexivity|]. rewrite Hf, IH. reflexivity.
Qed.

(** Trimming commutes with a change of case, which leaves white space
    alone. *)
Lemma trimStart_map (f : ascii → ascii) (s : string) :
  (∀ c, Ascii.is_space (f c) = Ascii.is_space c) →
  JS.trimStart (JS.map_string f s) = JS.map_string f (JS.trimStart s).
Proof.
  intros Hf. induction s as [|c s IH]; simpl; [reflexivity|].
  rewrite Hf. destruct (Ascii.is_space c); [exact IH|reflexivity].
Qed.

Lemma trim_map (f : ascii → ascii) (s : string) :
  (∀ c, Ascii.is_space (f c) = Ascii.is_space c) →
  JS.trim (JS.map_string f s) = JS.map_string f (JS.trim s).
Proof.
  intros Hf. unfold JS.trim, JS.trimEnd.
  rewrite (trimStart_map f s Hf), <- map_string_rev, (trimStart_map f _ Hf),
    map_string_rev. reflexivity.
Qed.

Lemma trimStart_idem (s : string) : JS.trimStart (JS.trimStart s) = JS.trimStart s.
Proof.
  induction s as [|c s IH]; simpl; [reflexivity|].
  destruct (Ascii.is_space c) eqn:E; [exact IH|]. simpl. rewrite E. reflexivity.
Qed.

Lemma trimEnd_idem (s : string) : JS.trimEnd (JS.trimEnd s) = JS.trimEnd s.
Proof. unfold JS.trimEnd. rewrite rev_involutive, trimStart_idem. reflexivity. Qed.

(** A string that ends in a character that is not white space keeps that
    end when its head is trimmed. *)
Lemma trimStart_snoc (u : string) (c : ascii) :
  Ascii.is_space c = false →
  ∃ v, JS.trimStart (u +:+ String c "") = (v +:+ String c "")%string.
Proof.
  intros Hc. induction u as [|a u IH].
  - simpl. rewrite Hc. exists ""%string. reflexivity.
  - rewrite append_cons. simpl.
    destruct (Ascii.is_space a); [exact IH|]. exists (String a u). reflexivity.
Qed.

Lemma trimStart_trimEnd (s : string) :
  JS.trimStart (JS.trimEnd (JS.trimStart s)) = JS.trimEnd (JS.trimStart s).
Proof.
  assert (∀ t, JS.trimStart t = t → JS.trimStart (JS.trimEnd t) = JS.trimEnd t) as Hfix.
  { intros [|c t] Ht; [reflexivity|].
    simpl in Ht. destruct (Ascii.is_space c) eqn:Hc.
    - exfalso. clear -Ht.
      assert (∀ u, String.length (JS.trimStart u) ≤ String.length u)%nat as Hlen.
      { induction u as [|a u IH]; simpl; [lia|].
        destruct (Ascii.is_space a); simpl; lia. }
      pose proof (Hlen t) as H. rewrite Ht in H. simpl in H. lia.
    - unfold JS.trimEnd. rewrite rev_cons.
      destruct (trimStart_snoc (String.rev t) c Hc) as [v ->].
      rewrite rev_append. change (String.rev (String c "")) with (String c "").
      rewrite append_cons. simpl. rewrite Hc. reflexivity. }
  apply Hfix, trimStart_idem.
Qed.

Lemma trim_idem (s : string) : JS.trim (JS.trim s) = JS.trim s.
Proof.
  unfold JS.trim. rewrite trimStart_trimEnd, trimEnd_idem. reflexivity.
Qed.

(** X1. Normalising a slug twice is the same as normalising it once: the
    result of [normalizeSiteSlug] is a fixed point of it.  (The services
    normalise again what their callers have normalised, as
    [saveSettings] does through [validateVipPin] and [getSite].) *)
Theorem normalizeSiteSlug_idempotent (slug normalizedSlug : string) :
  SiteService.normalizeSiteSlug (Some slug) = Ok normalizedSlug →
  SiteService.normalizeSiteSlug (Some normalizedSlug) = Ok normalizedSlug.
Proof.
  unfold SiteService.normalizeSiteSlug, JS.toUpperCase. intros [= <-]. f_equal.
  rewrite (trim_map _ _ is_space_upper), trim_idem.
  apply map_string_idem, upper_ascii_idem.
Qed.

Lemma normalizeSiteSlug_idempotent_witness :
  SiteService.normalizeSiteSlug (Some "  my-Shop "%string) = Ok "MY-SHOP"%string
  ∧ SiteService.normalizeSiteSlug (Some "MY-SHOP"%string) = Ok "MY-SHOP"%string.
Proof.
  split; [reflexivity|].
  apply (normalizeSiteSlug_idempotent "  my-Shop "). reflexivity.
Defined.

End Strings.

(** X2. Slugs that differ only in the case of ASCII letters and in
    surrounding ASCII white space (space, tab, line feed, vertical tab,
    form feed, carriage return) have the same normal form, so they
    address the same rows.  Letters and white space outside ASCII are not
    covered. *)
Theorem normalizeSiteSlug_case_and_padding (pad1 pad2 s1 s2 : string) :
  blank pad1 = true → blank pad2 = true →
  JS.toUpperCase s1 = JS.toUpperCase s2 →
  SiteService.normalizeSiteSlug (Some (pad1 +:+ s1 +:+ pad2))
  = SiteService.normalizeSiteSlug (Some s2).
Proof.
  intros Hp1 Hp2 Hcase.
  assert (∀ p s, blank p = true → JS.trimStart (p +:+ s) = JS.trimStart s) as Hstart.
  { induction p as [|c p IH]; intros s; [reflexivity|]. simpl.
    intros [Hc Hp]%andb_true_iff. rewrite Hc. auto. }
  assert (∀ s t, blank (s +:+ t) = blank s && blank t) as Hblank_app.
  { induction s as [|c s IH]; intros t; [reflexivity|].
    rewrite append_cons. simpl. rewrite IH, andb_assoc. reflexivity. }
  assert (∀ p, blank (String.rev p) = blank p) as Hblank_rev.
  { induction p as [|c p IH]; [reflexivity|].
    rewrite rev_cons, Hblank_app, IH. simpl. rewrite andb_true_r, andb_comm.
    reflexivity. }
  assert (∀ s p, blank p = true → JS.trimEnd (s +:+ p) = JS.trimEnd s) as Hend.
  { intros s p Hp. unfold JS.trimEnd. rewrite rev_append, Hstart; [reflexivity|].
    rewrite Hblank_rev. exact Hp. }
  assert (∀ s p, blank p = true →
                 JS.trimEnd (JS.trimStart (s +:+ p)) = JS.trimEnd (JS.trimStart s)) as Hmid.
  { induction s as [|c s IH]; intros p Hp.
    - pose proof (Hstart p ""%string Hp) as Hnone. rewrite append_empty_r in Hnone.
      change (""%string +:+ p)%string with p. rewrite Hnone. reflexivity.
    - rewrite append_cons. simpl. destruct (Ascii.is_space c); [apply IH, Hp|].
      rewrite <- append_cons. apply Hend, Hp. }
  unfold SiteService.normalizeSiteSlug. f_equal. unfold JS.trim.
  rewrite Hstart by exact Hp1. rewrite Hmid by exact Hp2.
  fold (JS.trim s1). fold (JS.trim s2). unfold JS.toUpperCase in *.
  rewrite <- !(trim_map _ _ is_space_upper), Hcase. reflexivity.
Qed.

Lemma normalizeSiteSlug_case_and_padding_witness :
  SiteService.normalizeSiteSlug (Some " abc "%string)
  = SiteService.normalizeSiteSlug (Some "Abc"%string).
Proof.
  apply (normalizeSiteSlug_case_and_padding " " " " "abc" "Abc"); reflexivity.
Defined.

(* --------------------------------------------------------------------- *)
(** ** The site directory *)
(* --------------------------------------------------------------------- *)

Section SiteDirectory.
Import SiteService SiteService2.

Lemma find_map_preserving {A : Type} (p : A → bool) (g : A → A) (l : list A) :
  (∀ x, p (g x) = p x) → List.find p (List.map g l) = option_map g (List.find p l).
Proof.
  intros Hp. induction l as [|a l IH]; simpl; [reflexivity|].
  rewrite Hp. destruct (p a); [reflexivity|exact IH].
Qed.

Lemma existsb_find {A : Type} (p : A → bool) (l : list A) :
  existsb p l = true → ∃ a, List.find p l = Some a ∧ p a = true.
Proof.
  induction l as [|a l IH]; simpl; [discriminate|].
  destruct (p a) eqn:E; [eauto|exact IH].
Qed.

Lemma find_none_existsb {A : Type} (p : A → bool) (l : list A) :
  existsb p l = false → List.find p l = None.
Proof.
  induction l as [|a l IH]; simpl; [reflexivity|].
  destruct (p a); [discriminate|exact IH].
Qed.

Lemma find_app_new {A : Type} (p : A → bool) (l : list A) (a : A) :
  existsb p l = false → p a = true → List.find p (l ++ [a]) = Some a.
Proof.
  induction l as [|b l IH]; simpl; [intros _ ->; reflexivity|].
  destruct (p b); [discriminate|exact IH].
Qed.

(** X3. After a successful [toggleSite(slug, active)], [getSiteStatus] of
    the same slug reports the normalised slug and the new flag; the status
    of every site with another normal form is what it was, and no other
    table is touched. *)
Theorem toggleSite_getSiteStatus (db db' : database) (now : Z) (slug : string)
    (active : bool) (r : string * bool) :
  toggleSite db now (Some slug) active = Ok (db', r) →
  r = (JS.toUpperCase (JS.trim slug), active)
  ∧ getSiteStatus db' (Some slug) = Ok (JS.toUpperCase (JS.trim slug), active)
  ∧ (∀ other, JS.toUpperCase (JS.trim other) ≠ JS.toUpperCase (JS.trim slug) →
              getSiteStatus db' (Some other) = getSiteStatus db (Some other))
  ∧ users db' = users db ∧ settings_kv db' = settings_kv db
  ∧ feedbacks db' = feedbacks db.
Proof.
  unfold toggleSite, getSiteStatus. simpl. rewrite changes_zero.
  destruct (existsb _ (sites db)) eqn:Hsite; simpl; [|discriminate].
  intros [= <- <-]. simpl. split; [reflexivity|].
  split; [|split; [|auto]].
  - rewrite find_map_preserving by (intros s; destruct (slug_is _ s) eqn:E; exact E).
    destruct (existsb_find _ _ Hsite) as (s & -> & Hs). simpl. rewrite Hs. simpl.
    apply String.eqb_eq in Hs. rewrite Hs. reflexivity.
  - intros other Hother.
    rewrite find_map_preserving by (intros s; destruct (slug_is _ s); reflexivity).
    destruct (List.find _ (sites db)) as [s|] eqn:Hfind; simpl; [|reflexivity].
    apply List.find_some in Hfind as [_ Hs]. apply String.eqb_eq in Hs.
    destruct (slug_is (JS.toUpperCase (JS.trim slug)) s) eqn:Hs'; [|reflexivity].
    apply String.eqb_eq in Hs'. congruence.
Qed.

Lemma toggleSite_getSiteStatus_witness :
  ∃ db', toggleSite exampleDb exampleNow (Some " shop"%string) false
         = Ok (db', ("SHOP"%string, false))
       ∧ getSiteStatus db' (Some " shop"%string) = Ok ("SHOP"%string, false)
       ∧ getSiteStatus db' (Some "demo"%string) = Ok ("DEMO"%string, true).
Proof.
  destruct (toggleSite exampleDb exampleNow (Some " shop"%string) false)
    as [[db' r]|e] eqn:Hrun; [|vm_compute in Hrun; discriminate].
  destruct (toggleSite_getSiteStatus _ _ _ _ _ _ Hrun) as (-> & Hsame & Hother & _).
  exists db'. split; [reflexivity|]. split; [exact Hsame|].
  rewrite (Hother "demo"%string); [reflexivity|discriminate].
Defined.

End SiteDirectory.

Section SitePins.
Import SiteService SiteService2.

Lemma tagged_sound : @BcryptSound tagged_compare tagged_hash.
Proof.
  split; intros salt data.
  - apply String.eqb_refl.
  - reflexivity.
Qed.

Lemma not_in_slugs (n : string) (rows : list Sites.row) :
  existsb (slug_is n) rows = false → ¬ In n (List.map Sites.slug rows).
Proof.
  intros Hnone (s & Hs & Hin)%in_map_iff.
  assert (existsb (slug_is n) rows = true) as Hsome; [|congruence].
  apply existsb_exists. exists s. split; [exact Hin|]. apply String.eqb_eq, Hs.
Qed.

(** X4. A successful [createSite] appends one row under the normalised
    slug, which [getSiteStatus] then reports with the flag given (active
    when left out).  From then on every [createSite] whose slug has the same
    normal form fails with 'site_slug_already_exists', and a table whose
    slugs were pairwise different stays so. *)
Theorem createSite_unique `{BcryptHash} (db db' : database) (now : Z) (salt : string)
    (siteData : SiteData.t) (id : Z) (normalizedSlug : string) (active : bool) :
  createSite db now salt siteData = Ok (db', (id, normalizedSlug, active)) →
  normalizeSiteSlug (SiteData.slug siteData) = Ok normalizedSlug
  ∧ active = default true (SiteData.active siteData)
  ∧ (∃ row, sites db' = sites db ++ [row] ∧ Sites.slug row = normalizedSlug)
  ∧ getSiteStatus db' (SiteData.slug siteData) = Ok (normalizedSlug, active)
  ∧ (∀ now' salt' siteData',
       normalizeSiteSlug (SiteData.slug siteData') = Ok normalizedSlug →
       createSite db' now' salt' siteData' = Throw (Error "site_slug_already_exists"))
  ∧ (List.NoDup (List.map Sites.slug (sites db)) →
     List.NoDup (List.map Sites.slug (sites db'))).
Proof.
  unfold createSite, getSiteStatus.
  destruct (normalizeSiteSlug (SiteData.slug siteData)) as [n|]; simpl; [|discriminate].
  destruct (existsb (slug_is n) (sites db)) eqn:Hfree; [discriminate|].
  intros [= <- <- <- <-]. simpl.
  split; [reflexivity|]. split; [reflexivity|]. split; [eauto|].
  split; [|split].
  - rewrite find_app_new; [reflexivity|exact Hfree|]. apply String.eqb_refl.
  - intros now' salt' siteData' ->. simpl.
    rewrite existsb_app. simpl. unfold slug_is at 2. simpl.
    rewrite String.eqb_refl, orb_true_r. reflexivity.
  - intros Hnd. rewrite List.map_app. simpl. apply List.NoDup_app.
    + exact Hnd.
    + apply List.NoDup_cons; [intros []|apply List.NoDup_nil].
    + intros a Ha [<-|[]]. exact (not_in_slugs _ _ Hfree Ha).
Qed.

Lemma createSite_unique_witness :
  ∃ db', @createSite tagged_hash exampleDb exampleNow "salt" (newSite " bakery " None)
         = Ok (db', (4%Z, "BAKERY"%string, true))
       ∧ getSiteStatus db' (Some " bakery "%string) = Ok ("BAKERY"%string, true)
       ∧ @createSite tagged_hash db' exampleNow "salt" (newSite "Bakery" None)
         = Throw (Error "site_slug_already_exists").
Proof.
  destruct (@createSite tagged_hash exampleDb exampleNow "salt" (newSite " bakery " None))
    as [[db' [[id n] a]]|e] eqn:Hrun; [|vm_compute in Hrun; discriminate].
  assert (id = 4%Z ∧ n = "BAKERY"%string ∧ a = true) as (-> & -> & ->).
  { vm_compute in Hrun. injection Hrun as _ <- <- <-. auto. }
  destruct (createSite_unique _ _ _ _ _ _ _ _ Hrun) as (_ & _ & _ & Hstatus & Hdup & _).
  exists db'. split; [reflexivity|]. split; [exact Hstatus|].
  apply Hdup. reflexivity.
Defined.

Lemma validateVipPin_after `{Bcrypt} (db : database) (g : Sites.row → Sites.row)
    (slug : string) (pin : string) :
  (∀ s, Sites.slug (g s) = Sites.slug s) →
  existsb (slug_is (JS.toUpperCase (JS.trim slug))) (sites db) = true →
  (∀ s, slug_is (JS.toUpperCase (JS.trim slug)) s = true →
        ∃ h, Sites.vip_pin_hash (g s) = Some h) →
  ∃ s h, List.find (slug_is (JS.toUpperCase (JS.trim slug))) (sites db) = Some s
       ∧ Sites.vip_pin_hash (g s) = Some h
       ∧ validateVipPin (with_sites (List.map g (sites db)) db) (Some slug) (Some pin)
         = Ok (JS.truthy_string pin && JS.truthy_string h && bcrypt_compare pin h).
Proof.
  intros Hslug Hsite Hhash.
  destruct (existsb_find _ _ Hsite) as (s & Hfind & Hs).
  destruct (Hhash s Hs) as [h Hh]. exists s, h. split; [exact Hfind|].
  split; [exact Hh|].
  unfold validateVipPin, getSite. simpl.
  destruct (JS.truthy_string pin); [|reflexivity]. simpl.
  rewrite find_map_preserving, Hfind; [|intros x; unfold slug_is; rewrite Hslug; reflexivity].
  simpl. rewrite Hh. destruct (JS.truthy_string h); reflexivity.
Qed.

(** X5. After a successful [setVipPin(slug, pin)], [validateVipPin] of the
    same slug accepts a candidate exactly when it is a non-empty string that
    bcrypt matches against the hash of [pin]: in particular it accepts
    [pin] itself, unless [pin] is the empty string, which can be set but
    never validates. *)
Theorem setVipPin_validateVipPin `{BcryptSound} (db db' : database) (now : Z)
    (salt slug pin : string) (b : bool) :
  setVipPin db now salt (Some slug) pin = Ok (db', b) →
  (∀ candidate,
     validateVipPin db' (Some slug) (Some candidate)
     = Ok (JS.truthy_string candidate && bcrypt_compare candidate (bcrypt_hash salt pin)))
  ∧ (JS.truthy_string pin = true → validateVipPin db' (Some slug) (Some pin) = Ok true)
  ∧ validateVipPin db' (Some slug) (Some ""%string) = Ok false
  ∧ validateVipPin db' (Some slug) None = Ok false.
Proof.
  unfold setVipPin. simpl. rewrite changes_zero.
  destruct (existsb _ (sites db)) eqn:Hsite; simpl; [|discriminate].
  intros [= <- <-].
  assert (∀ candidate,
     validateVipPin
       (with_sites
          (List.map (λ s, if slug_is (JS.toUpperCase (JS.trim slug)) s
                          then set_vip_pin_hash (bcrypt_hash salt pin) now s else s)
                    (sites db)) db)
       (Some slug) (Some candidate)
     = Ok (JS.truthy_string candidate && bcrypt_compare candidate (bcrypt_hash salt pin)))
    as Hformula.
  { intros candidate.
    destruct (validateVipPin_after db
                (λ s, if slug_is (JS.toUpperCase (JS.trim slug)) s
                      then set_vip_pin_hash (bcrypt_hash salt pin) now s else s)
                slug candidate) as (s & h & Hfind & Hh & ->).
    - intros s. destruct (slug_is _ s); reflexivity.
    - exact Hsite.
    - intros s ->. eauto.
    - apply List.find_some in Hfind as [_ Hs]. rewrite Hs in Hh.
      injection Hh as <-. rewrite hash_nonempty, andb_true_r. reflexivity. }
  split; [exact Hformula|]. split; [|split; [|reflexivity]].
  - intros Hpin. etrans; [apply Hformula|]. rewrite Hpin, compare_hash. reflexivity.
  - reflexivity.
Qed.

Lemma setVipPin_validateVipPin_witness :
  ∃ db', @setVipPin tagged_hash exampleDb exampleNow "salt" (Some "shop"%string) "4321"
         = Ok (db', true)
       ∧ @validateVipPin tagged_compare db' (Some "shop"%string) (Some "4321"%string)
         = Ok true
       ∧ @validateVipPin tagged_compare db' (Some "shop"%string) (Some "1234"%string)
         = Ok false.
Proof.
  destruct (@setVipPin tagged_hash exampleDb exampleNow "salt" (Some "shop"%string) "4321")
    as [[db' b]|e] eqn:Hrun; [|vm_compute in Hrun; discriminate].
  assert (b = true) as -> by (vm_compute in Hrun; injection Hrun as _ <-; reflexivity).
  destruct (@setVipPin_validateVipPin _ _ tagged_sound _ _ _ _ _ _ _ Hrun)
    as (Hformula & Hsame & _).
  exists db'. split; [reflexivity|]. split; [apply Hsame; reflexivity|].
  rewrite Hformula. reflexivity.
Defined.

(** X6. A site created with a non-empty [vipPin] validates that PIN; a site
    created without one (or with an empty one) validates no PIN at all. *)
Theorem createSite_validateVipPin `{BcryptSound} (db db' : database) (now : Z)
    (salt : string) (siteData : SiteData.t) (r : Z * string * bool) :
  createSite db now salt siteData = Ok (db', r) →
  (∀ vipPin, SiteData.vipPin siteData = Some vipPin → JS.truthy_string vipPin = true →
             validateVipPin db' (SiteData.slug siteData) (Some vipPin) = Ok true)
  ∧ (JS.truthy_opt_string (SiteData.vipPin siteData) = false →
     ∀ candidate, validateVipPin db' (SiteData.slug siteData) candidate = Ok false).
Proof.
  unfold createSite.
  destruct (SiteData.slug siteData) as [slug|]; simpl; [|discriminate].
  destruct (existsb _ (sites db)) eqn:Hfree; [discriminate|].
  intros [= <- <-].
  split.
  - intros vipPin -> Htruthy. unfold validateVipPin, getSite. simpl.
    rewrite Htruthy. simpl.
    rewrite find_app_new by (first [exact Hfree | apply String.eqb_refl]).
    simpl. rewrite hash_nonempty, compare_hash. reflexivity.
  - intros Hnopin [candidate|]; [|reflexivity]. unfold validateVipPin, getSite. simpl.
    destruct (JS.truthy_string candidate); [|reflexivity]. simpl.
    rewrite find_app_new by (first [exact Hfree | apply String.eqb_refl]). simpl.
    destruct (SiteData.vipPin siteData) as [vipPin|]; [|reflexivity].
    simpl in Hnopin. rewrite Hnopin. reflexivity.
Qed.

Lemma createSite_validateVipPin_witness :
  ∃ db', @createSite tagged_hash exampleDb exampleNow "salt"
           (newSite "bakery" (Some "2468"%string))
         = Ok (db', (4%Z, "BAKERY"%string, true))
       ∧ @validateVipPin tagged_compare db' (Some "bakery"%string) (Some "2468"%string)
         = Ok true.
Proof.
  destruct (@createSite tagged_hash exampleDb exampleNow "salt"
              (newSite "bakery" (Some "2468"%string)))
    as [[db' r]|e] eqn:Hrun; [|vm_compute in Hrun; discriminate].
  assert (r = (4%Z, "BAKERY"%string, true)) as ->
    by (vm_compute in Hrun; injection Hrun as _ <-; reflexivity).
  destruct (@createSite_validateVipPin _ _ tagged_sound _ _ _ _ _ _ Hrun) as (Hpin & _).
  exists db'. split; [reflexivity|]. apply (Hpin "2468"%string); reflexivity.
Defined.

End SitePins.

(* --------------------------------------------------------------------- *)
(** ** Plans and billing *)
(* --------------------------------------------------------------------- *)

Section Billing.
Import SubscriptionService SubscriptionService2.

Lemma findUser_map (g : Users.row → Users.row) (db : database)
    (normalizedSlug : string) (email : option string) :
  (∀ u, Users.email (g u) = Users.email u) →
  (∀ u, Users.site_slug (g u) = Users.site_slug u) →
  findUser (with_users (List.map g (users db)) db) normalizedSlug email
  = option_map g (findUser db normalizedSlug email).
Proof.
  intros Hemail Hslug.
  assert (∀ x, by_slug normalizedSlug (g x) = by_slug normalizedSlug x) as Hby_slug.
  { intros x. unfold by_slug. rewrite Hslug. reflexivity. }
  assert (∀ p x, by_email_or_slug p normalizedSlug (g x)
                 = by_email_or_slug p normalizedSlug x) as Hby_email.
  { intros p x. unfold by_email_or_slug. rewrite Hemail, Hby_slug. reflexivity. }
  unfold findUser. simpl.
  destruct email as [e|]; [destruct (JS.truthy_string e)|];
    apply find_map_preserving; auto.
Qed.

Lemma getUserById_map (g : Users.row → Users.row) (db : database) (userId : Z) :
  (∀ u, Users.id (g u) = Users.id u) →
  getUserById (with_users (List.map g (users db)) db) userId
  = option_map g (getUserById db userId).
Proof.
  intros Hid. unfold getUserById. simpl. apply find_map_preserving.
  intros x. rewrite Hid. reflexivity.
Qed.

Lemma getUserById_exists (db : database) (userId : Z) (u : Users.row) :
  getUserById db userId = Some u →
  has_id userId u = true ∧ existsb (has_id userId) (users db) = true.
Proof.
  intros [Hin Hid]%List.find_some. split; [exact Hid|].
  apply existsb_exists. exists u. auto.
Qed.

Lemma getUserById_absent (db : database) (userId : Z) :
  getUserById db userId = None → existsb (has_id userId) (users db) = false.
Proof.
  intros Hnone. apply not_true_iff_false. intros (u & Hin & Hid)%existsb_exists.
  pose proof (List.find_none _ _ Hnone u Hin) as H. simpl in H.
  unfold has_id in Hid. congruence.
Qed.

(** X7. [upgradePlan] refuses every plan other than 'essential' and 'vip'
    with 'invalid_plan' and an unknown user id with 'user_not_found'.  For a
    known user it stores the plan on that account and on no other, and
    every lookup that found the account before finds it afterwards with the
    new plan: upgraded to 'vip' it is reported VIP by
    [getSubscriptionStatus], whatever its billing status. *)
Theorem upgradePlan_effect (db : database) (now : Z) (userId : Z) (newPlan : string) :
  (newPlan ≠ "essential"%string → newPlan ≠ "vip"%string →
   upgradePlan db now userId newPlan = Throw (Error "invalid_plan"))
  ∧ (newPlan = "essential"%string ∨ newPlan = "vip"%string →
     (getUserById db userId = None →
      upgradePlan db now userId newPlan = Throw (Error "user_not_found"))
     ∧ (∀ u, getUserById db userId = Some u →
          ∃ db',
            upgradePlan db now userId newPlan = Ok (db', (userId, newPlan))
            ∧ getUserById db' userId = Some (set_plan newPlan now u)
            ∧ (∀ other, other ≠ userId →
                        getUserById db' other = getUserById db other)
            ∧ sites db' = sites db
            ∧ (∀ now' siteSlug email normalizedSlug,
                 SiteService.normalizeSiteSlug siteSlug = Ok normalizedSlug →
                 findUser db normalizedSlug email = Some u →
                 ∃ st, getSubscriptionStatus db' now' siteSlug email = Ok st
                     ∧ plan st = Some newPlan
                     ∧ billingStatus st = Users.billing_status u
                     ∧ (newPlan = "vip"%string → isVip st = true)))).
Proof.
  split.
  - intros Hessential%String.eqb_neq Hvip%String.eqb_neq. unfold upgradePlan. simpl.
    rewrite Hessential, Hvip. reflexivity.
  - intros Hvalid.
    assert (existsb (String.eqb newPlan) ["essential"; "vip"]%string = true) as Hlist.
    { destruct Hvalid as [-> | ->]; reflexivity. }
    unfold upgradePlan. rewrite Hlist. simpl. rewrite changes_zero. split.
    + intros Hnone. rewrite (getUserById_absent _ _ Hnone). reflexivity.
    + intros u Hu. destruct (getUserById_exists _ _ _ Hu) as [Hid ->]. simpl.
      eexists. split; [reflexivity|].
      set (g := λ x, if has_id userId x then set_plan newPlan now x else x).
      assert (∀ x, Users.id (g x) = Users.id x) as Hgid.
      { intros x. unfold g. destruct (has_id userId x); reflexivity. }
      split; [|split; [|split; [reflexivity|]]].
      * rewrite (getUserById_map g) by exact Hgid. rewrite Hu. simpl.
        unfold g. rewrite Hid. reflexivity.
      * intros other Hother. rewrite (getUserById_map g) by exact Hgid.
        destruct (getUserById db other) as [x|] eqn:Hx; [|reflexivity]. simpl.
        apply getUserById_exists in Hx as [Hx _]. unfold g.
        destruct (has_id userId x) eqn:Hx'; [|reflexivity].
        unfold has_id in *. apply Z.eqb_eq in Hx, Hx'. congruence.
      * intros now' siteSlug email normalizedSlug Hslug Hfind.
        unfold getSubscriptionStatus. rewrite Hslug. simpl.
        rewrite (findUser_map g), Hfind;
          [|intros x; unfold g; destruct (has_id userId x); reflexivity..].
        simpl. unfold g. rewrite Hid. eexists. split; [reflexivity|]. simpl.
        split; [reflexivity|]. split; [reflexivity|].
        intros ->. reflexivity.
Qed.

Lemma upgradePlan_effect_witness :
  upgradePlan exampleDb exampleNow 2 "gold" = Throw (Error "invalid_plan")
  ∧ upgradePlan exampleDb exampleNow 77 "vip" = Throw (Error "user_not_found")
  ∧ ∃ db' st,
      upgradePlan exampleDb exampleNow 4 "vip" = Ok (db', (4%Z, "vip"%string))
      ∧ getSubscriptionStatus db' exampleNow (Some "x"%string)
          (Some "dan@example.com"%string) = Ok st
      ∧ billingStatus st = Some "pending"%string
      ∧ isVip st = true.
Proof.
  destruct (upgradePlan_effect exampleDb exampleNow 2 "gold") as (Hinvalid & _).
  destruct (upgradePlan_effect exampleDb exampleNow 77 "vip") as (_ & Hunknown).
  destruct (upgradePlan_effect exampleDb exampleNow 4 "vip") as (_ & Hknown).
  split; [apply Hinvalid; discriminate|].
  split; [apply Hunknown; [right|]; reflexivity|].
  destruct Hknown as (_ & Hknown); [right; reflexivity|].
  destruct (Hknown dan eq_refl) as (db' & Hrun & _ & _ & _ & Hstatus).
  destruct (Hstatus exampleNow (Some "x"%string) (Some "dan@example.com"%string)
              "X"%string eq_refl eq_refl) as (st & Hst & _ & Hbilling & Hvip).
  exists db', st. split; [exact Hrun|]. split; [exact Hst|].
  split; [exact Hbilling|]. apply Hvip. reflexivity.
Defined.

End Billing.

Section BillingUpdates.
Import SubscriptionService SubscriptionService2.

Lemma find_toggled (n : string) (a : bool) (now : Z) (rows : list Sites.row) :
  existsb (SiteService.slug_is n) rows = true →
  ∃ s, List.find (SiteService.slug_is n)
         (List.map (λ s, if SiteService.slug_is n s
                         then Sites.set_active a now s else s) rows)
       = Some (Sites.set_active a now s)
     ∧ Sites.slug s = n.
Proof.
  intros Hsite.
  rewrite find_map_preserving
    by (intros s; destruct (SiteService.slug_is n s) eqn:E; exact E).
  destruct (existsb_find _ _ Hsite) as (s & -> & Hs). exists s. simpl. rewrite Hs.
  split; [reflexivity|]. apply String.eqb_eq, Hs.
Qed.

(** X8. [updateBillingStatus] fails with 'user_not_found', writing nothing,
    when no user has the id.  Otherwise it always stores the five billing
    fields on the account.  With an active status it then switches the
    account's site on, so that [getSiteStatus] reports it active; but when
    that site does not exist the call throws 'site_not_found' after the
    billing fields have been stored.  With a status that is not active no
    site row is touched. *)
Theorem updateBillingStatus_effect (db : database) (now : Z) (userId : Z)
    (billingData : BillingData.t) :
  let status := BillingData.status billingData in
  let written :=
    set_billing status (BillingData.nextDate billingData)
      (BillingData.amount billingData)
      (default "BRL"%string (BillingData.currency billingData))
      (default "mercadopago"%string (BillingData.provider billingData)) now in
  (getUserById db userId = None →
   updateBillingStatus db now userId billingData = (db, Throw (Error "user_not_found")))
  ∧ (∀ u, getUserById db userId = Some u →
       ∃ db' r,
         updateBillingStatus db now userId billingData = (db', r)
         ∧ getUserById db' userId = Some (written u)
         ∧ (isActiveBillingStatus status = false →
            r = Ok (userId, status) ∧ sites db' = sites db)
         ∧ (isActiveBillingStatus status = true →
            JS.truthy_opt_string (Users.site_slug u) = false →
            r = Ok (userId, status) ∧ sites db' = sites db)
         ∧ (∀ slug, isActiveBillingStatus status = true →
              Users.site_slug u = Some slug → JS.truthy_string slug = true →
              (existsb (SiteService.slug_is (JS.toUpperCase (JS.trim slug))) (sites db)
               = true →
               r = Ok (userId, status)
               ∧ SiteService2.getSiteStatus db' (Some slug)
                 = Ok (JS.toUpperCase (JS.trim slug), true))
              ∧ (existsb (SiteService.slug_is (JS.toUpperCase (JS.trim slug))) (sites db)
                 = false →
                 r = Throw (Error "site_not_found") ∧ sites db' = sites db))).
Proof.
  intros status written. unfold updateBillingStatus. fold status. rewrite changes_zero.
  split.
  - intros Hnone. rewrite (getUserById_absent _ _ Hnone). reflexivity.
  - intros u Hu. destruct (getUserById_exists _ _ _ Hu) as [Hid ->]. simpl.
    set (g := λ x, if has_id userId x then written x else x).
    assert (∀ x, Users.id (g x) = Users.id x) as Hgid.
    { intros x. unfold g. destruct (has_id userId x); reflexivity. }
    assert (getUserById (with_users (List.map g (users db)) db) userId
            = Some (written u)) as Hwritten.
    { rewrite (getUserById_map g) by exact Hgid. rewrite Hu. simpl.
      unfold g. rewrite Hid. reflexivity. }
    fold written. fold g. rewrite Hwritten.
    destruct (isActiveBillingStatus status) eqn:Hactive.
    + change (Users.site_slug (written u)) with (Users.site_slug u).
      destruct (Users.site_slug u) as [slug|] eqn:Hslug; simpl.
      * destruct (JS.truthy_string slug) eqn:Htruthy.
        -- unfold SiteService.toggleSite. simpl. rewrite changes_zero.
           destruct (existsb _ (sites db)) eqn:Hsite; simpl.
           ++ eexists _, _. split; [reflexivity|]. split; [exact Hwritten|].
              split; [discriminate|].
              split; [intros _ Hfalsy; simpl in Hfalsy; congruence|].
              intros slug' _ Heq _. injection Heq as <-. split; [|intros Hno; congruence].
              intros _. split; [reflexivity|].
              unfold SiteService2.getSiteStatus. simpl.
              destruct (find_toggled _ true now _ Hsite) as (s & -> & Hs).
              simpl. rewrite Hs. reflexivity.
           ++ eexists _, _. split; [reflexivity|]. split; [exact Hwritten|].
              split; [discriminate|].
              split; [intros _ Hfalsy; simpl in Hfalsy; congruence|].
              intros slug' _ Heq _. injection Heq as <-. rewrite Hsite. split; [discriminate|].
              intros _. split; reflexivity.
        -- eexists _, _. split; [reflexivity|]. split; [exact Hwritten|].
           split; [discriminate|]. split; [intros _ _; split; reflexivity|].
           intros slug' _ Heq Htruthy'. injection Heq as <-. congruence.
      * eexists _, _. split; [reflexivity|]. split; [exact Hwritten|].
        split; [discriminate|]. split; [intros _ _; split; reflexivity|].
        intros slug' _ [=].
    + eexists _, _. split; [reflexivity|]. split; [exact Hwritten|].
      split; [intros _; split; reflexivity|]. split; [discriminate|].
      intros slug Hf. discriminate Hf.
Qed.

End BillingUpdates.

Lemma updateBillingStatus_effect_witness :
  (∃ db', SubscriptionService2.updateBillingStatus exampleDb exampleNow 4 paid
          = (db', Throw (Error "site_not_found"))
        ∧ option_map Users.billing_status (SubscriptionService.getUserById db' 4)
          = Some (Some "approved"%string))
  ∧ (∃ db', SubscriptionService2.updateBillingStatus exampleDb exampleNow 5 paid
            = (db', Ok (5%Z, Some "approved"%string))
          ∧ SiteService2.getSiteStatus db' (Some "cafe"%string) = Ok ("CAFE"%string, true)).
Proof.
  split.
  - pose proof (updateBillingStatus_effect exampleDb exampleNow 4 paid) as H.
    cbv zeta in H. destruct H as (_ & H).
    destruct (H dan eq_refl) as (db' & r & Hrun & Hwritten & _ & _ & Hsite).
    destruct (Hsite "ghost"%string eq_refl eq_refl eq_refl) as (_ & Hmissing).
    destruct (Hmissing eq_refl) as (-> & _).
    exists db'. split; [exact Hrun|]. rewrite Hwritten. reflexivity.
  - pose proof (updateBillingStatus_effect exampleDb exampleNow 5 paid) as H.
    cbv zeta in H. destruct H as (_ & H).
    destruct (H eva eq_refl) as (db' & r & Hrun & _ & _ & _ & Hsite).
    destruct (Hsite "cafe"%string eq_refl eq_refl eq_refl) as (Hfound & _).
    destruct (Hfound eq_refl) as (-> & Hstatus).
    exists db'. split; [exact Hrun|exact Hstatus].
Defined.

(* --------------------------------------------------------------------- *)
(** ** The sweep seen through the status call *)
(* --------------------------------------------------------------------- *)

Section SweepStatus.
Import SubscriptionService.
Context {cells : DatetimeCells}.

Lemma findUser_mapped (g : Users.row → Users.row) (db d : database)
    (normalizedSlug : string) (email : option string) :
  users d = List.map g (users db) →
  (∀ u, Users.email (g u) = Users.email u) →
  (∀ u, Users.site_slug (g u) = Users.site_slug u) →
  findUser d normalizedSlug email = option_map g (findUser db normalizedSlug email).
Proof.
  intros Hd Hemail Hslug.
  rewrite <- (findUser_map g db normalizedSlug email Hemail Hslug).
  unfold findUser. rewrite Hd. reflexivity.
Qed.

Lemma findUser_In (db : database) (normalizedSlug : string) (email : option string)
    (u : Users.row) :
  findUser db normalizedSlug email = Some u → In u (users db).
Proof.
  unfold findUser.
  destruct email as [e|]; [destruct (JS.truthy_string e)|];
    intros [Hin _]%List.find_some; exact Hin.
Qed.

(** X9. An account that a lookup finds and that the WHERE clause of the
    sweep selects is, right after the sweep, reported by the same lookup as
    'cancelled' and not active; it is reported VIP exactly when its plan is
    'vip'.  This holds however date cells are written. *)
Theorem processGracePeriodCheck_then_status (db : database) (now : Z)
    (siteSlug email : option string) (normalizedSlug : string) (u : Users.row) :
  SiteService.normalizeSiteSlug siteSlug = Ok normalizedSlug →
  findUser db normalizedSlug email = Some u →
  overdue now u = true →
  ∃ db' r log st,
    processGracePeriodCheck db now = Ok (db', r, log)
    ∧ getSubscriptionStatus db' now siteSlug email = Ok st
    ∧ SubscriptionService.email st = Users.email u
    ∧ plan st = Users.plan u
    ∧ billingStatus st = Some "cancelled"%string
    ∧ isActive st = false
    ∧ isVip st = JS.strict_eq (Users.plan u) "vip".
Proof.
  intros Hslug Hfind Hoverdue. rewrite processGracePeriodCheck_swept.
  eexists _, _, _, _. split; [reflexivity|].
  unfold getSubscriptionStatus. rewrite Hslug. simpl.
  rewrite (findUser_mapped
             (λ x, if existsb (sameId x) (List.filter (overdue now) (users db))
                   then cancelled now x else x) db), Hfind;
    [|reflexivity|intros x; destruct (existsb _ _); reflexivity..].
  simpl. rewrite (selected_overdue now _ _ (findUser_In _ _ _ _ Hfind) Hoverdue).
  split; [reflexivity|]. simpl. repeat split.
  apply orb_false_r.
Qed.

End SweepStatus.

Lemma processGracePeriodCheck_then_status_witness :
  ∃ db' r log st,
    @SubscriptionService.processGracePeriodCheck iso_cells exampleDb exampleNow
      = Ok (db', r, log)
    ∧ SubscriptionService.getSubscriptionStatus db' exampleNow (Some "shop"%string) None
      = Ok st
    ∧ SubscriptionService.email st = "bob@example.com"%string
    ∧ SubscriptionService.billingStatus st = Some "cancelled"%string
    ∧ SubscriptionService.isVip st = false.
Proof.
  destruct (@processGracePeriodCheck_then_status iso_cells exampleDb exampleNow
              (Some "shop"%string) None "SHOP" bob eq_refl eq_refl eq_refl)
    as (db' & r & log & st & Hrun & Hst & Hemail & _ & Hstatus & _ & Hvip).
  exists db', r, log, st. auto.
Defined.

(* --------------------------------------------------------------------- *)
(** ** The list of active subscriptions *)
(* --------------------------------------------------------------------- *)

Section ActiveSubscriptions.
Import SubscriptionService2.

#[local] Instance next_le_total : Total next_le.
Proof.
  intros a b. unfold next_le.
  destruct (Subscription.billing_next a), (Subscription.billing_next b); auto.
  lia.
Qed.








End ActiveSubscriptions.

(* --------------------------------------------------------------------- *)
(** ** Listing feedbacks *)
(* --------------------------------------------------------------------- *)

Section FeedbackListing.
Import FeedbackService2.

#[local] Instance newest_first_total : Total newest_first.
Proof. intros a b. unfold newest_first. lia. Qed.

Lemma In_firstn {A : Type} (n : nat) (l : list A) (x : A) :
  In x (List.firstn n l) → In x l.
Proof.
  revert l. induction n as [|n IH]; intros [|a l]; simpl; try tauto.
  intros [->|Hin]; [left; reflexivity|right; apply IH, Hin].
Qed.

Lemma In_skipn {A : Type} (n : nat) (l : list A) (x : A) :
  In x (List.skipn n l) → In x l.
Proof.
  revert l. induction n as [|n IH]; intros [|a l]; simpl; try tauto.
  intros Hin. right. apply IH, Hin.
Qed.

Lemma In_limit_offset {A : Type} (limit offset : Z) (l : list A) (x : A) :
  In x (limit_offset limit offset l) → In x l.
Proof.
  unfold limit_offset. destruct (Z.ltb limit 0); intros Hin.
  - eapply In_skipn, Hin.
  - eapply In_skipn, In_firstn, Hin.
Qed.


Lemma In_sorted_selected (n : string) (only : bool) (rows : list Feedbacks.row)
    (f : Feedbacks.row) :
  In f (merge_sort newest_first (List.filter (selected n only) rows)) →
  In f rows ∧ Feedbacks.site_slug f = n ∧ (only = true → Feedbacks.approved f = true).
Proof.
  intros Hin.
  apply (Permutation_in _ (merge_sort_Permutation _ _)) in Hin.
  apply filter_In in Hin as [Hin Hsel]. split; [exact Hin|].
  unfold selected in Hsel. apply andb_prop in Hsel as [Hslug Happ].
  apply String.eqb_eq in Hslug. split; [exact Hslug|].
  intros ->. exact Happ.
Qed.



End FeedbackListing.

Section FeedbackPages.
Import FeedbackService2.






End FeedbackPages.

Section FeedbackRemoval.
Import FeedbackService FeedbackService2.

Lemma find_filter_other (id other : Z) (rows : list Feedbacks.row) :
  other ≠ id →
  List.find (has_id other) (List.filter (λ f, negb (has_id id f)) rows)
  = List.find (has_id other) rows.
Proof.
  intros Hother. induction rows as [|f rows IH]; [reflexivity|].
  simpl. destruct (has_id id f) eqn:Hid; simpl.
  - assert (Hf : has_id other f = false).
    { unfold has_id in *. apply Z.eqb_eq in Hid. apply Z.eqb_neq. lia. }
    rewrite Hf. exact IH.
  - destruct (has_id other f); [reflexivity|exact IH].
Qed.

Lemma find_filter_same (id : Z) (rows : list Feedbacks.row) :
  List.find (has_id id) (List.filter (λ f, negb (has_id id f)) rows) = None.
Proof.
  induction rows as [|f rows IH]; [reflexivity|].
  simpl. destruct (has_id id f) eqn:Hid; simpl; [exact IH|].
  rewrite Hid. exact IH.
Qed.

Lemma find_filter_length (id : Z) (rows : list Feedbacks.row) :
  List.find (has_id id) rows = None ↔ length (List.filter (has_id id) rows) = 0.
Proof.
  induction rows as [|f rows IH]; [tauto|].
  simpl. destruct (has_id id f); simpl; [split; discriminate|exact IH].
Qed.

(** X13. [deleteFeedback] removes the feedback with the given id and no
    other: afterwards [getFeedback] fails on that id with
    'feedback_not_found' and answers as before on every other id, and
    the other tables are untouched.  On an id that no feedback has it
    throws 'feedback_not_found', exactly when [getFeedback] does. *)
Theorem deleteFeedback_effect (db : database) (id : Z) :
  match deleteFeedback db id with
  | Ok (db', deleted) =>
      deleted = id
      ∧ (∃ f, getFeedback db id = Ok f)
      ∧ getFeedback db' id = Throw (Error "feedback_not_found")
      ∧ (∀ other, other ≠ id → getFeedback db' other = getFeedback db other)
      ∧ users db' = users db ∧ sites db' = sites db
      ∧ settings_kv db' = settings_kv db
  | Throw e =>
      e = Error "feedback_not_found"
      ∧ getFeedback db id = Throw (Error "feedback_not_found")
  end.
Proof.
  unfold deleteFeedback, getFeedback.
  destruct (Nat.eqb_spec (length (List.filter (has_id id) (feedbacks db))) 0)
    as [Hnone|Hsome].
  - split; [reflexivity|]. apply find_filter_length in Hnone. rewrite Hnone. reflexivity.
  - split; [reflexivity|]. split; [|split; [|split]].
    + destruct (List.find (has_id id) (feedbacks db)) as [f|] eqn:Hfind.
      * exists f. reflexivity.
      * apply find_filter_length in Hfind. contradiction.
    + cbn [with_feedbacks feedbacks]. rewrite find_filter_same. reflexivity.
    + intros other Hother. cbn [with_feedbacks feedbacks].
      rewrite find_filter_other by exact Hother. reflexivity.
    + split; [reflexivity|]. split; reflexivity.
Qed.

End FeedbackRemoval.

Section FeedbackModeration.
Import FeedbackService FeedbackService2.

Lemma next_rowid_fresh (ids : list Z) (x : Z) : In x ids → (x < next_rowid ids)%Z.
Proof.
  unfold next_rowid. induction ids as [|y ids IH]; [intros []|].
  simpl. intros [->|Hin]; [lia|]. specialize (IH Hin). lia.
Qed.

Lemma has_id_fresh (rows : list Feedbacks.row) (f : Feedbacks.row) :
  In f rows → has_id (next_rowid (List.map Feedbacks.id rows)) f = false.
Proof.
  intros Hin. unfold has_id. apply Z.eqb_neq.
  pose proof (next_rowid_fresh (List.map Feedbacks.id rows) (Feedbacks.id f)
                (in_map _ _ _ Hin)).
  lia.
Qed.

Lemma map_fresh (g : Feedbacks.row → Feedbacks.row) (id : Z) (rows : list Feedbacks.row) :
  (∀ f, In f rows → has_id id f = false) →
  List.map (λ f, if has_id id f then g f else f) rows = rows.
Proof.
  intros Hfresh. induction rows as [|f rows IH]; [reflexivity|].
  simpl. rewrite (Hfresh f) by (left; reflexivity).
  rewrite IH; [reflexivity|]. intros x Hx. apply Hfresh. right. exact Hx.
Qed.

Lemma find_fresh (id : Z) (rows : list Feedbacks.row) (row : Feedbacks.row) :
  (∀ f, In f rows → has_id id f = false) → has_id id row = true →
  List.find (has_id id) (rows ++ [row]) = Some row.
Proof.
  intros Hfresh Hrow. induction rows as [|f rows IH].
  - simpl. rewrite Hrow. reflexivity.
  - simpl. rewrite (Hfresh f) by (left; reflexivity).
    apply IH. intros x Hx. apply Hfresh. right. exact Hx.
Qed.

Lemma filter_fresh (id : Z) (rows : list Feedbacks.row) (row : Feedbacks.row) :
  has_id id row = true →
  length (List.filter (has_id id) (rows ++ [row])) ≠ 0.
Proof.
  intros Hrow. rewrite List.filter_app, length_app. simpl. rewrite Hrow. simpl. lia.
Qed.

(** X14. Moderation from submission to publication.  A feedback that
    [createFeedback] has stored is pending: every public listing of its
    site (approved only) is what it was before the submission, while
    [getFeedback] finds it, unapproved, with the trimmed comment.  After
    [approveFeedback] with [true] on the id that [createFeedback] returned,
    the public listing counts one feedback more and shows it, without
    contact data. *)
Theorem createFeedback_moderation (db db1 : database) (now : Z) (data : FeedbackData.t)
    (fb : created) (userId : option json) :
  createFeedback db now data = Ok (db1, fb) →
  let site := Some (siteSlug fb) in
  (∀ page pageSize,
     getFeedbacks db1 site page pageSize publicListing
     = getFeedbacks db site page pageSize publicListing)
  ∧ (∃ f, getFeedback db1 (id fb) = Ok f
       ∧ Feedbacks.approved f = false
       ∧ Feedbacks.site_slug f = siteSlug fb
       ∧ Feedbacks.rating f = rating fb
       ∧ Feedbacks.comment f = JS.trim (comment fb))
  ∧ ∃ db2 before after,
      approveFeedback db1 (id fb) true userId = Ok (db2, (id fb, true))
      ∧ getFeedbacks db site 1 (-1) publicListing = Ok before
      ∧ getFeedbacks db2 site 1 (-1) publicListing = Ok after
      ∧ FeedbackPage.total after = (FeedbackPage.total before + 1)%Z
      ∧ ∃ v, In v (FeedbackPage.feedbacks after)
          ∧ FeedbackView.id v = id fb
          ∧ FeedbackView.approved v = true
          ∧ FeedbackView.comment v = JS.trim (comment fb)
          ∧ FeedbackView.contact v = None.
Proof.
  unfold createFeedback.
  destruct (FeedbackData.siteSlug data) as [slug|]; [|discriminate].
  cbn [SiteService.normalizeSiteSlug mbind JS.result_bind].
  destruct (negb (truthy_rating (FeedbackData.rating data))
            || negb (JS.truthy_opt_string (FeedbackData.comment data))); [discriminate|].
  destruct (FeedbackData.rating data) as [r|]; [|discriminate].
  destruct (FeedbackData.comment data) as [c|]; [|discriminate].
  destruct (negb (Qle_bool 1 r) || negb (Qle_bool r 5)); [discriminate|].
  intros [= <- <-]. cbn [siteSlug id rating comment].
  set (n := JS.toUpperCase (JS.trim slug)).
  set (newId := next_rowid (List.map Feedbacks.id (feedbacks db))).
  set (row := {| Feedbacks.id := newId; Feedbacks.site_slug := n;
                 Feedbacks.name := trimmed_or_null (FeedbackData.name data);
                 Feedbacks.email := lowered_or_null (FeedbackData.email data);
                 Feedbacks.phone := trimmed_or_null (FeedbackData.phone data);
                 Feedbacks.rating := r; Feedbacks.comment := JS.trim c;
                 Feedbacks.approved := false; Feedbacks.created_at := now |}).
  assert (Hn : JS.toUpperCase (JS.trim n) = n).
  { unfold n, JS.toUpperCase.
    rewrite (trim_map _ _ is_space_upper), trim_idem.
    apply map_string_idem, upper_ascii_idem. }
  assert (Hfresh : ∀ f, In f (feedbacks db) → has_id newId f = false)
    by apply has_id_fresh.
  assert (Hrow : has_id newId row = true) by apply Z.eqb_refl.
  assert (Hsel : selected n true (Feedbacks.set_approved true row) = true).
  { unfold selected. cbn. rewrite String.eqb_refl. reflexivity. }
  assert (Hpending : List.filter (selected n true) (feedbacks db ++ [row])
                     = List.filter (selected n true) (feedbacks db)).
  { rewrite List.filter_app. simpl. unfold selected at 2. simpl.
    rewrite andb_false_r. apply app_nil_r. }
  split; [|split].
  - intros page pageSize. unfold getFeedbacks.
    cbn [SiteService.normalizeSiteSlug mbind JS.result_bind with_feedbacks feedbacks].
    change (default false (onlyApproved publicListing)) with true.
    rewrite Hn, Hpending. reflexivity.
  - exists row. unfold getFeedback. cbn [with_feedbacks feedbacks].
    rewrite (find_fresh newId _ row Hfresh Hrow).
    split; [reflexivity|]. split; [reflexivity|]. split; [reflexivity|].
    split; reflexivity.
  - unfold approveFeedback. cbn [with_feedbacks feedbacks].
    destruct (Nat.eqb_spec (length (List.filter (has_id newId) (feedbacks db ++ [row]))) 0)
      as [Hzero|_]; [exfalso; exact (filter_fresh newId _ row Hrow Hzero)|].
    rewrite List.map_app, (map_fresh _ newId _ Hfresh). cbn [List.map]. rewrite Hrow.
    rewrite (find_fresh newId _ (Feedbacks.set_approved true row) Hfresh Hrow).
    eexists _, _, _. split; [reflexivity|].
    unfold getFeedbacks.
    cbn [SiteService.normalizeSiteSlug mbind JS.result_bind with_feedbacks feedbacks].
    rewrite Hn. split; [reflexivity|]. split; [reflexivity|].
    change (default false (onlyApproved publicListing)) with true.
    change (default false (includePrivateInfo publicListing)) with false.
    cbn [FeedbackPage.total FeedbackPage.feedbacks].
    rewrite List.filter_app. cbn [List.filter]. rewrite Hsel.
    split; [rewrite length_app; simpl; lia|].
    exists (view false (Feedbacks.set_approved true row)).
    split; [|repeat split].
    apply in_map. unfold limit_offset. cbn [Z.ltb Z.compare Z.mul Z.sub Z.to_nat
      Z.add Z.opp Z.pos_sub List.skipn].
    apply (Permutation_in _ (Permutation_sym (merge_sort_Permutation _ _))).
    apply in_or_app. right. left. reflexivity.
Qed.

Lemma createFeedback_moderation_witness :
  ∃ db1 db2 fb after,
    createFeedback reviewsDb exampleNow (submission (Some 5%Q) (Some " lovely "%string))
    = Ok (db1, fb)
    ∧ approveFeedback db1 (id fb) true None = Ok (db2, (id fb, true))
    ∧ getFeedbacks db2 (Some (siteSlug fb)) 1 (-1) publicListing = Ok after
    ∧ FeedbackPage.total after = 3%Z.
Proof.
  destruct (createFeedback reviewsDb exampleNow
              (submission (Some 5%Q) (Some " lovely "%string)))
    as [[db1 fb]|e] eqn:Hcreate; [|discriminate Hcreate].
  destruct (createFeedback_moderation reviewsDb db1 exampleNow _ fb None Hcreate)
    as (_ & _ & db2 & before & after & Happrove & Hbefore & Hafter & Htotal & _).
  exists db1, db2, fb, after.
  split; [reflexivity|]. split; [exact Happrove|]. split; [exact Hafter|].
  rewrite Htotal. vm_compute in Hcreate. injection Hcreate as <- <-.
  vm_compute in Hbefore. injection Hbefore as <-. reflexivity.
Defined.

End FeedbackModeration.

(* --------------------------------------------------------------------- *)
(** ** The feedback routes *)
(* --------------------------------------------------------------------- *)

Section FeedbackRouting.
Import FeedbackRoutes.
Context {coercion : RatingCoercion}.

(** On a submission of strings and a number, the function that takes any
    JSON value is the function written for strings and a number. *)
Lemma createFeedback_typed (db : database) (now : Z) (d : FeedbackData.t) :
  Untyped.createFeedback db now (dataOf d)
  = match FeedbackService.createFeedback db now d with
    | Ok (db', fb) => Ok (db', given fb)
    | Throw e => Throw e
    end.
Proof.
  unfold Untyped.createFeedback, FeedbackService.createFeedback, dataOf.
  destruct d as [site0 name0 email0 phone0 rating0 comment0].
  cbn [Untyped.siteSlug Untyped.name Untyped.email Untyped.phone Untyped.rating
       Untyped.comment FeedbackData.siteSlug FeedbackData.name FeedbackData.email
       FeedbackData.phone FeedbackData.rating FeedbackData.comment].
  destruct site0 as [site0|]; [|reflexivity].
  cbn [option_map Untyped.normalizeSiteSlug SiteService.normalizeSiteSlug mbind
       JS.result_bind].
  destruct rating0 as [r|]; [|reflexivity].
  destruct comment0 as [c|]; [|cbn; rewrite orb_true_r; reflexivity].
  cbn [option_map JS.truthy FeedbackService.truthy_rating JS.truthy_opt_string].
  destruct (negb (negb (Qeq_bool r 0)) || negb (JS.truthy_string c)); [reflexivity|].
  cbn [mbind JS.result_bind].
  destruct (negb (Qle_bool 1 r) || negb (Qle_bool r 5)); [reflexivity|].
  destruct name0, email0, phone0; reflexivity.
Qed.

Lemma trimmed_or_null_exn (x : option json) (e : exn) :
  Untyped.trimmed_or_null x = Throw e → e = TypeError.
Proof. destruct x as [[]|]; cbn; congruence. Qed.

Lemma lowered_or_null_exn (x : option json) (e : exn) :
  Untyped.lowered_or_null x = Throw e → e = TypeError.
Proof. destruct x as [[]|]; cbn; congruence. Qed.

Lemma trimmed_exn (x : json) (e : exn) : Untyped.trimmed x = Throw e → e = TypeError.
Proof. destruct x; cbn; congruence. Qed.

Lemma normalizeSiteSlug_exn (slug : option json) (e : exn) :
  Untyped.normalizeSiteSlug slug = Throw e → e = TypeError.
Proof. destruct slug as [[]|]; cbn; congruence. Qed.

(** The exceptions of [createFeedback]: its own two errors, the first only
    for a falsy rating or comment, a TypeError, or what [stmt.run]
    throws. *)
Lemma createFeedback_exn (db : database) (now : Z) (d : Untyped.data) (e : exn) :
  Untyped.createFeedback db now d = Throw e →
  (e = Error "rating_and_comment_required"
   ∧ JS.truthy (Untyped.rating d) && JS.truthy (Untyped.comment d) = false)
  ∨ e = Error "rating_must_be_between_1_and_5"
  ∨ e = TypeError
  ∨ e = SqliteError.
Proof.
  unfold Untyped.createFeedback.
  destruct (Untyped.normalizeSiteSlug _) as [slug|e0] eqn:Hslug;
    cbn [mbind JS.result_bind];
    [|intros [= <-]; right; right; left; exact (normalizeSiteSlug_exn _ _ Hslug)].
  destruct (JS.truthy (Untyped.rating d)), (JS.truthy (Untyped.comment d));
    cbn [negb orb andb]; try (intros [= <-]; left; split; reflexivity).
  destruct (Untyped.rating d) as [rating0|];
    [|intros [= <-]; right; right; left; reflexivity].
  destruct (Untyped.comment d) as [comment0|];
    [|intros [= <-]; right; right; left; reflexivity].
  assert (∃ outside : result bool,
            outside = match rating0 with
                      | JNum q => Ok (negb (Qle_bool 1 q) || negb (Qle_bool q 5))
                      | _ => match out_of_range rating0 with
                             | Some b => Ok b
                             | None => Throw TypeError
                             end
                      end
            ∧ (∀ e', outside = Throw e' → e' = TypeError))
    as (outside & <- & Houtside).
  { eexists. split; [reflexivity|].
    destruct rating0; try (destruct (out_of_range _)); congruence. }
  destruct outside as [[|]|e0]; cbn [mbind JS.result_bind];
    [intros [= <-]; right; left; reflexivity| |
     intros [= <-]; right; right; left; apply Houtside; reflexivity].
  destruct (Untyped.trimmed_or_null (Untyped.name d)) as [n|e0] eqn:Hn;
    cbn [mbind JS.result_bind];
    [|intros [= <-]; right; right; left; exact (trimmed_or_null_exn _ _ Hn)].
  destruct (Untyped.lowered_or_null (Untyped.email d)) as [m|e0] eqn:Hm;
    cbn [mbind JS.result_bind];
    [|intros [= <-]; right; right; left; exact (lowered_or_null_exn _ _ Hm)].
  destruct (Untyped.trimmed_or_null (Untyped.phone d)) as [p|e0] eqn:Hp;
    cbn [mbind JS.result_bind];
    [|intros [= <-]; right; right; left; exact (trimmed_or_null_exn _ _ Hp)].
  destruct (Untyped.trimmed comment0) as [c|e0] eqn:Hc;
    cbn [mbind JS.result_bind];
    [|intros [= <-]; right; right; left; exact (trimmed_exn _ _ Hc)].
  destruct rating0; cbn [mbind JS.result_bind]; try discriminate;
    destruct (stored_rating _); cbn [mbind JS.result_bind]; try discriminate;
    intros [= <-]; right; right; right; reflexivity.
Qed.

Lemma post_only_200_writes (db : database) (now : Z) (req : FeedbackBody.t) :
  status (post db now req).2 ≠ 200 → (post db now req).1 = db.
Proof.
  unfold post. destruct (_ || _); [reflexivity|].
  destruct (Untyped.createFeedback _ _ _) as [[db' fb]|e].
  - intros Hstatus. exfalso. apply Hstatus. reflexivity.
  - destruct (has_message e _); [reflexivity|].
    destruct (has_message e _); reflexivity.
Qed.

(** X15. POST /api/feedbacks.  Whatever the body: when the site, the
    rating or the comment is missing or falsy (an empty string, 0) the
    answer is 400 'site_rating_and_comment_required'; a site that is not
    a string gets 500 'internal_error'; the handler's answer
    'rating_and_comment_required' is never sent; nothing but a 200
    changes the database.  For a body whose site, name, e-mail, phone and
    comment are strings or left out and whose rating is a number or left
    out, there are exactly three answers: that first 400, 400
    'rating_must_be_between_1_and_5' for a rating outside that range, and
    200 otherwise, storing one more feedback, unapproved; 500 is not
    among them. *)
Theorem post_feedback_responses (db : database) (now : Z) :
  (∀ req : FeedbackBody.t,
     let complete :=
       JS.truthy (FeedbackBody.site req) && JS.truthy (FeedbackBody.rating req)
       && JS.truthy (FeedbackBody.comment req) in
     (complete = false →
        post db now req = (db, respond 400 (failure "site_rating_and_comment_required")))
     ∧ (complete = true →
        (∀ s, FeedbackBody.site req ≠ Some (JStr s)) →
        post db now req = (db, respond 500 (failure "internal_error")))
     ∧ sent (post db now req).2 ≠ failure "rating_and_comment_required"
     ∧ (status (post db now req).2 ≠ 200 → (post db now req).1 = db))
  ∧ (∀ d : FeedbackData.t,
       let complete :=
         JS.truthy_opt_string (FeedbackData.siteSlug d)
         && FeedbackService.truthy_rating (FeedbackData.rating d)
         && JS.truthy_opt_string (FeedbackData.comment d) in
       let inRange :=
         match FeedbackData.rating d with
         | Some r => Qle_bool 1 r && Qle_bool r 5
         | None => false
         end in
       (complete = false →
          post db now (bodyOf d)
          = (db, respond 400 (failure "site_rating_and_comment_required")))
       ∧ (complete = true → inRange = false →
          post db now (bodyOf d)
          = (db, respond 400 (failure "rating_must_be_between_1_and_5")))
       ∧ (complete = true → inRange = true →
          ∃ db' feedback row,
            post db now (bodyOf d) = (db', respond 200 (created feedback))
            ∧ feedbacks db' = feedbacks db ++ [row]
            ∧ Feedbacks.id row = Untyped.id feedback
            ∧ Feedbacks.rating row = default 0%Q (FeedbackData.rating d)
            ∧ Feedbacks.approved row = false)
       ∧ status (post db now (bodyOf d)).2 ≠ 500).
Proof.
  split.
  - intros req. cbn zeta.
    split; [|split; [|split; [|apply post_only_200_writes]]].
    + intros Hincomplete. unfold post.
      destruct (JS.truthy (FeedbackBody.site req)); [|reflexivity].
      destruct (JS.truthy (FeedbackBody.rating req)); [|reflexivity].
      destruct (JS.truthy (FeedbackBody.comment req)); [discriminate|reflexivity].
    + intros Hcomplete Hsite. unfold post, Untyped.createFeedback.
      apply andb_true_iff in Hcomplete as [[Hs Hr]%andb_true_iff Hc].
      rewrite Hs, Hr, Hc. cbn [negb orb Untyped.siteSlug].
      destruct (FeedbackBody.site req) as [[| | |s| |]|]; try reflexivity.
      destruct (Hsite s eq_refl).
    + unfold post.
      destruct (JS.truthy (FeedbackBody.site req)); [|discriminate].
      destruct (JS.truthy (FeedbackBody.rating req)) eqn:Hr; [|discriminate].
      destruct (JS.truthy (FeedbackBody.comment req)) eqn:Hc; [|discriminate].
      cbn [negb orb].
      destruct (Untyped.createFeedback _ _ _) as [[db' fb]|e] eqn:Hcreate;
        [discriminate|].
      apply createFeedback_exn in Hcreate as [[-> Hfalsy] | [-> | [-> | ->]]];
        try discriminate.
      cbn in Hfalsy. rewrite Hr, Hc in Hfalsy. discriminate Hfalsy.
  - intros d. cbn zeta.
    assert (post db now (bodyOf d)
            = if negb (JS.truthy_opt_string (FeedbackData.siteSlug d))
                 || negb (FeedbackService.truthy_rating (FeedbackData.rating d))
                 || negb (JS.truthy_opt_string (FeedbackData.comment d))
              then (db, respond 400 (failure "site_rating_and_comment_required"))
              else
                match FeedbackService.createFeedback db now d with
                | Ok (db', fb) => (db', respond 200 (created (given fb)))
                | Throw error =>
                    if has_message error "rating_and_comment_required"
                    then (db, respond 400 (failure "rating_and_comment_required"))
                    else if has_message error "rating_must_be_between_1_and_5"
                    then (db, respond 400 (failure "rating_must_be_between_1_and_5"))
                    else (db, respond 500 (failure "internal_error"))
                end) as ->.
    { unfold post.
      replace {| Untyped.siteSlug := FeedbackBody.site (bodyOf d);
                 Untyped.name := FeedbackBody.name (bodyOf d);
                 Untyped.email := FeedbackBody.email (bodyOf d);
                 Untyped.phone := FeedbackBody.phone (bodyOf d);
                 Untyped.rating := FeedbackBody.rating (bodyOf d);
                 Untyped.comment := FeedbackBody.comment (bodyOf d) |}
        with (dataOf d) by reflexivity.
      rewrite createFeedback_typed.
      destruct d as [[s|] n e p [r|] [c|]]; cbn [bodyOf FeedbackBody.site
        FeedbackBody.rating FeedbackBody.comment option_map JS.truthy
        JS.truthy_opt_string FeedbackService.truthy_rating FeedbackData.siteSlug
        FeedbackData.rating FeedbackData.comment];
        destruct (FeedbackService.createFeedback _ _ _) as [[db' fb]|err];
        reflexivity. }
    unfold FeedbackService.createFeedback.
    destruct d as [site0 name0 email0 phone0 rating0 comment0].
    cbn [FeedbackData.siteSlug FeedbackData.rating FeedbackData.comment
         FeedbackData.name FeedbackData.email FeedbackData.phone].
    destruct (JS.truthy_opt_string site0) eqn:Hsite;
      [|cbn; split; [reflexivity|]; split; [discriminate|]; split; [discriminate|];
        discriminate].
    destruct (FeedbackService.truthy_rating rating0) eqn:Hrating;
      [|cbn; split; [reflexivity|]; split; [discriminate|]; split; [discriminate|];
        discriminate].
    destruct (JS.truthy_opt_string comment0) eqn:Hcomment;
      [|cbn; split; [reflexivity|]; split; [discriminate|]; split; [discriminate|];
        discriminate].
    destruct site0 as [site0|]; [|discriminate Hsite].
    destruct rating0 as [r|]; [|discriminate Hrating].
    destruct comment0 as [c|]; [|discriminate Hcomment].
    cbn [negb orb andb SiteService.normalizeSiteSlug mbind JS.result_bind].
    destruct (Qle_bool 1 r); [destruct (Qle_bool r 5)|]; cbn [negb orb andb].
    + split; [discriminate|]. split; [discriminate|]. split; [|discriminate].
      intros _ _. eexists _, _, _. split; [reflexivity|].
      split; [reflexivity|]. repeat split; reflexivity.
    + split; [discriminate|]. split; [reflexivity|]. split; discriminate.
    + split; [discriminate|]. split; [reflexivity|]. split; discriminate.
Qed.

(** A comment that is a number passes the truthiness test and has no
    [trim]: the handler answers 500. *)
Example post_comment_number (db : database) (now : Z) :
  post db now
    {| FeedbackBody.site := Some (JStr "demo"); FeedbackBody.name := None;
       FeedbackBody.email := None; FeedbackBody.phone := None;
       FeedbackBody.rating := Some (JNum 5); FeedbackBody.comment := Some (JNum 5) |}
  = (db, respond 500 (failure "internal_error")).
Proof. reflexivity. Qed.

End FeedbackRouting.

Lemma post_feedback_responses_witness :
  ∃ db' feedback,
    @FeedbackRoutes.post strict_coercion exampleDb exampleNow
      (bodyOf (submission (Some 5%Q) (Some "great"%string)))
    = (db', FeedbackRoutes.respond 200 (FeedbackRoutes.created feedback))
  ∧ @FeedbackRoutes.post strict_coercion exampleDb exampleNow
      {| FeedbackBody.site := Some (JNum 7); FeedbackBody.name := None;
         FeedbackBody.email := None; FeedbackBody.phone := None;
         FeedbackBody.rating := Some (JNum 5);
         FeedbackBody.comment := Some (JStr "great") |}
    = (exampleDb, FeedbackRoutes.respond 500 (FeedbackRoutes.failure "internal_error")).
Proof.
  destruct (@post_feedback_responses strict_coercion exampleDb exampleNow)
    as (Hany & Htyped).
  destruct (Htyped (submission (Some 5%Q) (Some "great"%string)))
    as (_ & _ & Hstored & _).
  destruct (Hstored eq_refl eq_refl) as (db' & feedback & _ & Hpost & _).
  exists db', feedback. split; [exact Hpost|].
  destruct (Hany {| FeedbackBody.site := Some (JNum 7); FeedbackBody.name := None;
                    FeedbackBody.email := None; FeedbackBody.phone := None;
                    FeedbackBody.rating := Some (JNum 5);
                    FeedbackBody.comment := Some (JStr "great") |})
    as (_ & Hsite & _).
  apply Hsite; [reflexivity|]. intros s. discriminate.
Defined.

Section FeedbackAccess.
Import FeedbackRoutes.
Context `{Bcrypt} `{ParseInt}.

Lemma substring_all (s : string) : String.substring 0 (String.length s) s = s.
Proof. induction s as [|c s IH]; [reflexivity|]. simpl. rewrite IH. reflexivity. Qed.

Lemma prefix_append (a h : string) :
  String.prefix a h = true → ∃ rest, h = (a +:+ rest)%string.
Proof.
  revert h. induction a as [|c a IH]; intros h Hprefix.
  - exists h. reflexivity.
  - destruct h as [|c' h]; [discriminate Hprefix|]. simpl in Hprefix.
    destruct (ascii_dec c c') as [<-|_]; [|discriminate Hprefix].
    destruct (IH h Hprefix) as (rest & ->). exists rest. reflexivity.
Qed.

Lemma bearer_append (token : string) : bearer ("Bearer " +:+ token) = Some token.
Proof.
  unfold bearer. repeat rewrite append_cons.
  change ("" +:+ token)%string with token. simpl.
  replace (String.prefix "" token) with true by (destruct token; reflexivity).
  rewrite Nat.sub_0_r, substring_all. reflexivity.
Qed.

Lemma bearer_Some (authHeader token : string) :
  bearer authHeader = Some token → authHeader = ("Bearer " +:+ token)%string.
Proof.
  intros Hbearer. pose proof Hbearer as Hprefix. unfold bearer in Hprefix.
  destruct (String.prefix "Bearer " authHeader) eqn:Hp; [|discriminate Hprefix].
  destruct (prefix_append _ _ Hp) as (rest & ->).
  rewrite bearer_append in Hbearer. congruence.
Qed.

(** The access block never sets its flag: [jwt.verify] throws before any
    role or PIN is looked at. *)
Lemma fullAccess_never (db : database) (authorization : option string)
    (site pin : option json) :
  fullAccess db authorization site pin = false.
Proof.
  unfold fullAccess. destruct authorization as [authHeader|]; [|reflexivity].
  destruct (JS.truthy_string authHeader); [|reflexivity].
  destruct (bearer authHeader) as [token|]; [|reflexivity].
  destruct (JS.truthy_string token); reflexivity.
Qed.

Lemma round53_small (x : Z) : (Z.abs x < 2 ^ 53)%Z → Double.round53 x = x.
Proof.
  intros Hsmall. unfold Double.round53.
  destruct (Z.ltb_spec (Z.abs x) (2 ^ 53)) as [_|Hbig]; [reflexivity|lia].
Qed.

(** On a site slug that is a string and numbers that are exact in double
    arithmetic, the listing function that takes what a request carries is
    the one written for a string and integers. *)
Lemma getFeedbacks_typed (db : database) (site0 : string) (p s : Z)
    (opts : FeedbackService2.options) :
  (Z.abs (p - 1) < 2 ^ 53)%Z → (Z.abs ((p - 1) * s) < 2 ^ 53)%Z →
  (Z.abs s < 2 ^ 63)%Z →
  Untyped.getFeedbacks db (Some (JStr site0)) (Double.Int p) (Double.Int s) opts
  = FeedbackService2.getFeedbacks db (Some site0) p s opts.
Proof.
  intros Hp Hoffset Hs.
  unfold Untyped.getFeedbacks, FeedbackService2.getFeedbacks.
  cbn [Untyped.normalizeSiteSlug SiteService.normalizeSiteSlug mbind JS.result_bind].
  rewrite (round53_small _ Hp), (round53_small _ Hoffset).
  replace (Double.bindable s) with true
    by (symmetry; unfold Double.bindable; apply andb_true_iff; split;
        apply Z.ltb_lt; lia).
  replace (Double.bindable ((p - 1) * s)) with true
    by (symmetry; unfold Double.bindable; apply andb_true_iff; split;
        apply Z.ltb_lt; lia).
  reflexivity.
Qed.

End FeedbackAccess.

Section FeedbackGate.
Import FeedbackRoutes.
Context `{Bcrypt} `{ParseInt}.

(** X16. POST /api/feedbacks/approve approves nothing.  Whatever the
    body and whatever the Authorization header, the token of an admin
    included, the database is left as it was and the answer is 400
    'site_id_and_approved_required' (when the site or the id is missing
    or falsy, or [approved] is not a boolean) or else 403
    'vip_pin_or_admin_required': the access block calls [verify] on the
    namespace object of a dynamic import, where it is undefined, and the
    TypeError, caught on the spot, leaves every caller unauthorised. *)
Theorem approve_route_gate (db : database) (authorization : option string)
    (req : ApprovalBody.t) :
  let complete :=
    JS.truthy (ApprovalBody.site req) && JS.truthy (ApprovalBody.id req)
    && is_boolean (ApprovalBody.approved req) in
  (complete = false →
     approve db authorization req
     = (db, respond 400 (failure "site_id_and_approved_required")))
  ∧ (complete = true →
     approve db authorization req
     = (db, respond 403 (failure "vip_pin_or_admin_required")))
  ∧ (approve db authorization req).1 = db
  ∧ status (approve db authorization req).2 ≠ 200.
Proof.
  cbn zeta. unfold approve.
  destruct (ApprovalBody.id req) as [id|];
    [|rewrite andb_false_r; repeat split; discriminate].
  destruct (ApprovalBody.approved req) as [[|approved| | | |]|];
    try (rewrite andb_false_r; repeat split; discriminate).
  rewrite fullAccess_never. cbn [negb is_boolean].
  destruct (JS.truthy (ApprovalBody.site req)), (JS.truthy (Some id));
    cbn [negb orb andb]; repeat split; discriminate.
Qed.

(** X17. GET /api/feedbacks gives every caller the public listing,
    whatever the Authorization header and the PIN, the token of an admin
    included (the access block never grants more, for the reason given
    under X16).  For a site named by a non-empty string and a page [p]
    and page size [s] that are exact in double arithmetic (|p - 1| and
    |(p - 1) * s| below 2^53, |s| below 2^63), the answer is 200 with what
    [getFeedbacks] returns for [onlyApproved: true, includePrivateInfo:
    false]: approved feedbacks only, none with an e-mail address or a
    phone number.  When [parseInt] makes NaN or an infinity of the page or
    of the page size, or when the site is not a string (a repeated
    parameter arrives as an array), the answer is 500 'internal_error';
    when the site is missing or falsy, it is 400 'site_required'. *)
Theorem get_feedbacks_access (db : database) (authorization : option string)
    (query : FeedbackQuery.t) :
  (JS.truthy (FeedbackQuery.site query) = false →
     get db authorization query = respond 400 (failure "site_required"))
  ∧ (∀ site0 p s,
       FeedbackQuery.site query = Some (JStr site0) → site0 ≠ ""%string →
       parsed (FeedbackQuery.page query) 1 = Double.Int p →
       parsed (FeedbackQuery.pageSize query) 20 = Double.Int s →
       (Z.abs (p - 1) < 2 ^ 53)%Z → (Z.abs ((p - 1) * s) < 2 ^ 53)%Z →
       (Z.abs s < 2 ^ 63)%Z →
       ∃ pg,
         get db authorization query = respond 200 (listed pg)
         ∧ FeedbackService2.getFeedbacks db (Some site0) p s publicListing = Ok pg
         ∧ ∀ v, In v (FeedbackPage.feedbacks pg) →
             FeedbackView.approved v = true ∧ FeedbackView.contact v = None)
  ∧ (JS.truthy (FeedbackQuery.site query) = true →
     (∀ n, parsed (FeedbackQuery.page query) 1 ≠ Double.Int n)
     ∨ (∀ n, parsed (FeedbackQuery.pageSize query) 20 ≠ Double.Int n)
     ∨ (∀ site0, FeedbackQuery.site query ≠ Some (JStr site0)) →
     get db authorization query = respond 500 (failure "internal_error")).
Proof.
  unfold get. rewrite fullAccess_never. cbn [negb].
  split; [|split].
  - intros ->. reflexivity.
  - intros site0 p s Hsite Hne Hpage Hsize Hp Hoffset Hs.
    rewrite Hsite, Hpage, Hsize. cbn [JS.truthy].
    rewrite (truthy_string_nonempty _ Hne). cbn [negb].
    rewrite (getFeedbacks_typed db site0 p s _ Hp Hoffset Hs).
    change {| FeedbackService2.onlyApproved := Some true;
              FeedbackService2.includePrivateInfo := Some false |}
      with publicListing.
    eexists. split; [reflexivity|]. split; [reflexivity|].
    intros v Hv. cbn in Hv. apply in_map_iff in Hv as (f & <- & Hf).
    apply In_limit_offset, In_sorted_selected in Hf as (_ & _ & Happroved).
    split; [exact (Happroved eq_refl)|reflexivity].
  - intros -> Hnan. cbn [negb]. unfold Untyped.getFeedbacks.
    destruct (Untyped.normalizeSiteSlug _) eqn:Hslug; [|reflexivity].
    cbn [mbind JS.result_bind].
    destruct (parsed (FeedbackQuery.page query) 1) as [| |p];
      [reflexivity..|].
    destruct (parsed (FeedbackQuery.pageSize query) 20) as [| |s];
      [reflexivity..|].
    destruct Hnan as [Hnan|[Hnan|Hnan]];
      [destruct (Hnan p eq_refl)|destruct (Hnan s eq_refl)|].
    destruct (FeedbackQuery.site query) as [[| | |site0| |]|]; try discriminate.
    destruct (Hnan site0 eq_refl).
Qed.

End FeedbackGate.

Lemma approve_route_gate_witness :
  @FeedbackRoutes.approve plain_bcrypt example_parseInt reviewsDb
    (Some "Bearer admin-token"%string) (approvalOf "demo" 2 true None)
  = (reviewsDb, FeedbackRoutes.respond 403 (FeedbackRoutes.failure "vip_pin_or_admin_required"))
  ∧ @FeedbackRoutes.approve plain_bcrypt example_parseInt reviewsDb
      (Some "Bearer vip-token"%string) (approvalOf "demo" 0 true (Some "1234"%string))
    = (reviewsDb,
       FeedbackRoutes.respond 400 (FeedbackRoutes.failure "site_id_and_approved_required")).
Proof.
  split.
  - destruct (@approve_route_gate plain_bcrypt example_parseInt reviewsDb
                (Some "Bearer admin-token"%string) (approvalOf "demo" 2 true None))
      as (_ & Hdenied & _).
    apply Hdenied. reflexivity.
  - destruct (@approve_route_gate plain_bcrypt example_parseInt reviewsDb
                (Some "Bearer vip-token"%string)
                (approvalOf "demo" 0 true (Some "1234"%string)))
      as (Hincomplete & _).
    apply Hincomplete. reflexivity.
Defined.

Lemma get_feedbacks_access_witness :
  (∃ pg,
     @FeedbackRoutes.get plain_bcrypt example_parseInt reviewsDb
       (Some "Bearer admin-token"%string) (listingOf "demo" "1" "20" (Some "1234"%string))
     = FeedbackRoutes.respond 200 (FeedbackRoutes.listed pg)
     ∧ List.map FeedbackView.id (FeedbackPage.feedbacks pg) = [4; 1]%Z)
  ∧ @FeedbackRoutes.get plain_bcrypt example_parseInt reviewsDb None
      (listingOf "demo" "abc" "20" None)
    = FeedbackRoutes.respond 500 (FeedbackRoutes.failure "internal_error").
Proof.
  destruct (@get_feedbacks_access plain_bcrypt example_parseInt reviewsDb
              (Some "Bearer admin-token"%string)
              (listingOf "demo" "1" "20" (Some "1234"%string)))
    as (_ & Hpublic & _).
  destruct (Hpublic "demo"%string 1%Z 20%Z eq_refl) as (pg & Hget & Hpg & _);
    [discriminate|reflexivity|reflexivity|reflexivity..|].
  split.
  - exists pg. split; [exact Hget|].
    vm_compute in Hpg. injection Hpg as <-. reflexivity.
  - destruct (@get_feedbacks_access plain_bcrypt example_parseInt reviewsDb None
                (listingOf "demo" "abc" "20" None))
      as (_ & _ & Hnan).
    apply Hnan; [reflexivity|]. left. intros n. discriminate.
Defined.

(* --------------------------------------------------------------------- *)
(** ** Feedback statistics *)
(* --------------------------------------------------------------------- *)

Section FeedbackStatistics.
Import FeedbackService2.
Context `{FloatAverage}.








End FeedbackStatistics.


Section FeedbackStatsAccess.
Import FeedbackRoutes.
Context `{FloatAverage}.

Lemma toUpperCase_idem (s : string) : JS.toUpperCase (JS.toUpperCase s) = JS.toUpperCase s.
Proof. apply map_string_idem, upper_ascii_idem. Qed.

Lemma trim_toUpperCase (s : string) : JS.trim (JS.toUpperCase s) = JS.toUpperCase (JS.trim s).
Proof. apply trim_map, is_space_upper. Qed.

(** X19. GET /api/feedbacks/stats for a caller who is not an admin: the
    answer is 200 with statistics or 403 'access_denied'.  Statistics
    are sent only when the site asked for, in upper case, is the token's
    site, and then they are the statistics of the token's own site.  A
    token whose site is not in upper case (as when the account was
    created with a lower-case slug) is refused whatever site is asked
    for, its own included. *)
Theorem get_stats_access (db : database) (user : Auth.token) (site0 : string) :
  site0 ≠ ""%string → Auth.role user ≠ "admin"%string →
  ((∃ st own,
      get_stats db user (Some site0) = respond 200 (stats st)
      ∧ Auth.siteSlug user = Some own
      ∧ own = JS.toUpperCase site0
      ∧ FeedbackService2.getFeedbackStats db (Some own) = Ok st)
   ∨ (get_stats db user (Some site0) = respond 403 (failure "access_denied")
      ∧ Auth.siteSlug user ≠ Some (JS.toUpperCase site0)))
  ∧ (∀ own, Auth.siteSlug user = Some own → JS.toUpperCase own ≠ own →
       get_stats db user (Some site0) = respond 403 (failure "access_denied")).
Proof.
  intros Hsite Hrole. unfold get_stats.
  rewrite (truthy_string_nonempty _ Hsite). cbn [negb].
  destruct (String.eqb_spec (Auth.role user) "admin") as [Hadmin|_]; [contradiction|].
  cbn [negb andb]. split.
  - destruct (JS.strict_eq (Auth.siteSlug user) (JS.toUpperCase site0)) eqn:Hown.
    + left. apply strict_eq_true in Hown. cbn [negb].
      eexists _, (JS.toUpperCase site0). split; [reflexivity|]. split; [exact Hown|].
      split; [reflexivity|].
      unfold FeedbackService2.getFeedbackStats.
      cbn [SiteService.normalizeSiteSlug mbind JS.result_bind].
      rewrite trim_toUpperCase, toUpperCase_idem. reflexivity.
    + right. split; [reflexivity|]. intros Hslug. rewrite Hslug in Hown.
      cbn in Hown. rewrite String.eqb_refl in Hown. discriminate Hown.
  - intros own Hown Hlower. rewrite Hown. cbn [JS.strict_eq].
    destruct (String.eqb_spec own (JS.toUpperCase site0)) as [->|_]; [|reflexivity].
    destruct Hlower. apply toUpperCase_idem.
Qed.

End FeedbackStatsAccess.

Lemma get_stats_access_witness :
  @FeedbackRoutes.get_stats (λ _, 0%Q) reviewsDb essentialToken (Some "demo"%string)
  = FeedbackRoutes.respond 403 (FeedbackRoutes.failure "access_denied").
Proof.
  destruct (@get_stats_access (λ _, 0%Q) reviewsDb essentialToken "demo")
    as ([(st & own & _ & Hown & Hdemo & _)|[Hdenied _]] & _);
    [discriminate|discriminate| |exact Hdenied].
  rewrite Hdemo in Hown. vm_compute in Hown. discriminate Hown.
Defined.

(* --------------------------------------------------------------------- *)
(** ** Settings snapshots: writing and reading back *)
(* --------------------------------------------------------------------- *)

Section SettingsRoundTrip.
Import SettingsService.

Lemma latest_app_other (n : string) (rows : list SettingsKv.row) (row : SettingsKv.row) :
  SettingsKv.site_slug row ≠ n → latest n (rows ++ [row]) = latest n rows.
Proof.
  intros Hother. unfold latest. rewrite List.filter_app. simpl.
  destruct (String.eqb_spec (SettingsKv.site_slug row) n) as [Heq|_]; [contradiction|].
  rewrite app_nil_r. reflexivity.
Qed.

Lemma latest_app_new (n : string) (rows : list SettingsKv.row) (row : SettingsKv.row) :
  SettingsKv.site_slug row = n →
  (∀ r, In r rows → SettingsKv.site_slug r = n →
        (SettingsKv.created_at r < SettingsKv.created_at row)%Z) →
  latest n (rows ++ [row]) = Some row.
Proof.
  intros Hslug Holder. unfold latest. rewrite List.filter_app. simpl.
  rewrite (proj2 (String.eqb_eq _ _) Hslug), fold_left_app. simpl.
  destruct (fold_left newer _ None) as [b|] eqn:Hfold; [|reflexivity].
  apply fold_newer_In in Hfold as [[=]|Hin].
  apply List.filter_In in Hin as [Hin Hb]. apply String.eqb_eq in Hb.
  simpl. destruct (Z.ltb_spec (SettingsKv.created_at b) (SettingsKv.created_at row))
    as [_|Hle]; [reflexivity|].
  specialize (Holder b Hin Hb). lia.
Qed.

Lemma delete_prop_idem (v : json) (key : string) :
  JS.delete_prop (JS.delete_prop v key) key = JS.delete_prop v key.
Proof. destruct v; try reflexivity. simpl. rewrite delete_delete_eq. reflexivity. Qed.

Lemma truthy_delete_prop (v : json) (key : string) :
  JS.truthy (Some (JS.delete_prop v key)) = JS.truthy (Some v).
Proof. destruct v; reflexivity. Qed.

(** Reading back what the write path stores. *)
Lemma readSnapshot_clean (settings clean : json) :
  cleanSettings settings = Ok clean →
  readSnapshot (JS.JSON_stringify clean) = Ok (withoutPin (JObj (JS.spread settings))).
Proof.
  unfold cleanSettings, readSnapshot, withoutPin.
  cbn [JS.JSON_stringify JS.JSON_parse JS.get mbind JS.result_bind].
  destruct (JS.spread settings !! "security"%string) as [sec|] eqn:Hsec.
  - destruct (JS.truthy (Some sec)) eqn:Htruthy.
    + destruct sec as [| | | | |m]; try discriminate Htruthy;
        cbn [JS.get mbind JS.result_bind JS.truthy];
        try (intros [= <-]; cbn [JS.get mbind JS.result_bind]; rewrite Hsec, Htruthy;
             reflexivity).
      destruct (JS.truthy (m !! "vip_pin"%string)).
      * intros [= <-]. cbn [JS.set_prop JS.get mbind JS.result_bind].
        rewrite lookup_insert_eq. cbn [JS.truthy JS.delete_prop].
        rewrite insert_insert_eq, delete_delete_eq. reflexivity.
      * intros [= <-]. cbn [JS.get mbind JS.result_bind]. rewrite Hsec. reflexivity.
    + intros [= <-]. cbn [JS.get mbind JS.result_bind]. rewrite Hsec, Htruthy.
      reflexivity.
  - intros [= <-]. cbn [JS.get mbind JS.result_bind]. rewrite Hsec. reflexivity.
Qed.

Lemma withoutPin_same (props : gmap string json) :
  has_vip_pin (JObj props) = false → withoutPin (JObj props) = JObj props.
Proof.
  unfold has_vip_pin, withoutPin.
  destruct (props !! "security"%string) as [sec|] eqn:Hsec; [|reflexivity].
  destruct (JS.truthy (Some sec)); [|reflexivity].
  intros Hpin. f_equal. apply insert_id. rewrite Hsec. f_equal.
  destruct sec as [| | | | |m]; try reflexivity.
  simpl. f_equal. symmetry. apply delete_id.
  destruct (m !! "vip_pin"%string); [discriminate Hpin|reflexivity].
Qed.

(** X20. Writing a settings snapshot and reading it back.  After
    [saveSettings] has succeeded, at a time later than every snapshot of
    the site, [getSettings] for that site returns the settings that were
    saved, less [security.vip_pin]; settings that are an object without a
    [security.vip_pin] come back unchanged.  The settings of every other
    site read as before. *)
Theorem saveSettings_getSettings `{Bcrypt} (db db' : database) (now : Z) (slug : string)
    (settings : json) (pin : option string) (requirePin : bool) (id : Z)
    (normalizedSlug : string) :
  saveSettings db now (Some slug) settings pin requirePin = Ok (db', (id, normalizedSlug)) →
  older_snapshots db normalizedSlug now →
  getSettings db' (Some slug) = Ok (withoutPin (JObj (JS.spread settings)))
  ∧ (∀ props, settings = JObj props → has_vip_pin settings = false →
       getSettings db' (Some slug) = Ok settings)
  ∧ (∀ other, JS.toUpperCase (JS.trim other) ≠ normalizedSlug →
       getSettings db' (Some other) = getSettings db (Some other)).
Proof.
  unfold saveSettings. cbn [SiteService.normalizeSiteSlug mbind JS.result_bind].
  destruct (if requirePin then _ else _) as [[|]|]; cbn [mbind JS.result_bind];
    try discriminate.
  destruct (cleanSettings settings) as [clean|] eqn:Hclean; cbn [mbind JS.result_bind];
    [|discriminate].
  intros [= <- <- <-] Holder.
  assert (Hread : getSettings
                    (with_settings_kv
                       (settings_kv db
                        ++ [{| SettingsKv.id := next_rowid (List.map SettingsKv.id (settings_kv db));
                               SettingsKv.site_slug := JS.toUpperCase (JS.trim slug);
                               SettingsKv.settings_json := JS.JSON_stringify clean;
                               SettingsKv.created_at := now |}]) db)
                    (Some slug)
                  = Ok (withoutPin (JObj (JS.spread settings)))).
  { unfold getSettings.
    cbn [SiteService.normalizeSiteSlug mbind JS.result_bind with_settings_kv settings_kv].
    rewrite latest_app_new; [|reflexivity|exact Holder].
    cbn [SettingsKv.settings_json]. rewrite (readSnapshot_clean _ _ Hclean). reflexivity. }
  split; [exact Hread|]. split.
  - intros props -> Hpin. rewrite Hread. cbn [JS.spread].
    rewrite (withoutPin_same _ Hpin). reflexivity.
  - intros other Hother. unfold getSettings.
    cbn [SiteService.normalizeSiteSlug mbind JS.result_bind with_settings_kv settings_kv].
    rewrite latest_app_other; [reflexivity|]. cbn [SettingsKv.site_slug]. congruence.
Qed.

End SettingsRoundTrip.

Lemma saveSettings_getSettings_witness :
  ∃ db' id,
    @SettingsService.saveSettings plain_bcrypt themedDb exampleNow (Some "demo"%string)
      pinPayload (Some "1234"%string) true = Ok (db', (id, "DEMO"%string))
    ∧ SettingsService.getSettings db' (Some " Demo "%string)
      = Ok (JObj (<[ "security"%string := JObj ∅ ]>
                  (JS.spread SettingsService.defaultSettings))).
Proof.
  destruct (@SettingsService.saveSettings plain_bcrypt themedDb exampleNow
              (Some "demo"%string) pinPayload (Some "1234"%string) true)
    as [[db' [id n]]|e] eqn:Hsave; [|vm_compute in Hsave; discriminate Hsave].
  assert (Hn : n = "DEMO"%string) by (vm_compute in Hsave; congruence).
  subst n. exists db', id. split; [reflexivity|].
  destruct (@saveSettings_getSettings plain_bcrypt themedDb db' exampleNow "demo"
              pinPayload (Some "1234"%string) true id "DEMO" Hsave) as (Hget & _).
  - intros r [<-|[]] _. vm_compute. reflexivity.
  - unfold SettingsService.getSettings in *.
    cbn [SiteService.normalizeSiteSlug mbind JS.result_bind] in *.
    change (JS.toUpperCase (JS.trim " Demo ")) with (JS.toUpperCase (JS.trim "demo")).
    rewrite Hget. vm_compute. reflexivity.
Defined.

Section SectionDefs.
Import SettingsService SettingsService2.

Lemma normalized_idem (s : string) :
  JS.toUpperCase (JS.trim (JS.toUpperCase (JS.trim s))) = JS.toUpperCase (JS.trim s).
Proof. rewrite trim_toUpperCase, trim_idem, toUpperCase_idem. reflexivity. Qed.

Lemma getSettings_normalized (db : database) (s : string) :
  getSettings db (Some (JS.toUpperCase (JS.trim s))) = getSettings db (Some s).
Proof.
  unfold getSettings. cbn [SiteService.normalizeSiteSlug mbind JS.result_bind].
  rewrite normalized_idem. reflexivity.
Qed.





Lemma saveSettings_read `{Bcrypt} (db db' : database) (now : Z) (slug : string)
    (settings : json) (pin : option string) (requirePin : bool) (id : Z)
    (normalizedSlug : string) :
  saveSettings db now (Some slug) settings pin requirePin = Ok (db', (id, normalizedSlug)) →
  older_snapshots db normalizedSlug now →
  normalizedSlug = JS.toUpperCase (JS.trim slug)
  ∧ getSettings db' (Some slug) = Ok (withoutPin (JObj (JS.spread settings)))
  ∧ users db' = users db ∧ sites db' = sites db ∧ feedbacks db' = feedbacks db.
Proof.
  unfold saveSettings. cbn [SiteService.normalizeSiteSlug mbind JS.result_bind].
  destruct (if requirePin then _ else _) as [[|]|]; cbn [mbind JS.result_bind];
    try discriminate.
  destruct (cleanSettings settings) as [clean|] eqn:Hclean; cbn [mbind JS.result_bind];
    [|discriminate].
  intros [= <- <- <-] Holder. split; [reflexivity|].
  split; [|split; [reflexivity|split; reflexivity]].
  unfold getSettings.
  cbn [SiteService.normalizeSiteSlug mbind JS.result_bind with_settings_kv settings_kv].
  rewrite latest_app_new; [|reflexivity|exact Holder].
  cbn [SettingsKv.settings_json]. rewrite (readSnapshot_clean _ _ Hclean). reflexivity.
Qed.

Lemma get_withoutPin (props : gmap string json) (key : string) :
  key ≠ "security"%string → JS.get (withoutPin (JObj props)) key = Ok (props !! key).
Proof.
  intros Hkey. unfold withoutPin.
  destruct (props !! "security"%string) as [sec|]; [|reflexivity].
  destruct (JS.truthy (Some sec)); [|reflexivity].
  cbn [JS.get]. rewrite lookup_insert_ne by congruence. reflexivity.
Qed.

Lemma has_vip_pin_withoutPin (props : gmap string json) :
  has_vip_pin (withoutPin (JObj props)) = false.
Proof.
  unfold withoutPin.
  destruct (props !! "security"%string) as [sec|] eqn:Hsec.
  - destruct (JS.truthy (Some sec)) eqn:Htruthy.
    + apply (has_vip_pin_deleted props sec).
    + exact (has_vip_pin_falsy props sec Hsec Htruthy).
  - simpl. rewrite Hsec. reflexivity.
Qed.

(** X21. [upsertSectionDefs] replaces the section definitions and keeps
    everything else.  After it has succeeded, at a time later than every
    snapshot of the site, [getSettings] returns an object whose
    [sections] are the new definitions (an empty list when [defs] is not
    an array) with the section data that [getSettings] returned before
    (an empty object when there were none); every other property except
    [security] is what [getSettings] returned before, and there is no
    [security.vip_pin].  No other table is written. *)
Theorem upsertSectionDefs_effect `{Bcrypt} (db db' : database) (now : Z) (slug : string)
    (defs : option json) (pin : option string) (requirePin : bool) (id : Z)
    (normalizedSlug : string) :
  upsertSectionDefs db now (Some slug) defs pin requirePin
  = Ok (db', (id, normalizedSlug)) →
  older_snapshots db normalizedSlug now →
  ∃ current updated sections data,
    getSettings db (Some slug) = Ok current
    ∧ JS.get current "sections" = Ok sections
    ∧ get_opt sections "data" = Ok data
    ∧ getSettings db' (Some slug) = Ok updated
    ∧ JS.get updated "sections"
      = Ok (Some (JObj (<[ "defs"%string := array_or_empty defs ]>
                        {[ "data"%string := or_empty_object data ]})))
    ∧ (∀ key, key ≠ "sections"%string → key ≠ "security"%string →
         JS.get updated key = Ok (JS.spread current !! key))
    ∧ has_vip_pin updated = false
    ∧ users db' = users db ∧ sites db' = sites db ∧ feedbacks db' = feedbacks db.
Proof.
  unfold upsertSectionDefs. cbn [SiteService.normalizeSiteSlug mbind JS.result_bind].
  destruct (if requirePin then _ else _) as [[|]|]; cbn [mbind JS.result_bind];
    try discriminate.
  rewrite getSettings_normalized.
  destruct (getSettings db (Some slug)) as [current|] eqn:Hcurrent;
    cbn [mbind JS.result_bind]; [|discriminate].
  destruct (JS.get current "sections") as [sections|] eqn:Hsections;
    cbn [mbind JS.result_bind]; [|discriminate].
  destruct (get_opt sections "data") as [data|] eqn:Hdata;
    cbn [mbind JS.result_bind]; [|discriminate].
  intros Hsave Holder.
  destruct (saveSettings_read _ _ _ _ _ _ _ _ _ Hsave Holder)
    as (_ & Hget & Husers & Hsites & Hfeedbacks).
  rewrite getSettings_normalized in Hget. cbn [JS.spread] in Hget.
  eexists current, _, sections, data.
  split; [reflexivity|]. split; [exact Hsections|]. split; [exact Hdata|].
  split; [exact Hget|]. split; [|split; [|split]].
  - rewrite get_withoutPin by discriminate. rewrite lookup_insert_eq. reflexivity.
  - intros key Hkey Hsecurity. rewrite get_withoutPin by exact Hsecurity.
    rewrite lookup_insert_ne by congruence. reflexivity.
  - apply has_vip_pin_withoutPin.
  - split; [exact Husers|]. split; [exact Hsites|exact Hfeedbacks].
Qed.

End SectionDefs.

Lemma upsertSectionDefs_effect_witness :
  ∃ db' id updated,
    @SettingsService2.upsertSectionDefs plain_bcrypt themedDb exampleNow (Some "demo"%string)
      (Some heroDefs) (Some "1234"%string) true = Ok (db', (id, "DEMO"%string))
    ∧ SettingsService.getSettings db' (Some "demo"%string) = Ok updated
    ∧ JS.get updated "theme" = Ok (Some (JStr "dark"))
    ∧ JS.get updated "sections"
      = Ok (Some (JObj (<[ "defs"%string := heroDefs ]>
                        {[ "data"%string := JObj {[ "hero"%string := JStr "Hi" ]} ]}))).
Proof.
  destruct (@SettingsService2.upsertSectionDefs plain_bcrypt themedDb exampleNow
              (Some "demo"%string) (Some heroDefs) (Some "1234"%string) true)
    as [[db' [id n]]|e] eqn:Hupsert; [|vm_compute in Hupsert; discriminate Hupsert].
  assert (Hn : n = "DEMO"%string) by (vm_compute in Hupsert; congruence).
  subst n.
  destruct (@upsertSectionDefs_effect plain_bcrypt themedDb db' exampleNow "demo"
              (Some heroDefs) (Some "1234"%string) true id "DEMO" Hupsert)
    as (current & updated & sections & data & Hcurrent & Hsections & Hdata & Hupdated
        & Hdefs & Hkeys & _).
  - intros r [<-|[]] _. vm_compute. reflexivity.
  - exists db', id, updated. split; [reflexivity|]. split; [exact Hupdated|].
    vm_compute in Hcurrent. injection Hcurrent as <-.
    vm_compute in Hsections. injection Hsections as <-.
    vm_compute in Hdata. injection Hdata as <-.
    split; [rewrite Hkeys by discriminate; vm_compute; reflexivity|].
    rewrite Hdefs. vm_compute. reflexivity.
Defined.

Section SectionDefsGate.
Import SettingsRoutes2.
Context `{Bcrypt}.




End SectionDefsGate.


Section SettingsHistory.
Import SettingsService2.

#[local] Instance settings_newest_first_total : Total newest_first.
Proof. intros a b. unfold newest_first. lia. Qed.

Lemma Sorted_firstn {A : Type} (R : A → A → Prop) (k : nat) (l : list A) :
  Sorted R l → Sorted R (List.firstn k l).
Proof.
  revert l. induction k as [|k IH]; intros [|a l] Hsorted; simpl; try constructor.
  - apply IH. apply Sorted_inv in Hsorted as [Hl _]. exact Hl.
  - apply Sorted_inv in Hsorted as [_ Hhd].
    destruct l as [|b l]; destruct k; simpl; constructor.
    apply HdRel_inv in Hhd. exact Hhd.
Qed.





End SettingsHistory.


Lemma deleteFeedback_effect_witness :
  ∃ db', FeedbackService2.deleteFeedback reviewsDb 3 = Ok (db', 3%Z)
    ∧ FeedbackService2.getFeedback db' 3 = Throw (Error "feedback_not_found")
    ∧ FeedbackService2.getFeedback db' 4 = Ok (review 4 "DEMO" 3 true 400).
Proof.
  pose proof (deleteFeedback_effect reviewsDb 3) as Heffect.
  destruct (FeedbackService2.deleteFeedback reviewsDb 3) as [[db' deleted]|e] eqn:Hdelete;
    [|vm_compute in Hdelete; discriminate Hdelete].
  destruct Heffect as (-> & _ & Hgone & Hothers & _).
  exists db'. split; [reflexivity|]. split; [exact Hgone|].
  rewrite Hothers by lia. reflexivity.
Defined.

(* --------------------------------------------------------------------- *)
(** ** Accounts, tokens and the gates behind them *)
(* --------------------------------------------------------------------- *)

Section Accounts.
Import AuthService.
Context `{BcryptSound} `{JwtSign} `{SqliteMessages}.

Lemma by_email_stored (e : string) (u : Users.row) :
  Users.email u = JS.trim (JS.toLowerCase e) →
  by_email (JS.trim (JS.toLowerCase e)) u = true.
Proof. intros Hu. unfold by_email. rewrite Hu. apply String.eqb_refl. Qed.

Lemma find_id_fresh (rows : list Users.row) (row : Users.row) :
  Users.id row = next_rowid (List.map Users.id rows) →
  List.find (λ u, Z.eqb (Users.id u) (Users.id row)) (rows ++ [row]) = Some row.
Proof.
  intros Hid. apply find_app_new; [|apply Z.eqb_refl].
  apply not_true_iff_false. intros (u & Hu & Heq)%existsb_exists.
  apply Z.eqb_eq in Heq.
  pose proof (next_rowid_fresh (List.map Users.id rows) (Users.id u) (in_map _ _ _ Hu)).
  lia.
Qed.

(** X24. An account that [createUser] has stored can log in: [login]
    with the same password and with the same e-mail address, in any
    letter case and with any surrounding white space, returns the token
    signed for the new row and its data (the plan and role given or
    defaulted, billing status 'pending').  A second [createUser] for the
    address, in whatever letter case, stores nothing: it throws
    'email_already_exists', or the CHECK error when its role or plan is
    not admitted. *)
Theorem createUser_login (db db' : database) (now : Z) (salt : string)
    (userData : UserData.t) (u : created) (email' : string) :
  createUser db now salt userData = Ok (db', u) →
  JS.trim (JS.toLowerCase email') = JS.trim (JS.toLowerCase (UserData.email userData)) →
  ∃ row,
    getUserById db' (id u) = Some row
    ∧ Users.email row = JS.trim (JS.toLowerCase (UserData.email userData))
    ∧ Users.role row = default "client"%string (UserData.role userData)
    ∧ Users.plan row = Some (default "essential"%string (UserData.plan userData))
    ∧ Users.site_slug row = or_null (UserData.siteSlug userData)
    ∧ Users.billing_status row = Some "pending"%string
    ∧ login db' email' (UserData.password userData)
      = Ok (AuthMiddleware.generateToken row, view row)
    ∧ ∀ now' salt' userData',
        JS.toLowerCase (JS.trim (JS.toLowerCase (UserData.email userData')))
        = JS.toLowerCase (JS.trim (JS.toLowerCase (UserData.email userData))) →
        createUser db' now' salt' userData' = Throw (Error "email_already_exists")
        ∨ createUser db' now' salt' userData' = Throw (Error check_constraint_failed).
Proof.
  unfold createUser.
  destruct (negb (existsb _ _) || negb (existsb _ _)); [discriminate|].
  destruct (existsb (by_email (JS.trim (JS.toLowerCase (UserData.email userData))))
              (users db)) eqn:Hnew; [discriminate|].
  intros [= <- <-] Hemail. cbn [id].
  set (row := {| Users.id := next_rowid (List.map Users.id (users db));
                 Users.email := JS.trim (JS.toLowerCase (UserData.email userData)) |}).
  exists row. split; [|split; [reflexivity|split; [reflexivity|split; [reflexivity|
    split; [reflexivity|split; [reflexivity|split]]]]]].
  - unfold getUserById. cbn [with_users users].
    apply (find_id_fresh (users db) row). reflexivity.
  - unfold login. cbn [with_users users]. rewrite Hemail.
    rewrite (find_app_new _ _ row Hnew) by (apply by_email_stored; reflexivity).
    cbn [row Users.password_hash]. rewrite compare_hash. reflexivity.
  - intros now' salt' userData' Hsame.
    destruct (negb (existsb _ _) || negb (existsb _ _)); [right; reflexivity|].
    left. cbn [with_users users]. rewrite existsb_app. cbn [existsb].
    unfold by_email at 2. cbn [row Users.email]. rewrite Hsame, String.eqb_refl.
    rewrite orb_true_r. reflexivity.
Qed.

End Accounts.

Lemma createUser_login_witness :
  ∃ db' u token,
    @AuthService.createUser tagged_hash example_messages noUsers exampleNow "salt" anaData
    = Ok (db', u)
    ∧ @AuthService.login tagged_compare example_sign db' "ANA@example.com  " "s3cret"
      = Ok (token, {| UserView.id := 1; UserView.email := "ana@example.com";
                      UserView.role := "client"; UserView.siteSlug := Some "DEMO"%string;
                      UserView.plan := Some "vip"%string;
                      UserView.billingStatus := Some "pending"%string |}).
Proof.
  destruct (@AuthService.createUser tagged_hash example_messages noUsers exampleNow
              "salt" anaData) as [[db' u]|e] eqn:Hcreate;
    [|vm_compute in Hcreate; discriminate Hcreate].
  destruct (@createUser_login tagged_compare tagged_hash tagged_sound example_sign
              example_messages noUsers db' exampleNow "salt" anaData u
              "ANA@example.com  " Hcreate eq_refl)
    as (row & Hrow & _ & _ & _ & _ & _ & Hlogin & _).
  exists db', u, (@AuthMiddleware.generateToken example_sign row).
  split; [reflexivity|]. etrans; [exact Hlogin|]. f_equal. f_equal.
  vm_compute in Hcreate. injection Hcreate as <- <-.
  vm_compute in Hrow. injection Hrow as <-. reflexivity.
Defined.

Section Gates.
Import AuthMiddleware.
Context `{Jwt} `{JwtSign}.

Lemma verifyToken_good (u : Users.row) :
  good_token u →
  verifyToken (Some ("Bearer " +:+ generateToken u)%string) = next (payloadOf u).
Proof.
  intros [Hnonempty Hverify]. unfold verifyToken.
  assert (Hheader : JS.truthy_string ("Bearer " +:+ generateToken u) = true)
    by reflexivity.
  rewrite Hheader, bearer_append. cbn [JS.truthy_opt_string negb].
  rewrite Hnonempty, Hverify. reflexivity.
Qed.

Lemma requireVipOrAdmin_next (t : Auth.token) :
  requireVipOrAdmin (Some t) = next t
  ↔ Auth.role t = "admin"%string ∨ Auth.plan t = Some "vip"%string.
Proof.
  unfold requireVipOrAdmin. cbn [Auth.isActiveBillingStatus]. rewrite orb_false_r.
  destruct (String.eqb_spec (Auth.role t) "admin") as [Hadmin|Hadmin]; cbn [negb andb].
  - split; [intros _; left; exact Hadmin|reflexivity].
  - destruct (JS.strict_eq (Auth.plan t) "vip") eqn:Hvip; cbn [negb].
    + apply strict_eq_true in Hvip. split; [intros _; right; exact Hvip|reflexivity].
    + split; [discriminate|]. intros [Hrole|Hplan]; [contradiction|].
      rewrite Hplan in Hvip. discriminate Hvip.
Qed.

(** X25. The gate [requireVipOrAdmin] looks at the token only, and the
    token carries no billing status: it lets a caller through exactly when
    the token's role is 'admin' or its plan is 'vip'.  So a user on the
    'essential' plan whose billing status is active is a VIP for
    [getSubscriptionStatus] ([isVip] is true) and is refused by the gate
    with 403 'vip_or_admin_required', with a token that verifies. *)
Theorem requireVipOrAdmin_ignores_billing (db : database) (now : Z) (slug : string)
    (email : option string) (u : Users.row) :
  SubscriptionService.findUser db (JS.toUpperCase (JS.trim slug)) email = Some u →
  good_token u →
  Users.role u ≠ "admin"%string → Users.plan u ≠ Some "vip"%string →
  SubscriptionService.isActiveBillingStatus (Users.billing_status u) = true →
  (∃ st, SubscriptionService.getSubscriptionStatus db now (Some slug) email = Ok st
       ∧ SubscriptionService.isVip st = true)
  ∧ (∃ t, verifyToken (Some ("Bearer " +:+ generateToken u)%string) = next t
        ∧ requireVipOrAdmin (Some t) = answered 403 "vip_or_admin_required")
  ∧ ∀ t, requireVipOrAdmin (Some t) = next t
         ↔ Auth.role t = "admin"%string ∨ Auth.plan t = Some "vip"%string.
Proof.
  intros Hfind Hgood Hrole Hplan Hactive. split; [|split].
  - unfold SubscriptionService.getSubscriptionStatus.
    cbn [SiteService.normalizeSiteSlug mbind JS.result_bind]. rewrite Hfind.
    eexists. split; [reflexivity|]. cbn [SubscriptionService.isVip].
    rewrite Hactive. apply orb_true_r.
  - exists (payloadOf u). split; [exact (verifyToken_good u Hgood)|].
    pose proof (requireVipOrAdmin_next (payloadOf u)) as Hgate.
    unfold requireVipOrAdmin in *. cbn [payloadOf Auth.role Auth.plan] in *.
    destruct (negb (String.eqb (Users.role u) "admin")
              && negb (JS.strict_eq (Users.plan u) "vip"
                       || Auth.isActiveBillingStatus None)); [reflexivity|].
    destruct (proj1 Hgate eq_refl) as [Hadmin|Hvip]; contradiction.
  - exact requireVipOrAdmin_next.
Qed.

End Gates.

Lemma requireVipOrAdmin_ignores_billing_witness :
  (∃ st, SubscriptionService.getSubscriptionStatus exampleDb exampleNow
           (Some "shop"%string) None = Ok st
       ∧ SubscriptionService.isVip st = true)
  ∧ ∃ t, @AuthMiddleware.verifyToken example_jwt (Some "Bearer essential-token"%string)
         = AuthMiddleware.next t
       ∧ AuthMiddleware.requireVipOrAdmin (Some t)
         = AuthMiddleware.answered 403 "vip_or_admin_required".
Proof.
  destruct (@requireVipOrAdmin_ignores_billing example_jwt example_sign exampleDb exampleNow
              "shop" None bob) as (Hstatus & Hgate & _).
  - reflexivity.
  - split; reflexivity.
  - discriminate.
  - discriminate.
  - reflexivity.
  - split; [exact Hstatus|exact Hgate].
Defined.

Section AdminRoutes.
Import AuthMiddleware.
Context `{Jwt}.

(** What [verifyToken] does with a request: it hands on exactly the
    requests that carry a verifying token, and answers 401 otherwise. *)
Lemma verifyToken_cases (authorization : option string) :
  match verifyToken authorization with
  | next payload => bearer_of authorization payload
  | answered code error =>
      code = 401
      ∧ (error = "token_required"%string ∨ error = "invalid_token"%string)
      ∧ ∀ payload, ¬ bearer_of authorization payload
  end.
Proof.
  unfold verifyToken, bearer_of.
  destruct authorization as [authHeader|];
    [|split; [reflexivity|split; [left; reflexivity|intros p (t & [=] & _)]]].
  destruct (JS.truthy_string authHeader) eqn:Hheader.
  - destruct (FeedbackRoutes.bearer authHeader) as [token|] eqn:Hbearer.
    + apply bearer_Some in Hbearer as ->. cbn [JS.truthy_opt_string].
      destruct (JS.truthy_string token) eqn:Htoken; cbn [negb].
      * destruct (jwt_verify token) as [decoded|e] eqn:Hverify.
        -- exists token. split; [reflexivity|]. split; [|exact Hverify].
           intros ->. discriminate Htoken.
        -- split; [reflexivity|]. split; [right; reflexivity|].
           intros p (t & Hheader' & _ & Hp). injection Hheader' as Hheader'.
           change (token = t) in Hheader'. subst t. congruence.
      * split; [reflexivity|]. split; [left; reflexivity|].
        intros p (t & Hheader' & Hnonempty & _). injection Hheader' as Hheader'.
        change (token = t) in Hheader'. subst t.
        destruct token; [congruence|discriminate Htoken].
    + cbn [JS.truthy_opt_string negb]. split; [reflexivity|].
      split; [left; reflexivity|].
      intros p (t & [= ->] & _). rewrite bearer_append in Hbearer. discriminate Hbearer.
  - cbn [JS.truthy_opt_string negb]. split; [reflexivity|].
    split; [left; reflexivity|].
    intros p (t & [= ->] & _). discriminate Hheader.
Qed.

End AdminRoutes.

Section SiteToggle.
Import AuthMiddleware SiteRoutes.
Context `{Jwt}.

Lemma toggleSite_then_status (db : database) (now : Z) (slug : string) (active : bool) :
  existsb (SiteService.slug_is (JS.toUpperCase (JS.trim slug))) (sites db) = true →
  ∃ db',
    SiteService.toggleSite db now (Some slug) active
    = Ok (db', (JS.toUpperCase (JS.trim slug), active))
    ∧ SiteService2.getSiteStatus db' (Some slug)
      = Ok (JS.toUpperCase (JS.trim slug), active)
    ∧ users db' = users db ∧ settings_kv db' = settings_kv db
    ∧ feedbacks db' = feedbacks db.
Proof.
  intros Hsite. unfold SiteService.toggleSite, SiteService2.getSiteStatus.
  cbn [SiteService.normalizeSiteSlug mbind JS.result_bind].
  rewrite changes_zero, Hsite. cbn [negb].
  eexists. split; [reflexivity|]. cbn [with_sites sites users settings_kv feedbacks].
  split; [|split; [reflexivity|split; reflexivity]].
  rewrite find_map_preserving
    by (intros s; destruct (SiteService.slug_is _ s) eqn:E; exact E).
  destruct (existsb_find _ _ Hsite) as (s & -> & Hs). cbn [option_map fmap].
  simpl. rewrite Hs. simpl. apply String.eqb_eq in Hs. rewrite Hs. reflexivity.
Qed.

Lemma verified_admin (authorization : option string) :
  admin_request authorization →
  ∃ payload, verifyToken authorization = next payload
           ∧ requireAdmin (Some payload) = next payload.
Proof.
  intros (payload & Hbearer & Hadmin).
  pose proof (verifyToken_cases authorization) as Hcases.
  destruct (verifyToken authorization) as [payload'|code error].
  - destruct Hbearer as (token & Hheader & _ & Hverify).
    destruct Hcases as (token' & Hheader' & _ & Hverify').
    rewrite Hheader in Hheader'. injection Hheader' as Hheader'.
    change (token = token') in Hheader'. subst token'.
    assert (payload' = payload) as -> by congruence.
    exists payload. split; [reflexivity|].
    unfold requireAdmin, requireRole. rewrite Hadmin. reflexivity.
  - destruct Hcases as (_ & _ & Hnone). destruct (Hnone payload Hbearer).
Qed.

Lemma refused_unless_admin (authorization : option string) :
  ¬ admin_request authorization →
  (∃ code error, verifyToken authorization = answered code error ∧ code = 401)
  ∨ (∃ payload, verifyToken authorization = next payload
              ∧ requireAdmin (Some payload) = answered 403 "insufficient_permissions").
Proof.
  intros Hno. pose proof (verifyToken_cases authorization) as Hcases.
  destruct (verifyToken authorization) as [payload|code error].
  - right. exists payload. split; [reflexivity|].
    unfold requireAdmin, requireRole.
    destruct (String.eqb_spec (Auth.role payload) "admin") as [Hadmin|_]; [|reflexivity].
    destruct Hno. exists payload. split; [exact Hcases|exact Hadmin].
  - left. destruct Hcases as (-> & _). exists 401, error. split; reflexivity.
Qed.

(** X26. POST /api/site/toggle, for a request that names a site and
    carries a boolean.  Unless the request carries the verifying token of
    an admin the answer is 401 or 403 and nothing is written.  For an
    admin: when the site exists its flag is set, the answer is 200 with
    the normal form of the slug, the other tables are untouched and
    GET /api/site-status then reports the flag; when it does not exist the
    answer is 404 'site_not_found' and nothing is written. *)
Theorem toggle_admin_only (db : database) (now : Z) (authorization : option string)
    (site0 : string) (active0 : bool) :
  site0 ≠ ""%string →
  (¬ admin_request authorization →
     (toggle db now authorization (Some site0) (Some active0)).1 = db
     ∧ (status (toggle db now authorization (Some site0) (Some active0)).2 = 401
        ∨ status (toggle db now authorization (Some site0) (Some active0)).2 = 403))
  ∧ (admin_request authorization →
     (existsb (SiteService.slug_is (JS.toUpperCase (JS.trim site0))) (sites db) = false →
        toggle db now authorization (Some site0) (Some active0)
        = (db, respond 404 (failure "site_not_found")))
     ∧ (existsb (SiteService.slug_is (JS.toUpperCase (JS.trim site0))) (sites db) = true →
        ∃ db',
          toggle db now authorization (Some site0) (Some active0)
          = (db', respond 200 (site_status (JS.toUpperCase (JS.trim site0)) active0))
          ∧ get_site_status db' (Some site0)
            = respond 200 (site_status (JS.toUpperCase (JS.trim site0)) active0)
          ∧ users db' = users db ∧ settings_kv db' = settings_kv db
          ∧ feedbacks db' = feedbacks db)).
Proof.
  intros Hsite. split.
  - intros Hno. unfold toggle.
    destruct (refused_unless_admin authorization Hno)
      as [(code & error & -> & ->)|(payload & -> & ->)];
      split; [reflexivity|left; reflexivity|reflexivity|right; reflexivity].
  - intros Hadmin. unfold toggle.
    destruct (verified_admin authorization Hadmin) as (payload & -> & ->).
    unfold toggle_handler. cbn [JS.truthy_opt_string].
    rewrite (truthy_string_nonempty _ Hsite). cbn [negb]. split.
    + intros Habsent. unfold SiteService.toggleSite.
      cbn [SiteService.normalizeSiteSlug mbind JS.result_bind].
      rewrite changes_zero, Habsent. reflexivity.
    + intros Hpresent.
      destruct (toggleSite_then_status db now site0 active0 Hpresent)
        as (db' & -> & Hstatus & Hrest).
      exists db'. split; [reflexivity|]. split; [|exact Hrest].
      unfold get_site_status. cbn [JS.truthy_opt_string].
      rewrite (truthy_string_nonempty _ Hsite), Hstatus. reflexivity.
Qed.

End SiteToggle.

Lemma toggle_admin_only_witness :
  (@SiteRoutes.toggle example_jwt exampleDb exampleNow (Some "Bearer vip-token"%string)
     (Some "shop"%string) (Some false)).1 = exampleDb
  ∧ ∃ db',
      @SiteRoutes.toggle example_jwt exampleDb exampleNow (Some "Bearer admin-token"%string)
        (Some "shop"%string) (Some false)
      = (db', SiteRoutes.respond 200 (SiteRoutes.site_status "SHOP" false))
      ∧ SiteRoutes.get_site_status db' (Some "shop"%string)
        = SiteRoutes.respond 200 (SiteRoutes.site_status "SHOP" false).
Proof.
  split.
  - destruct (@toggle_admin_only example_jwt exampleDb exampleNow
                (Some "Bearer vip-token"%string) "shop" false) as (Hrefused & _);
      [discriminate|].
    apply Hrefused.
    intros (payload & (token & Hheader & _ & Hverify) & Hadmin).
    injection Hheader as Hheader. change ("vip-token"%string = token) in Hheader.
    subst token. vm_compute in Hverify. injection Hverify as <-. discriminate Hadmin.
  - destruct (@toggle_admin_only example_jwt exampleDb exampleNow
                (Some "Bearer admin-token"%string) "shop" false) as (_ & Hadmin);
      [discriminate|].
    destruct Hadmin as (_ & Hset).
    + exists adminToken. split; [|reflexivity].
      exists "admin-token"%string. split; [reflexivity|]. split; [discriminate|reflexivity].
    + destruct (Hset eq_refl) as (db' & Htoggle & Hstatus & _).
      exists db'. split; [exact Htoggle|exact Hstatus].
Defined.

Section StatusRoutes.
Import SubscriptionService.

Lemma findUser_by_email (db : database) (n e : string) (u : Users.row) :
  e ≠ ""%string → In u (users db) →
  JS.toLowerCase (Users.email u) = JS.toLowerCase (JS.trim (JS.toLowerCase e)) →
  ∃ found, findUser db n (Some e) = Some found.
Proof.
  intros He Hin Hemail. unfold findUser. rewrite (truthy_string_nonempty _ He).
  destruct (existsb_find (by_email_or_slug (JS.trim (JS.toLowerCase e)) n) (users db))
    as (found & Hfound & _); [|exists found; exact Hfound].
  apply existsb_exists. exists u. split; [exact Hin|].
  unfold by_email_or_slug. rewrite Hemail, String.eqb_refl. reflexivity.
Qed.

(** X27. Looking an account up by e-mail address alone never works
    through the routes: GET /api/subscription/status with an [email] and
    no [site], GET /api/client-plan and GET /api/client-billing all answer
    500 'internal_error', whatever the database holds.  With a [site]
    parameter, even an empty one, GET /api/subscription/status answers
    200 as soon as an account has the address (in any letter case), and
    404 'user_not_found' when no account matches the site or the
    address. *)
Theorem status_by_email (db : database) (now : Z) (email0 : string) :
  email0 ≠ ""%string →
  SubscriptionRoutes.get_status db now None (Some email0)
  = SubscriptionRoutes.respond 500 (SubscriptionRoutes.failure "internal_error")
  ∧ LegacyRoutes.client_plan db now (Some email0)
    = LegacyRoutes.respond 500 (LegacyRoutes.failure "internal_error")
  ∧ LegacyRoutes.client_billing db now (Some email0)
    = LegacyRoutes.respond 500 (LegacyRoutes.failure "internal_error")
  ∧ (∀ site0 u,
       In u (users db) →
       JS.toLowerCase (Users.email u) = JS.toLowerCase (JS.trim (JS.toLowerCase email0)) →
       ∃ st, SubscriptionRoutes.get_status db now (Some site0) (Some email0)
             = SubscriptionRoutes.respond 200 (SubscriptionRoutes.found st))
  ∧ (∀ site0,
       findUser db (JS.toUpperCase (JS.trim site0)) (Some email0) = None →
       SubscriptionRoutes.get_status db now (Some site0) (Some email0)
       = SubscriptionRoutes.respond 404 (SubscriptionRoutes.failure "user_not_found")).
Proof.
  intros Hemail.
  unfold SubscriptionRoutes.get_status, LegacyRoutes.client_plan,
    LegacyRoutes.client_billing, getSubscriptionStatus.
  cbn [JS.truthy_opt_string SiteService.normalizeSiteSlug mbind JS.result_bind].
  rewrite (truthy_string_nonempty _ Hemail). cbn [negb andb].
  split; [reflexivity|]. split; [reflexivity|]. split; [reflexivity|]. split.
  - intros site0 u Hin Hu. rewrite andb_false_r.
    destruct (findUser_by_email db (JS.toUpperCase (JS.trim site0)) email0 u Hemail Hin Hu)
      as (found & ->).
    eexists. reflexivity.
  - intros site0 Hnone. rewrite andb_false_r, Hnone. reflexivity.
Qed.

End StatusRoutes.

Lemma status_by_email_witness :
  LegacyRoutes.client_plan exampleDb exampleNow (Some "ana@example.com"%string)
  = LegacyRoutes.respond 500 (LegacyRoutes.failure "internal_error")
  ∧ ∃ st, SubscriptionRoutes.get_status exampleDb exampleNow (Some ""%string)
            (Some "Ana@Example.com"%string)
          = SubscriptionRoutes.respond 200 (SubscriptionRoutes.found st).
Proof.
  split.
  - destruct (status_by_email exampleDb exampleNow "ana@example.com") as (_ & Hplan & _);
      [discriminate|exact Hplan].
  - destruct (status_by_email exampleDb exampleNow "Ana@Example.com")
      as (_ & _ & _ & Hfound & _); [discriminate|].
    apply (Hfound "" ana); [left; reflexivity|reflexivity].
Defined.

Section PlanUpgrade.
Import AuthMiddleware SubscriptionService SubscriptionService2.
Context `{Jwt}.

Lemma verifyToken_bearer (authorization : option string) (payload : Auth.token) :
  bearer_of authorization payload → verifyToken authorization = next payload.
Proof.
  intros Hbearer. pose proof (verifyToken_cases authorization) as Hcases.
  destruct (verifyToken authorization) as [payload'|code error].
  - destruct Hbearer as (token & Hheader & _ & Hverify).
    destruct Hcases as (token' & Hheader' & _ & Hverify').
    rewrite Hheader in Hheader'. injection Hheader' as Hheader'.
    change (token = token') in Hheader'. subst token'. congruence.
  - destruct Hcases as (_ & _ & Hnone). destruct (Hnone payload Hbearer).
Qed.

(** X28. POST /api/subscription/upgrade-plan lets every caller with a
    verifying token whose account exists put that account on the 'vip'
    plan: the answer is 200, GET /api/auth/me then shows the plan 'vip', and
    [getSubscriptionStatus] reports [isVip] for the account whatever its
    billing status, which is left as it was.  The token is not renewed:
    unless it already said 'admin' or 'vip', [requireVipOrAdmin] keeps
    answering 403 to it. *)
Theorem upgrade_plan_self_service (db : database) (now : Z)
    (authorization : option string) (t : Auth.token) (u : Users.row) :
  bearer_of authorization t →
  AuthService.getUserById db (Auth.id t) = Some u →
  ∃ db',
    SubscriptionRoutes.upgrade_plan db now authorization (Some "vip"%string)
    = (db', SubscriptionRoutes.respond 200 (SubscriptionRoutes.upgraded (Auth.id t) "vip"))
    ∧ AuthRoutes.get_me db' t
      = AuthRoutes.respond 200 (AuthRoutes.me (AuthService.view (set_plan "vip" now u)))
    ∧ (∀ now' slug email,
         findUser db (JS.toUpperCase (JS.trim slug)) email = Some u →
         ∃ st, getSubscriptionStatus db' now' (Some slug) email = Ok st
             ∧ isVip st = true
             ∧ billingStatus st = Users.billing_status u)
    ∧ (Auth.role t ≠ "admin"%string → Auth.plan t ≠ Some "vip"%string →
       requireVipOrAdmin (Some t) = answered 403 "vip_or_admin_required")
    ∧ sites db' = sites db ∧ settings_kv db' = settings_kv db
    ∧ feedbacks db' = feedbacks db.
Proof.
  intros Hbearer Hu.
  change (getUserById db (Auth.id t) = Some u) in Hu.
  destruct (getUserById_exists _ _ _ Hu) as [Hid Hexists].
  set (g := λ x, if has_id (Auth.id t) x then set_plan "vip" now x else x).
  assert (Hgid : ∀ x, Users.id (g x) = Users.id x)
    by (intros x; unfold g; destruct (has_id (Auth.id t) x); reflexivity).
  exists (with_users (List.map g (users db)) db).
  split; [|split; [|split; [|split; [|split; [reflexivity|split; reflexivity]]]]].
  - unfold SubscriptionRoutes.upgrade_plan. rewrite (verifyToken_bearer _ _ Hbearer).
    unfold SubscriptionRoutes.upgrade_plan_handler, upgradePlan.
    cbn [JS.truthy_string negb existsb String.eqb Ascii.eqb Bool.eqb orb andb].
    rewrite changes_zero, Hexists. reflexivity.
  - unfold AuthRoutes.get_me.
    change (AuthService.getUserById ?d ?i) with (getUserById d i).
    rewrite (getUserById_map g) by exact Hgid. rewrite Hu. cbn [option_map].
    unfold g. rewrite Hid. reflexivity.
  - intros now' slug email Hfind. unfold getSubscriptionStatus.
    cbn [SiteService.normalizeSiteSlug mbind JS.result_bind].
    rewrite (findUser_map g), Hfind;
      [|intros x; unfold g; destruct (has_id (Auth.id t) x); reflexivity..].
    cbn [option_map]. unfold g. rewrite Hid.
    eexists. split; [reflexivity|]. split; reflexivity.
  - intros Hrole Hplan.
    pose proof (requireVipOrAdmin_next t) as Hgate.
    destruct (requireVipOrAdmin (Some t)) as [t'|code error] eqn:Hrequire.
    + unfold requireVipOrAdmin in Hrequire.
      destruct (negb _ && negb _); [discriminate Hrequire|].
      injection Hrequire as <-. destruct (proj1 Hgate eq_refl); contradiction.
    + unfold requireVipOrAdmin in Hrequire.
      destruct (negb _ && negb _); [exact (eq_sym Hrequire)|discriminate Hrequire].
Qed.

End PlanUpgrade.

Lemma upgrade_plan_self_service_witness :
  ∃ db',
    @SubscriptionRoutes.upgrade_plan example_jwt exampleDb exampleNow
      (Some "Bearer essential-token"%string) (Some "vip"%string)
    = (db', SubscriptionRoutes.respond 200 (SubscriptionRoutes.upgraded 2 "vip"))
    ∧ ∃ st, SubscriptionService.getSubscriptionStatus db' exampleNow (Some "shop"%string) None
            = Ok st
          ∧ SubscriptionService.isVip st = true.
Proof.
  destruct (@upgrade_plan_self_service example_jwt exampleDb exampleNow
              (Some "Bearer essential-token"%string) essentialToken bob)
    as (db' & Hroute & _ & Hstatus & _).
  - exists "essential-token"%string.
    split; [reflexivity|]. split; [discriminate|reflexivity].
  - reflexivity.
  - exists db'. split; [exact Hroute|].
    destruct (Hstatus exampleNow "shop" None eq_refl) as (st & Hst & Hvip & _).
    exists st. split; [exact Hst|exact Hvip].
Defined.

Section StoredFeedback.
Import FeedbackService.

Lemma trimmed_or_null_Some (x : option string) (s : string) :
  trimmed_or_null x = Some s → s ≠ ""%string ∧ JS.trim s = s.
Proof.
  unfold trimmed_or_null. destruct x as [raw|]; [|discriminate].
  destruct (JS.truthy_string (JS.trim raw)) eqn:Htruthy; [|discriminate].
  intros [= <-]. split; [|apply trim_idem].
  intros Hempty. rewrite Hempty in Htruthy. discriminate Htruthy.
Qed.

Lemma lowered_or_null_Some (x : option string) (s : string) :
  lowered_or_null x = Some s →
  s ≠ ""%string ∧ JS.trim s = s ∧ JS.toLowerCase s = s.
Proof.
  unfold lowered_or_null. destruct x as [raw|]; [|discriminate].
  intros Hs. destruct (trimmed_or_null_Some _ _ Hs) as [Hnonempty Htrim].
  split; [exact Hnonempty|]. split; [exact Htrim|].
  unfold trimmed_or_null in Hs.
  destruct (JS.truthy_string _); [|discriminate Hs]. injection Hs as <-.
  unfold JS.toLowerCase. rewrite <- (trim_map _ _ is_space_lower).
  rewrite (map_string_idem _ _ lower_ascii_idem). reflexivity.
Qed.

(** X29. What [createFeedback] stores.  The new row gets an id that no
    feedback in the table has, the normal form of the site slug, a rating
    between 1 and 5, [approved = 0] and the comment without surrounding
    white space.  The name and the phone number are NULL or a non-empty
    string without surrounding white space, the e-mail address moreover
    in lower case.  The comment is not checked after trimming: one of
    white space only is stored as the empty string.  (White space and
    letter case are those of ASCII.) *)
Theorem createFeedback_stored (db db1 : database) (now : Z) (data : FeedbackData.t)
    (fb : created) :
  createFeedback db now data = Ok (db1, fb) →
  ∃ row,
    feedbacks db1 = feedbacks db ++ [row]
    ∧ Feedbacks.id row = id fb
    ∧ (∀ f, In f (feedbacks db) → Feedbacks.id f ≠ id fb)
    ∧ Feedbacks.site_slug row = siteSlug fb
    ∧ SiteService.normalizeSiteSlug (Some (siteSlug fb)) = Ok (siteSlug fb)
    ∧ (1 <= Feedbacks.rating row)%Q ∧ (Feedbacks.rating row <= 5)%Q
    ∧ Feedbacks.approved row = false
    ∧ Feedbacks.comment row = JS.trim (comment fb)
    ∧ (∀ s, Feedbacks.name row = Some s → s ≠ ""%string ∧ JS.trim s = s)
    ∧ (∀ s, Feedbacks.phone row = Some s → s ≠ ""%string ∧ JS.trim s = s)
    ∧ (∀ s, Feedbacks.email row = Some s →
            s ≠ ""%string ∧ JS.trim s = s ∧ JS.toLowerCase s = s)
    ∧ users db1 = users db ∧ sites db1 = sites db ∧ settings_kv db1 = settings_kv db.
Proof.
  unfold createFeedback.
  destruct (FeedbackData.siteSlug data) as [slug|]; [|discriminate].
  cbn [SiteService.normalizeSiteSlug mbind JS.result_bind].
  destruct (negb (truthy_rating (FeedbackData.rating data))
            || negb (JS.truthy_opt_string (FeedbackData.comment data))); [discriminate|].
  destruct (FeedbackData.rating data) as [r|]; [|discriminate].
  destruct (FeedbackData.comment data) as [c|]; [|discriminate].
  destruct (Qle_bool 1 r) eqn:Hlow; [|discriminate].
  destruct (Qle_bool r 5) eqn:Hhigh; [|discriminate].
  cbn [negb orb]. intros [= <- <-]. eexists.
  cbn [with_feedbacks feedbacks users sites settings_kv id siteSlug comment
       Feedbacks.id Feedbacks.site_slug Feedbacks.rating Feedbacks.approved
       Feedbacks.comment Feedbacks.name Feedbacks.phone Feedbacks.email].
  split; [reflexivity|]. split; [reflexivity|]. split.
  { intros f Hf Hid.
    pose proof (next_rowid_fresh (List.map Feedbacks.id (feedbacks db)) (Feedbacks.id f)
                  (in_map _ _ _ Hf)).
    lia. }
  split; [reflexivity|]. split; [f_equal; apply normalized_idem|].
  split; [apply Qle_bool_iff, Hlow|]. split; [apply Qle_bool_iff, Hhigh|].
  split; [reflexivity|]. split; [reflexivity|].
  split; [apply trimmed_or_null_Some|]. split; [apply trimmed_or_null_Some|].
  split; [apply lowered_or_null_Some|]. split; [reflexivity|]. split; reflexivity.
Qed.

End StoredFeedback.

Lemma createFeedback_stored_witness :
  ∃ db1 fb row,
    FeedbackService.createFeedback exampleDb exampleNow
      {| FeedbackData.siteSlug := Some " demo"%string;
         FeedbackData.name := Some "  "%string;
         FeedbackData.email := Some " Rui@Example.COM "%string;
         FeedbackData.phone := None;
         FeedbackData.rating := Some 4%Q;
         FeedbackData.comment := Some "   "%string |}
    = Ok (db1, fb)
    ∧ feedbacks db1 = [row]
    ∧ Feedbacks.site_slug row = "DEMO"%string
    ∧ Feedbacks.name row = None
    ∧ Feedbacks.email row = Some "rui@example.com"%string
    ∧ Feedbacks.comment row = ""%string.
Proof.
  destruct (FeedbackService.createFeedback exampleDb exampleNow
              {| FeedbackData.siteSlug := Some " demo"%string;
                 FeedbackData.name := Some "  "%string;
                 FeedbackData.email := Some " Rui@Example.COM "%string;
                 FeedbackData.phone := None;
                 FeedbackData.rating := Some 4%Q;
                 FeedbackData.comment := Some "   "%string |})
    as [[db1 fb]|e] eqn:Hcreate; [|vm_compute in Hcreate; discriminate Hcreate].
  destruct (createFeedback_stored _ _ _ _ _ Hcreate) as (row & Hrows & _).
  exists db1, fb, row. split; [reflexivity|]. split; [exact Hrows|].
  vm_compute in Hcreate. injection Hcreate as <- <-.
  injection Hrows as <-. split; [reflexivity|]. split; [reflexivity|]. split; reflexivity.
Defined.

Section FeedbackOrder.
Import FeedbackService2.

#[local] Instance feedback_newest_first_total : Total newest_first.
Proof. intros a b. unfold newest_first. lia. Qed.

#[local] Instance feedback_newest_first_trans : Transitive newest_first.
Proof. intros a b c. unfold newest_first. lia. Qed.

Lemma Sorted_skipn {A : Type} (R : A → A → Prop) (k : nat) (l : list A) :
  Sorted R l → Sorted R (List.skipn k l).
Proof.
  revert l. induction k as [|k IH]; intros [|a l] Hsorted; simpl; try assumption.
  apply IH. apply Sorted_inv in Hsorted as [Hl _]. exact Hl.
Qed.

Lemma In_page_before {A : Type} (n a b : nat) (l : list A) (x : A) :
  a + n ≤ b → In x (List.firstn n (List.skipn a l)) → In x (List.firstn b l).
Proof.
  intros Hab Hx.
  assert (Hin : In x (List.firstn (a + n) l)).
  { rewrite <- take_take_drop. apply in_or_app. right. exact Hx. }
  replace (List.firstn (a + n) l) with (List.firstn (a + n) (List.firstn b l)) in Hin.
  - eapply In_firstn, Hin.
  - rewrite take_take. f_equal. lia.
Qed.

(** X30. The order of a listing.  With a positive page size every page
    of [getFeedbacks] is sorted by time of creation, newest first, and
    the pages follow each other in that order: no feedback on a later
    page is newer than a feedback on an earlier page. *)
Theorem getFeedbacks_newest_first (db : database) (slug : string) (pageSize i j : Z)
    (opts : options) (p q : FeedbackPage.t) :
  (0 < pageSize)%Z → (1 ≤ i)%Z → (i < j)%Z →
  getFeedbacks db (Some slug) i pageSize opts = Ok p →
  getFeedbacks db (Some slug) j pageSize opts = Ok q →
  Sorted (λ x y, (y ≤ x)%Z) (List.map FeedbackView.created_at (FeedbackPage.feedbacks p))
  ∧ Sorted (λ x y, (y ≤ x)%Z) (List.map FeedbackView.created_at (FeedbackPage.feedbacks q))
  ∧ ∀ x y, In x (FeedbackPage.feedbacks p) → In y (FeedbackPage.feedbacks q) →
           (FeedbackView.created_at y ≤ FeedbackView.created_at x)%Z.
Proof.
  intros Hsize Hi Hij. unfold getFeedbacks.
  cbn [SiteService.normalizeSiteSlug mbind JS.result_bind].
  set (l := merge_sort newest_first _).
  intros [= <-] [= <-]. cbn [FeedbackPage.feedbacks].
  assert (Hsorted : Sorted newest_first l) by apply (Sorted_merge_sort newest_first).
  assert (Hpage : ∀ k, Sorted (λ x y, (y ≤ x)%Z)
                         (List.map FeedbackView.created_at
                            (List.map (view (default false (includePrivateInfo opts)))
                               (limit_offset pageSize ((k - 1) * pageSize) l)))).
  { intros k. rewrite List.map_map. cbn [view FeedbackView.created_at].
    apply Sorted_fmap with (R1 := newest_first); [auto|].
    unfold limit_offset. destruct (Z.ltb pageSize 0);
      [|apply Sorted_firstn]; apply Sorted_skipn, Hsorted. }
  split; [apply Hpage|]. split; [apply Hpage|].
  intros x y Hx Hy.
  apply in_map_iff in Hx as (f & <- & Hf). apply in_map_iff in Hy as (g & <- & Hg).
  cbn [view FeedbackView.created_at].
  unfold limit_offset in Hf, Hg.
  destruct (Z.ltb_spec pageSize 0) as [Hneg|_]; [lia|].
  apply (In_page_before _ _ (Z.to_nat ((j - 1) * pageSize))) in Hf; [|nia].
  apply In_firstn in Hg.
  apply (StronglySorted_app_1_elem_of newest_first
           (List.firstn (Z.to_nat ((j - 1) * pageSize)) l)
           (List.skipn (Z.to_nat ((j - 1) * pageSize)) l)).
  - rewrite take_drop. apply (Sorted_StronglySorted newest_first), Hsorted.
  - apply list_elem_of_In, Hf.
  - apply list_elem_of_In, Hg.
Qed.

End FeedbackOrder.

Lemma getFeedbacks_newest_first_witness :
  ∃ p q,
    FeedbackService2.getFeedbacks reviewsDb (Some "demo"%string) 1 2 fullListing = Ok p
    ∧ FeedbackService2.getFeedbacks reviewsDb (Some "demo"%string) 2 2 fullListing = Ok q
    ∧ List.map FeedbackView.created_at (FeedbackPage.feedbacks p) = [500; 400]%Z
    ∧ List.map FeedbackView.created_at (FeedbackPage.feedbacks q) = [200; 100]%Z
    ∧ ∀ x y, In x (FeedbackPage.feedbacks p) → In y (FeedbackPage.feedbacks q) →
             (FeedbackView.created_at y ≤ FeedbackView.created_at x)%Z.
Proof.
  eexists _, _. split; [reflexivity|]. split; [reflexivity|].
  split; [reflexivity|]. split; [reflexivity|].
  apply (getFeedbacks_newest_first reviewsDb "demo" 2 1 2 fullListing);
    [lia|lia|lia|reflexivity|reflexivity].
Defined.
